(** * reprozip, native/syscalls.c: the syscall table and its handlers

    A shallow embedding of [syscalls.c] (the X86_64 build, which has the three
    tables I386, X86_64 and X86_64_x32) and the properties of the dispatch
    engine and of the handlers that the specification states.

    The C code works on [struct Process *] pointers into the global array
    [processes]; here the array is a list and a pointer is an index into it.
    Calls to the database, to ptrace and to the logger are recorded, in
    program order, in one trace.  Reading through a null pointer, reading
    freed storage and reading past a table are outcomes of their own
    ([Crash] with its [Fault]), never a value.  The one recursion of the
    file, syscall_xxx_at calling a handler through the table, is bounded by
    a [depth]; [syscall_handle_depth] shows that 1 is enough for the tables
    of the file. *)

From Stdlib Require Import ZArith String Ascii List Bool Lia.
From stdpp Require Import base list.
Import ListNotations.

Local Open Scope string_scope.
Local Open Scope list_scope.
Local Open Scope Z_scope.

(** ** Constants of the system headers and of syscalls.c *)

Definition __X32_SYSCALL_BIT : Z := 0x40000000.
Definition SYS_CONNECT : Z := 3.
Definition SYS_ACCEPT : Z := 5.

Definition SYSCALL_I386 : nat := 0.
Definition SYSCALL_X86_64 : nat := 1.
Definition SYSCALL_X86_64_x32 : nat := 2.

Definition SYSCALL_OPENING_OPEN : Z := 1.
Definition SYSCALL_OPENING_ACCESS : Z := 2.
Definition SYSCALL_OPENING_CREAT : Z := 3.

Definition SYSCALL_FORK_FORK : Z := 1.
Definition SYSCALL_FORK_VFORK : Z := 2.
Definition SYSCALL_FORK_CLONE : Z := 3.

Definition CLONE_THREAD : Z := 0x00010000.

(** <fcntl.h> on Linux/x86. *)
Definition O_RDONLY : Z := 0.
Definition O_WRONLY : Z := 1.
Definition O_RDWR : Z := 2.
Definition O_ACCMODE : Z := 3.
Definition O_CREAT : Z := 64.    (* 0100 *)
Definition O_TRUNC : Z := 512.   (* 01000 *)
Definition AT_FDCWD : Z := -100.

(** <sys/socket.h>, <netinet/in.h>. *)
Definition AF_INET : Z := 2.
Definition AF_INET6 : Z := 10.
Definition sizeof_short : Z := 2.
Definition sizeof_socklen_t : Z := 4.
Definition sizeof_sockaddr_in : Z := 16.
Definition sizeof_sockaddr_in6 : Z := 28.

(** Mode bits of database.h; the specification fixes their values. *)
Definition FILE_READ : Z := 1.
Definition FILE_WRITE : Z := 2.
Definition FILE_WDIR : Z := 4.
Definition FILE_STAT : Z := 8.

(** Number of register arguments kept per task (tracer.h). *)
Definition PROCESS_ARGS : nat := 6.

(** ** Machine integers *)

(** Conversion to a [w]-bit unsigned and to a 32-bit signed integer. *)
Definition wrap (w : Z) (z : Z) : Z := z mod 2 ^ w.
Definition to_int (z : Z) : Z := (z + 2 ^ 31) mod 2 ^ 32 - 2 ^ 31.
Definition to_size_t (z : Z) : Z := wrap 64 z.
Definition to_socklen_t (z : Z) : Z := wrap 32 z.
Definition to_pid_t (z : Z) : Z := to_int z.

(** ** Data model (tracer.h) *)

(** A register, with its three readings. *)
Module Reg.
Record register_type := mk { i : Z; u : Z; p : Z }.
Definition zero : register_type := mk 0 0 0.
End Reg.
Abbreviation register_type := Reg.register_type.

Inductive Mode := MODE_I386 | MODE_X86_64.

Inductive Status :=
  PROCESS_FREE | PROCESS_ALLOCATED | PROCESS_ATTACHED | PROCESS_UNKNOWN.

Record ExecveInfo := {
  binary : string;
  argv : list string;
  envp : list string;
}.

(** [wd] is an owned C string: [None] when there is no live buffer behind
    the pointer (it went through [free] and dangles, or was never set).
    [syscall_info] is the [void *] scratch pointer, [None] for NULL. *)
Record Process := {
  identifier : Z;
  mode : Mode;
  tid : Z;
  tgid : Z;
  status : Status;
  in_syscall : bool;
  current_syscall : Z;
  retvalue : register_type;
  params : list register_type;
  syscall_info : option ExecveInfo;
  wd : option string;
}.

Definition set_identifier (v : Z) (q : Process) : Process :=
  {| identifier := v; mode := mode q; tid := tid q; tgid := tgid q;
     status := status q; in_syscall := in_syscall q;
     current_syscall := current_syscall q; retvalue := retvalue q;
     params := params q; syscall_info := syscall_info q; wd := wd q |}.
Definition set_tid (v : Z) (q : Process) : Process :=
  {| identifier := identifier q; mode := mode q; tid := v; tgid := tgid q;
     status := status q; in_syscall := in_syscall q;
     current_syscall := current_syscall q; retvalue := retvalue q;
     params := params q; syscall_info := syscall_info q; wd := wd q |}.
Definition set_tgid (v : Z) (q : Process) : Process :=
  {| identifier := identifier q; mode := mode q; tid := tid q; tgid := v;
     status := status q; in_syscall := in_syscall q;
     current_syscall := current_syscall q; retvalue := retvalue q;
     params := params q; syscall_info := syscall_info q; wd := wd q |}.
Definition set_status (v : Status) (q : Process) : Process :=
  {| identifier := identifier q; mode := mode q; tid := tid q; tgid := tgid q;
     status := v; in_syscall := in_syscall q;
     current_syscall := current_syscall q; retvalue := retvalue q;
     params := params q; syscall_info := syscall_info q; wd := wd q |}.
Definition set_in_syscall (v : bool) (q : Process) : Process :=
  {| identifier := identifier q; mode := mode q; tid := tid q; tgid := tgid q;
     status := status q; in_syscall := v;
     current_syscall := current_syscall q; retvalue := retvalue q;
     params := params q; syscall_info := syscall_info q; wd := wd q |}.
Definition set_current_syscall (v : Z) (q : Process) : Process :=
  {| identifier := identifier q; mode := mode q; tid := tid q; tgid := tgid q;
     status := status q; in_syscall := in_syscall q;
     current_syscall := v; retvalue := retvalue q;
     params := params q; syscall_info := syscall_info q; wd := wd q |}.
Definition set_params (v : list register_type) (q : Process) : Process :=
  {| identifier := identifier q; mode := mode q; tid := tid q; tgid := tgid q;
     status := status q; in_syscall := in_syscall q;
     current_syscall := current_syscall q; retvalue := retvalue q;
     params := v; syscall_info := syscall_info q; wd := wd q |}.
Definition set_syscall_info (v : option ExecveInfo) (q : Process) : Process :=
  {| identifier := identifier q; mode := mode q; tid := tid q; tgid := tgid q;
     status := status q; in_syscall := in_syscall q;
     current_syscall := current_syscall q; retvalue := retvalue q;
     params := params q; syscall_info := v; wd := wd q |}.
Definition set_wd (v : option string) (q : Process) : Process :=
  {| identifier := identifier q; mode := mode q; tid := tid q; tgid := tgid q;
     status := status q; in_syscall := in_syscall q;
     current_syscall := current_syscall q; retvalue := retvalue q;
     params := params q; syscall_info := syscall_info q; wd := v |}.

Definition Status_eqb (a b : Status) : bool :=
  match a, b with
  | PROCESS_FREE, PROCESS_FREE | PROCESS_ALLOCATED, PROCESS_ALLOCATED
  | PROCESS_ATTACHED, PROCESS_ATTACHED | PROCESS_UNKNOWN, PROCESS_UNKNOWN => true
  | _, _ => false
  end.

(** ** Effects *)

Inductive Level := DEBUG | INFO | WARNING | ERROR | CRITICAL.

(** What print_sockaddr writes: the three shapes of its output, with the
    bytes it formats. *)
Inductive Endpoint :=
| Inet4 (addr : list Z) (port : Z)
| Inet6 (addr : list Z) (port : Z)
| UnknownFamily (family : Z).

(** One constructor per format string of the file. *)
Inductive Message :=
| Msg_unhandled_path1 (name path : string)
| Msg_unhandled_other (name : string)
| Msg_fileopening (syscall : Z) (path : string) (mode_bits : Z) (ret : Z)
| Msg_execve_called (bin : string)
| Msg_execve_arg (arg : string)
| Msg_execve_envp (entries : nat)
| Msg_execve_not_recorded
| Msg_execd (bin : string)
| Msg_created (parent_tid : Z) (syscall : Z) (is_thread : bool) (cwd : string)
| Msg_already_running (st : Status)
| Msg_count (nproc unknown : Z)
| Msg_accepted (peer : Endpoint)
| Msg_connected (peer : Endpoint)
| Msg_invalid_at (real_syscall : Z)
| Msg_syscall (number : Z) (abi : nat)
| Msg_invalid_syscall (number : Z)
| Msg_transition (abi : nat)
| Msg_entry_name (name : string).

(** The calls that leave the tracer, as the trace records them. *)
Inductive Effect :=
| Db_add_process (parent_id : Z) (working_dir : string)
| Db_add_file_open (id : Z) (path : string) (mode_bits : Z) (is_dir : bool)
| Db_add_exec (id : Z) (bin : string) (args env : list string)
    (working_dir : string)
| Db_add_exit (id : Z) (exitcode : Z)
| Trace_add_files_from_proc (id : Z) (task : Z) (bin : string)
| Ptrace_syscall (task : Z)
| Log (lvl : Level) (task : Z) (msg : Message).

(** The events of the sink among the effects. *)
Definition is_event (e : Effect) : bool :=
  match e with
  | Ptrace_syscall _ | Log _ _ _ => false
  | _ => true
  end.

Definition is_log (e : Effect) : bool :=
  match e with Log _ _ _ => true | _ => false end.

Definition events (t : list Effect) : list Effect := List.filter is_event t.
Definition logs (t : list Effect) : list Effect := List.filter is_log t.

(** ** State and outcomes *)

Record World := {
  processes : list Process;
  trace : list Effect;
}.

Inductive Fault :=
| NullDereference      (* read through a NULL pointer *)
| UseAfterFree         (* read or free of a freed buffer *)
| OutOfBounds          (* read past the end of a table *)
| BadPointer           (* a [struct Process *] that is no slot of the array *)
| StackExhausted.      (* recursion deeper than the stack *)

Inductive Result (A : Type) :=
| Done (a : A)
| Crash (f : Fault).
Arguments Done {A} a.
Arguments Crash {A} f.

Definition M (A : Type) : Type := World -> Result A * World.

Definition ret {A} (a : A) : M A := fun w => (Done a, w).

Definition bind {A B} (m : M A) (k : A -> M B) : M B :=
  fun w =>
    match m w with
    | (Done a, w') => k a w'
    | (Crash f, w') => (Crash f, w')
    end.

Definition crash {A} (f : Fault) : M A := fun w => (Crash f, w).

Notation "x <- c ;; k" := (bind c (fun x => k))
  (at level 100, c at next level, right associativity).
Notation "c ;; k" := (bind c (fun _ => k))
  (at level 100, right associativity).

(** [when c m]: a C [if] without [else] around statements. *)
Definition when (c : bool) (m : M unit) : M unit :=
  if c then m else ret tt.

(** Reading [*process]. *)
Definition load (pi : nat) : M Process :=
  fun w =>
    match processes w !! pi with
    | Some q => (Done q, w)
    | None => (Crash BadPointer, w)
    end.

(** An assignment to a field of [*process]. *)
Definition store (pi : nat) (f : Process -> Process) : M unit :=
  fun w =>
    match processes w !! pi with
    | Some q =>
        (Done tt, {| processes := <[pi := f q]> (processes w);
                     trace := trace w |})
    | None => (Crash BadPointer, w)
    end.

Definition get_processes : M (list Process) :=
  fun w => (Done (processes w), w).

Definition emit (e : Effect) : M unit :=
  fun w => (Done tt, {| processes := processes w; trace := trace w ++ [e] |}).

(** Reading a C string that may have been freed, or through a pointer that
    may be NULL. *)
Definition live {A} (o : option A) : M A :=
  match o with Some a => ret a | None => crash UseAfterFree end.
Definition nonnull {A} (o : option A) : M A :=
  match o with Some a => ret a | None => crash NullDereference end.

(** ** The collaborators outside syscalls.c

    What the handlers obtain from the tracee, from the file system and from
    the database is not determined by this file: it is a parameter.  The
    status a sink call answers may depend on everything done before it. *)
Record Env := {
  (* log.c: the global trace_verbosity *)
  verbosity : Z;
  (* ptrace_utils.c, by tid and tracee address *)
  tracee_strdup : Z -> Z -> string;
  tracee_strarraydup : Mode -> Z -> Z -> list string;
  tracee_read : Z -> Z -> Z -> list Z;          (* tid, address, length *)
  tracee_getptr : Mode -> Z -> Z -> Z;
  tracee_getlong : Mode -> Z -> Z -> Z;
  (* utils.c: a stat of the path *)
  path_is_dir : string -> bool;
  (* tracer.c: the numbers of tasks and of unattached tasks *)
  trace_count_processes : list Process -> Z * Z;
  (* the status of a call to the database or to the /proc scraper, given
     the trace so far; and the identifier db_add_process vends *)
  call_status : list Effect -> Effect -> Z;
  db_new_identifier : list Effect -> Z;
}.

(** *** Path Resolver (utils.c) *)

Definition slash : ascii := "/"%char.

Definition is_absolute (pathname : string) : bool :=
  match pathname with
  | String c _ => Ascii.eqb c slash
  | EmptyString => false
  end.

Fixpoint segments (s : string) : list string :=
  match s with
  | EmptyString => [EmptyString]
  | String c rest =>
      if Ascii.eqb c slash then EmptyString :: segments rest
      else match segments rest with
           | [] => [String c EmptyString]
           | seg :: more => String c seg :: more
           end
  end.

Fixpoint normalise (stack segs : list string) : list string :=
  match segs with
  | [] => rev stack
  | seg :: more =>
      if String.eqb seg "" || String.eqb seg "." then normalise stack more
      else if String.eqb seg ".." then normalise (tail stack) more
      else normalise (seg :: stack) more
  end.

Definition join_segments (segs : list string) : string :=
  match segs with
  | [] => "/"
  | _ => List.fold_right (fun seg acc => ("/" ++ seg ++ acc)%string) "" segs
  end.

(** Modelled from the spec: [abspath] of utils.c, the relative case of
    resolve_path: join [wd], a slash and [raw], then normalise the [.] and
    [..] segments lexically. *)
Definition abspath (cwd raw : string) : string :=
  join_segments (normalise [] (segments (cwd ++ "/" ++ raw)%string)).

(** Modelled from the spec: [flags2mode] of utils.c.  FILE_READ if the access
    mode is RDONLY or RDWR; FILE_WRITE if the access mode is WRONLY or RDWR,
    or O_CREAT or O_TRUNC is set. *)
Definition flags2mode (flags : Z) : Z :=
  let acc := Z.land flags O_ACCMODE in
  Z.lor
    (if (acc =? O_RDONLY) || (acc =? O_RDWR) then FILE_READ else 0)
    (if (acc =? O_WRONLY) || (acc =? O_RDWR)
        || negb (Z.land flags O_CREAT =? 0)
        || negb (Z.land flags O_TRUNC =? 0)
     then FILE_WRITE else 0).

(** Modelled from the spec: [tracee_getwordsize] of ptrace_utils.c, 4 bytes on
    I386 and 8 bytes on X86_64. *)
Definition tracee_getwordsize (m : Mode) : Z :=
  match m with MODE_I386 => 4 | MODE_X86_64 => 8 end.

(** *** Process Registry (tracer.c) *)

Fixpoint find_index {A} (f : A -> bool) (l : list A) : option nat :=
  match l with
  | [] => None
  | x :: rest => if f x then Some O else option_map S (find_index f rest)
  end.

(** Modelled from the spec: [trace_find_process] of tracer.c, the look-up of
    a tid among the known tasks; a FREE slot holds no task. *)
Definition trace_find_process (ps : list Process) (t : Z) : option nat :=
  find_index
    (fun q => negb (Status_eqb (status q) PROCESS_FREE) && (tid q =? t)) ps.

(** A slot the registry has just allocated. *)
Definition blank_process : Process :=
  {| identifier := 0; mode := MODE_X86_64; tid := 0; tgid := 0;
     status := PROCESS_FREE; in_syscall := false; current_syscall := -1;
     retvalue := Reg.zero; params := replicate PROCESS_ARGS Reg.zero;
     syscall_info := None; wd := None |}.

(** Modelled from the spec: [trace_get_empty_process] of tracer.c: a FREE slot
    is reused, and when there is none the registry grows by a fresh slot. *)
Definition trace_get_empty_process : M nat :=
  fun w =>
    match find_index (fun q => Status_eqb (status q) PROCESS_FREE)
                     (processes w) with
    | Some n => (Done n, w)
    | None =>
        (Done (List.length (processes w)),
         {| processes := processes w ++ [blank_process];
            trace := trace w |})
    end.

(** ** The handlers *)

Section Handlers.

Variable env : Env.

Definition log (lvl : Level) (task : Z) (msg : Message) : M unit :=
  emit (Log lvl task msg).

(** A call that answers a status: the database and the /proc scraper. *)
Definition sink (e : Effect) : M Z :=
  fun w =>
    (Done (call_status env (trace w) e),
     {| processes := processes w; trace := trace w ++ [e] |}).

Definition db_add_file_open (id : Z) (path : string) (m : Z) (is_dir : bool)
  : M Z := sink (Db_add_file_open id path m is_dir).
Definition db_add_exit (id : Z) (code : Z) : M Z := sink (Db_add_exit id code).
Definition db_add_exec (id : Z) (bin : string) (args env' : list string)
    (cwd : string) : M Z := sink (Db_add_exec id bin args env' cwd).
Definition trace_add_files_from_proc (id task : Z) (bin : string) : M Z :=
  sink (Trace_add_files_from_proc id task bin).

(** [db_add_process(&new->identifier, parent, wd)]: the identifier is
    written when the sink accepted the row. *)
Definition db_add_process (np : nat) (parent_id : Z) (cwd : string) : M Z :=
  fun w =>
    let rc := call_status env (trace w) (Db_add_process parent_id cwd) in
    let w' := {| processes := processes w;
                 trace := trace w ++ [Db_add_process parent_id cwd] |} in
    if rc =? 0
    then bind (store np (set_identifier (db_new_identifier env (trace w))))
              (fun _ => ret rc) w'
    else (Done rc, w').

(** [process->params[n]]. *)
Definition param (q : Process) (n : nat) : M register_type :=
  match params q !! n with
  | Some r => ret r
  | None => crash OutOfBounds
  end.

Definition abs_path_arg (q : Process) (arg : nat) : M string :=
  r <- param q arg ;;
  let pathname := tracee_strdup env (tid q) (Reg.p r) in
  if negb (is_absolute pathname)
  then cwd <- live (wd q) ;; ret (abspath cwd pathname)
  else ret pathname.

(** *** Unhandled syscalls *)

Definition syscall_unhandled_path1 (name : option string) (pi : nat)
    (udata : Z) : M Z :=
  q <- load pi ;;
  match name with
  | Some nm =>
      if (1 <=? verbosity env) && in_syscall q && (0 <=? Reg.i (retvalue q))
      then pathname <- abs_path_arg q 0 ;;
           log WARNING (tid q) (Msg_unhandled_path1 nm pathname) ;;
           ret 0
      else ret 0
  | None => ret 0
  end.

Definition syscall_unhandled_other (name : option string) (pi : nat)
    (udata : Z) : M Z :=
  q <- load pi ;;
  match name with
  | Some nm =>
      if (1 <=? verbosity env) && in_syscall q && (0 <=? Reg.i (retvalue q))
      then log WARNING (tid q) (Msg_unhandled_other nm) ;; ret 0
      else ret 0
  | None => ret 0
  end.

(** *** open(), creat(), access() *)

Definition syscall_fileopening (name : option string) (pi : nat)
    (syscall : Z) : M Z :=
  q <- load pi ;;
  pathname <- abs_path_arg q 0 ;;
  m <- (if syscall =? SYSCALL_OPENING_ACCESS then ret FILE_STAT
        else if syscall =? SYSCALL_OPENING_CREAT
        then r <- param q 1 ;;
             ret (flags2mode
                    (Z.lor (Z.lor (Z.lor (Reg.u r) O_CREAT) O_WRONLY) O_TRUNC))
        else r <- param q 1 ;; ret (flags2mode (Reg.u r))) ;;
  when (3 <=? verbosity env)
       (log DEBUG (tid q)
            (Msg_fileopening syscall pathname m (to_int (Reg.i (retvalue q))))) ;;
  if 0 <=? Reg.i (retvalue q)
  then rc <- db_add_file_open (identifier q) pathname m
                              (path_is_dir env pathname) ;;
       if negb (rc =? 0) then ret (-1) else ret 0
  else ret 0.

(** *** stat(), lstat() *)

Definition syscall_filestat (name : option string) (pi : nat) (udata : Z)
  : M Z :=
  q <- load pi ;;
  pathname <- abs_path_arg q 0 ;;
  if 0 <=? Reg.i (retvalue q)
  then rc <- db_add_file_open (identifier q) pathname FILE_STAT
                              (path_is_dir env pathname) ;;
       if negb (rc =? 0) then ret (-1) else ret 0
  else ret 0.

(** *** readlink() *)

Definition syscall_readlink (name : option string) (pi : nat) (udata : Z)
  : M Z :=
  q <- load pi ;;
  pathname <- abs_path_arg q 0 ;;
  if 0 <=? Reg.i (retvalue q)
  then rc <- db_add_file_open (identifier q) pathname FILE_STAT false ;;
       if negb (rc =? 0) then ret (-1) else ret 0
  else ret 0.

(** *** mkdir() *)

Definition syscall_mkdir (name : option string) (pi : nat) (udata : Z)
  : M Z :=
  q <- load pi ;;
  pathname <- abs_path_arg q 0 ;;
  if 0 <=? Reg.i (retvalue q)
  then rc <- db_add_file_open (identifier q) pathname FILE_WRITE true ;;
       if negb (rc =? 0) then ret (-1) else ret 0
  else ret 0.

(** *** symlink() *)

Definition syscall_symlink (name : option string) (pi : nat)
    (is_symlinkat : Z) : M Z :=
  q <- load pi ;;
  dirfd <- (if negb (is_symlinkat =? 0) then param q 1 else ret Reg.zero) ;;
  if negb (is_symlinkat =? 0) && negb (Reg.i dirfd =? AT_FDCWD)
  then syscall_unhandled_other name pi 0
  else
    pathname <- (if negb (is_symlinkat =? 0) then abs_path_arg q 2
                 else abs_path_arg q 1) ;;
    if 0 <=? Reg.i (retvalue q)
    then rc <- db_add_file_open (identifier q) pathname FILE_WRITE true ;;
         if negb (rc =? 0) then ret (-1) else ret 0
    else ret 0.

(** *** chdir() *)

Definition syscall_chdir (name : option string) (pi : nat) (udata : Z)
  : M Z :=
  q <- load pi ;;
  pathname <- abs_path_arg q 0 ;;
  if 0 <=? Reg.i (retvalue q)
  then _ <- live (wd q) ;;                       (* free(process->wd) *)
       store pi (set_wd (Some pathname)) ;;
       rc <- db_add_file_open (identifier q) pathname FILE_WDIR true ;;
       if negb (rc =? 0) then ret (-1) else ret 0
  else ret 0.

(** *** execve() *)

Fixpoint log_each (task : Z) (args : list string) : M unit :=
  match args with
  | [] => ret tt
  | a :: rest => log DEBUG task (Msg_execve_arg a) ;; log_each task rest
  end.

Definition syscall_execve_in (name : option string) (pi : nat) (udata : Z)
  : M Z :=
  q <- load pi ;;
  bin <- abs_path_arg q 0 ;;
  r1 <- param q 1 ;;
  r2 <- param q 2 ;;
  let execi :=
    {| binary := bin;
       argv := tracee_strarraydup env (mode q) (tid q) (Reg.p r1);
       envp := tracee_strarraydup env (mode q) (tid q) (Reg.p r2) |} in
  when (3 <=? verbosity env)
       (log DEBUG (tid q) (Msg_execve_called (binary execi)) ;;
        log_each (tid q) (argv execi) ;;
        log DEBUG (tid q) (Msg_execve_envp (List.length (envp execi)))) ;;
  store pi (set_syscall_info (Some execi)) ;;
  ret 0.

(** The condition of the search loop for the thread that called execve. *)
Definition is_execve_caller (group : Z) (nr : Z) (q : Process) : bool :=
  Status_eqb (status q) PROCESS_ATTACHED
  && (tgid q =? group)
  && in_syscall q
  && (current_syscall q =? nr)
  && match syscall_info q with Some _ => true | None => false end.

(** The part of syscall_execve_out after the search: [execi] is the scratch
    pointer picked up so far, [ep] is [exec_process]. *)
Definition execve_out_finish (pi ep : nat) (execi : option ExecveInfo)
  : M Z :=
  q <- load pi ;;
  let release :=
    x <- nonnull execi ;;          (* free_strarray(execi->argv) ... *)
    store ep (set_syscall_info None) ;;
    ret 0 in
  if 0 <=? Reg.i (retvalue q)
  then x <- nonnull execi ;;
       cwd <- live (wd q) ;;
       rc <- db_add_exec (identifier q) (binary x) (argv x) (envp x) cwd ;;
       if negb (rc =? 0) then ret (-1)
       else
         when (2 <=? verbosity env)
              (e <- load ep ;; log INFO (tid e) (Msg_execd (binary x))) ;;
         rc' <- trace_add_files_from_proc (identifier q) (tid q) (binary x) ;;
         if negb (rc' =? 0) then ret (-1) else release
  else release.

Definition syscall_execve_out (name : option string) (pi : nat)
    (execve_syscall : Z) : M Z :=
  q <- load pi ;;
  let exec_process : option nat := Some pi in
  match syscall_info q with
  | Some execi => execve_out_finish pi pi (Some execi)
  | None =>
      ps <- get_processes ;;
      let exec_process :=
        match find_index (is_execve_caller (tgid q) (to_int execve_syscall)) ps
        with
        | Some n => Some n
        | None => exec_process
        end in
      match exec_process with
      | None =>
          log CRITICAL (tid q) Msg_execve_not_recorded ;;
          ret (-1)
      | Some ep =>
          e <- load ep ;;
          let execi := syscall_info e in
          rc <- db_add_exit (identifier e) 0 ;;
          if negb (rc =? 0) then ret (-1)
          else
            _ <- live (wd e) ;;                  (* free(exec_process->wd) *)
            store ep (set_wd None) ;;
            store ep (set_status PROCESS_FREE) ;;
            execve_out_finish pi ep execi
      end
  end.

(** *** fork(), vfork(), clone() *)

(** The end of syscall_forking, common to both branches. *)
Definition forking_finish (pi np : nat) (is_thread : Z) : M Z :=
  (if negb (is_thread =? 0)
   then q <- load pi ;; store np (set_tgid (tgid q))
   else n <- load np ;; store np (set_tgid (tid n))) ;;
  q <- load pi ;;
  cwd <- live (wd q) ;;
  store np (set_wd (Some cwd)) ;;                (* strdup(process->wd) *)
  q' <- load pi ;;
  cwd' <- live (wd q') ;;
  rc <- db_add_process np (identifier q') cwd' ;;
  if negb (rc =? 0) then ret (-1) else ret 0.

(** The branch of syscall_forking for a tid the registry knows. *)
Definition forking_known (pi np : nat) (new_tid is_thread : Z) : M Z :=
  n <- load np ;;
  if negb (Status_eqb (status n) PROCESS_UNKNOWN)
  then log CRITICAL new_tid (Msg_already_running (status n)) ;;
       ret (-1)
  else
    store np (set_status PROCESS_ATTACHED) ;;
    emit (Ptrace_syscall (tid n)) ;;
    when (2 <=? verbosity env)
         (ps' <- get_processes ;;
          let '(nproc, unknown) := trace_count_processes env ps' in
          log INFO 0 (Msg_count nproc unknown)) ;;
    forking_finish pi np is_thread.

(** The branch for a tid seen for the first time. *)
Definition forking_fresh (pi : nat) (new_tid is_thread : Z) : M Z :=
  np <- trace_get_empty_process ;;
  store np (set_status PROCESS_ALLOCATED) ;;
  store np (set_tid new_tid) ;;
  store np (set_in_syscall false) ;;
  forking_finish pi np is_thread.

Definition syscall_forking (name : option string) (pi : nat) (syscall : Z)
  : M Z :=
  q <- load pi ;;
  if 0 <? Reg.i (retvalue q)
  then
    let new_tid := to_pid_t (Reg.i (retvalue q)) in
    is_thread <- (if syscall =? SYSCALL_FORK_CLONE
                  then r <- param q 0 ;;
                       ret (to_int (Z.land (Reg.u r) CLONE_THREAD))
                  else ret 0) ;;
    when (2 <=? verbosity env)
         (cwd <- live (wd q) ;;
          log INFO new_tid
              (Msg_created (tid q) syscall (negb (is_thread =? 0)) cwd)) ;;
    ps <- get_processes ;;
    match trace_find_process ps new_tid with
    | Some np => forking_known pi np new_tid is_thread
    | None => forking_fresh pi new_tid is_thread
    end
  else ret 0.

(** *** Network connections *)

Definition byte_at (bytes : list Z) (n : nat) : Z :=
  match bytes !! n with Some b => b | None => 0 end.

(** A little-endian unsigned integer of [n] bytes. *)
Fixpoint le_uint (n : nat) (bytes : list Z) : Z :=
  match n with
  | O => 0
  | S n' => byte_at bytes 0 + 256 * le_uint n' (tail bytes)
  end.

(** ntohs of the two bytes at [off]. *)
Definition be_uint16 (bytes : list Z) (off : nat) : Z :=
  256 * byte_at bytes off + byte_at bytes (S off).

Definition to_short (z : Z) : Z := (z + 2 ^ 15) mod 2 ^ 16 - 2 ^ 15.

Definition print_sockaddr (address : list Z) (addrlen : Z) : Endpoint :=
  let family := to_short (le_uint 2 address) in
  if (family =? AF_INET) && (sizeof_sockaddr_in <=? addrlen)
  then Inet4 (take 4 (drop 4 address)) (be_uint16 address 2)
  else if (family =? AF_INET6) && (sizeof_sockaddr_in6 <=? addrlen)
  then Inet6 (take 16 (drop 8 address)) (be_uint16 address 2)
  else UnknownFamily family.

Definition handle_accept (pi : nat) (arg1 arg2 : Z) : M Z :=
  q <- load pi ;;
  let addrlen :=
    le_uint 4 (tracee_read env (tid q) arg2 sizeof_socklen_t) in
  when (sizeof_short <=? addrlen)
       (let address := tracee_read env (tid q) arg1 addrlen in
        log WARNING (tid q) (Msg_accepted (print_sockaddr address addrlen))) ;;
  ret 0.

Definition handle_connect (pi : nat) (arg1 : Z) (addrlen : Z) : M Z :=
  q <- load pi ;;
  when (sizeof_short <=? addrlen)
       (let address := tracee_read env (tid q) arg1 addrlen in
        log WARNING (tid q) (Msg_connected (print_sockaddr address addrlen))) ;;
  ret 0.

Definition syscall_socketcall (name : option string) (pi : nat) (udata : Z)
  : M Z :=
  q <- load pi ;;
  r1 <- param q 1 ;;
  let args := Reg.u r1 in
  let wordsize := tracee_getwordsize (mode q) in
  r0 <- param q 0 ;;
  if Reg.u r0 =? SYS_ACCEPT
  then handle_accept pi
         (tracee_getptr env (mode q) (tid q) (wrap 64 (args + 1 * wordsize)))
         (tracee_getptr env (mode q) (tid q) (wrap 64 (args + 2 * wordsize)))
  else if Reg.u r0 =? SYS_CONNECT
  then handle_connect pi
         (tracee_getptr env (mode q) (tid q) (wrap 64 (args + 1 * wordsize)))
         (to_socklen_t
            (tracee_getlong env (mode q) (tid q)
                            (wrap 64 (args + 2 * wordsize))))
  else ret 0.

Definition syscall_accept (name : option string) (pi : nat) (udata : Z)
  : M Z :=
  q <- load pi ;;
  r1 <- param q 1 ;;
  r2 <- param q 2 ;;
  handle_accept pi (Reg.p r1) (Reg.p r2).

Definition syscall_connect (name : option string) (pi : nat) (udata : Z)
  : M Z :=
  q <- load pi ;;
  r1 <- param q 1 ;;
  r2 <- param q 2 ;;
  handle_connect pi (Reg.p r1) (to_socklen_t (Reg.u r2)).

End Handlers.

(** ** The syscall tables *)

(** The functions a table entry can point to. *)
Inductive Handler :=
| fn_unhandled_path1 | fn_unhandled_other
| fn_fileopening | fn_filestat | fn_readlink | fn_mkdir | fn_symlink
| fn_chdir | fn_execve_in | fn_execve_out | fn_forking
| fn_socketcall | fn_accept | fn_connect | fn_xxx_at.

Module Tbl.
Record syscall_table_entry := mk_entry {
  name : option string;
  proc_entry : option Handler;
  proc_exit : option Handler;
  udata : Z;
}.
Record syscall_table := {
  length : nat;
  entries : list syscall_table_entry;
}.
End Tbl.

Module Raw.
Record unprocessed_table_entry := row {
  n : nat;
  name : option string;
  proc_entry : option Handler;
  proc_exit : option Handler;
  udata : Z;
}.
End Raw.

Definition has_handler (pos : Raw.unprocessed_table_entry) : bool :=
  match Raw.proc_entry pos, Raw.proc_exit pos with
  | None, None => false
  | _, _ => true
  end.

(** The rows before the sentinel. *)
Fixpoint until_sentinel (orig : list Raw.unprocessed_table_entry)
  : list Raw.unprocessed_table_entry :=
  match orig with
  | [] => []
  | pos :: rest => if has_handler pos then pos :: until_sentinel rest else []
  end.

(** An entry after the initialisation loop.  The loop writes the name and
    the two handlers and leaves [udata] as malloc returned it; the code reads
    [udata] only next to a handler.  The 0 here stands for that unwritten
    word: no statement below says anything of the [udata] of such an
    entry. *)
Definition null_entry : Tbl.syscall_table_entry :=
  Tbl.mk_entry None None None 0.

(** [pos->n + 1], computed in [unsigned int]: it wraps to 0 for a row
    numbered UINT_MAX. *)
Definition next_row (pos : Raw.unprocessed_table_entry) : nat :=
  Z.to_nat (wrap 32 (Z.of_nat (Raw.n pos) + 1)).

(** process_table.  malloc is taken to succeed.  The copy loop writes
    [entries[pos->n]]; for a row numbered UINT_MAX the measured length has
    wrapped and the C code writes outside the block, where the model leaves
    the array alone: the statements about process_table are for rows
    numbered below UINT_MAX (those of the file end at 521). *)
Definition process_table (orig : list Raw.unprocessed_table_entry)
  : Tbl.syscall_table :=
  let rows := until_sentinel orig in
  let len :=
    List.fold_left
      (fun len pos => if Nat.ltb len (next_row pos) then next_row pos
                      else len)
      rows O in
  {| Tbl.length := len;
     Tbl.entries :=
       List.fold_left
         (fun es pos =>
            <[Raw.n pos :=
                Tbl.mk_entry (Raw.name pos) (Raw.proc_entry pos)
                             (Raw.proc_exit pos) (Raw.udata pos)]> es)
         rows (replicate len null_entry) |}.

Definition exit_only (n : nat) (name : string) (h : Handler) (udata : Z)
  : Raw.unprocessed_table_entry :=
  Raw.row n (Some name) None (Some h) udata.

Definition sentinel : Raw.unprocessed_table_entry :=
  Raw.row 0 None None None 0.

Definition list_i386 : list Raw.unprocessed_table_entry := [
  exit_only 5 "open" fn_fileopening SYSCALL_OPENING_OPEN;
  exit_only 8 "creat" fn_fileopening SYSCALL_OPENING_CREAT;
  exit_only 33 "access" fn_fileopening SYSCALL_OPENING_ACCESS;
  exit_only 106 "stat" fn_filestat 0;
  exit_only 107 "lstat" fn_filestat 0;
  exit_only 195 "stat64" fn_filestat 0;
  exit_only 18 "oldstat" fn_filestat 0;
  exit_only 196 "lstat64" fn_filestat 0;
  exit_only 84 "oldlstat" fn_filestat 0;
  exit_only 85 "readlink" fn_readlink 0;
  exit_only 39 "mkdir" fn_mkdir 0;
  exit_only 83 "symlink" fn_symlink 0;
  exit_only 12 "chdir" fn_chdir 0;
  Raw.row 11 (Some "execve") (Some fn_execve_in) (Some fn_execve_out) 11;
  exit_only 2 "fork" fn_forking SYSCALL_FORK_FORK;
  exit_only 190 "vfork" fn_forking SYSCALL_FORK_VFORK;
  exit_only 120 "clone" fn_forking SYSCALL_FORK_CLONE;
  exit_only 102 "socketcall" fn_socketcall 0;
  exit_only 296 "mkdirat" fn_xxx_at 39;
  exit_only 295 "openat" fn_xxx_at 5;
  exit_only 307 "faccessat" fn_xxx_at 33;
  exit_only 305 "readlinkat" fn_xxx_at 85;
  exit_only 300 "fstatat64" fn_xxx_at 195;
  exit_only 304 "symlinkat" fn_symlink 1;
  exit_only 38 "rename" fn_unhandled_path1 0;
  exit_only 40 "rmdir" fn_unhandled_path1 0;
  exit_only 9 "link" fn_unhandled_path1 0;
  exit_only 92 "truncate" fn_unhandled_path1 0;
  exit_only 193 "truncate64" fn_unhandled_path1 0;
  exit_only 10 "unlink" fn_unhandled_path1 0;
  exit_only 15 "chmod" fn_unhandled_path1 0;
  exit_only 182 "chown" fn_unhandled_path1 0;
  exit_only 212 "chown32" fn_unhandled_path1 0;
  exit_only 16 "lchown" fn_unhandled_path1 0;
  exit_only 198 "lchown32" fn_unhandled_path1 0;
  exit_only 30 "utime" fn_unhandled_path1 0;
  exit_only 271 "utimes" fn_unhandled_path1 0;
  exit_only 277 "mq_open" fn_unhandled_path1 0;
  exit_only 278 "mq_unlink" fn_unhandled_path1 0;
  exit_only 303 "linkat" fn_unhandled_other 0;
  exit_only 302 "renameat" fn_unhandled_other 0;
  exit_only 301 "unlinkat" fn_unhandled_other 0;
  exit_only 306 "fchmodat" fn_unhandled_other 0;
  exit_only 298 "fchownat" fn_unhandled_other 0;
  exit_only 26 "ptrace" fn_unhandled_other 0;
  exit_only 341 "name_to_handle_at" fn_unhandled_other 0;
  sentinel ].

(** The rows the x64 and the x32 lists have in common (the C file writes
    them out twice). *)
Definition list_64_common : list Raw.unprocessed_table_entry := [
  exit_only 57 "fork" fn_forking SYSCALL_FORK_FORK;
  exit_only 58 "vfork" fn_forking SYSCALL_FORK_VFORK;
  exit_only 56 "clone" fn_forking SYSCALL_FORK_CLONE;
  exit_only 43 "accept" fn_accept 0;
  exit_only 288 "accept4" fn_accept 0;
  exit_only 42 "connect" fn_connect 0;
  exit_only 258 "mkdirat" fn_xxx_at 83;
  exit_only 257 "openat" fn_xxx_at 2;
  exit_only 269 "faccessat" fn_xxx_at 21;
  exit_only 267 "readlinkat" fn_xxx_at 89;
  exit_only 262 "newfstatat" fn_xxx_at 4;
  exit_only 266 "symlinkat" fn_symlink 1;
  exit_only 82 "rename" fn_unhandled_path1 0;
  exit_only 84 "rmdir" fn_unhandled_path1 0;
  exit_only 86 "link" fn_unhandled_path1 0;
  exit_only 76 "truncate" fn_unhandled_path1 0;
  exit_only 87 "unlink" fn_unhandled_path1 0;
  exit_only 90 "chmod" fn_unhandled_path1 0;
  exit_only 92 "chown" fn_unhandled_path1 0;
  exit_only 94 "lchown" fn_unhandled_path1 0;
  exit_only 132 "utime" fn_unhandled_path1 0;
  exit_only 235 "utimes" fn_unhandled_path1 0;
  exit_only 240 "mq_open" fn_unhandled_path1 0;
  exit_only 241 "mq_unlink" fn_unhandled_path1 0;
  exit_only 265 "linkat" fn_unhandled_other 0;
  exit_only 264 "renameat" fn_unhandled_other 0;
  exit_only 263 "unlinkat" fn_unhandled_other 0;
  exit_only 268 "fchmodat" fn_unhandled_other 0;
  exit_only 260 "fchownat" fn_unhandled_other 0 ].

Definition list_64_head : list Raw.unprocessed_table_entry := [
  exit_only 2 "open" fn_fileopening SYSCALL_OPENING_OPEN;
  exit_only 85 "creat" fn_fileopening SYSCALL_OPENING_CREAT;
  exit_only 21 "access" fn_fileopening SYSCALL_OPENING_ACCESS;
  exit_only 4 "stat" fn_filestat 0;
  exit_only 6 "lstat" fn_filestat 0;
  exit_only 89 "readlink" fn_readlink 0;
  exit_only 83 "mkdir" fn_mkdir 0;
  exit_only 88 "symlink" fn_symlink 0;
  exit_only 80 "chdir" fn_chdir 0 ].

Definition list_x86_64 : list Raw.unprocessed_table_entry :=
  list_64_head
  ++ [Raw.row 59 (Some "execve") (Some fn_execve_in) (Some fn_execve_out) 59]
  ++ list_64_common
  ++ [exit_only 101 "ptrace" fn_unhandled_other 0;
      exit_only 303 "name_to_handle_at" fn_unhandled_other 0;
      sentinel].

Definition list_x32 : list Raw.unprocessed_table_entry :=
  list_64_head
  ++ [Raw.row 520 (Some "execve") (Some fn_execve_in) (Some fn_execve_out)
              (__X32_SYSCALL_BIT + 520)]
  ++ list_64_common
  ++ [exit_only 521 "ptrace" fn_unhandled_other 0;
      exit_only 303 "name_to_handle_at" fn_unhandled_other 0;
      sentinel].

(** What syscall_build_table leaves in the global [syscall_tables]. *)
Definition syscall_tables : list Tbl.syscall_table :=
  [process_table list_i386; process_table list_x86_64; process_table list_x32].

(** ** The *at variants and the dispatch engine *)

(** [a[dst] = a[src]] on an array. *)
Definition assign {A} (dst src : nat) (a : list A) : option (list A) :=
  match a !! src with
  | Some v => if Nat.ltb dst (List.length a) then Some (<[dst := v]> a) else None
  | None => None
  end.

Definition assign_all {A} (moves : list (nat * nat)) (a : list A)
  : option (list A) :=
  List.fold_left
    (fun acc '(dst, src) =>
       match acc with Some l => assign dst src l | None => None end)
    moves (Some a).

(** [for(i = 0; i < PROCESS_ARGS - 1; ++i) params[i] = params[i + 1];] *)
Definition shift_args {A} (a : list A) : option (list A) :=
  assign_all (List.map (fun i => (i, S i)) (seq 0 (PROCESS_ARGS - 1))) a.

(** [for(i = PROCESS_ARGS; i > 1; --i) params[i - 1] = params[i - 2];] *)
Definition unshift_args {A} (a : list A) : option (list A) :=
  assign_all
    (List.map (fun i => ((i - 1)%nat, (i - 2)%nat))
              (rev (seq 2 (PROCESS_ARGS - 1)))) a.

Definition in_bounds {A} (o : option A) : M A :=
  match o with Some a => ret a | None => crash OutOfBounds end.

(** The index of the table for a task: the ABI it is running under. *)
Definition syscall_type_of (q : Process) : nat :=
  match mode q with
  | MODE_I386 => SYSCALL_I386
  | MODE_X86_64 =>
      if negb (Z.land (current_syscall q) __X32_SYSCALL_BIT =? 0)
      then SYSCALL_X86_64_x32
      else SYSCALL_X86_64
  end.

Section Dispatch.

Variable env : Env.

(** [call] stands for the indirect call [entry->proc_exit(...)]. *)
Definition syscall_xxx_at
    (call : Handler -> option string -> nat -> Z -> M Z)
    (name : option string) (pi : nat) (real_syscall : Z) : M Z :=
  q <- load pi ;;
  r0 <- param q 0 ;;
  if Reg.i r0 =? AT_FDCWD
  then
    tbl <- in_bounds (syscall_tables !! syscall_type_of q) ;;
    let entry :=
      if real_syscall <? Z.of_nat (Tbl.length tbl)
      then Tbl.entries tbl !! Z.to_nat real_syscall
      else None in
    match entry with
    | Some {| Tbl.name := Some _; Tbl.proc_exit := Some h;
              Tbl.udata := udata |} =>
        let arg0 := r0 in
        shifted <- in_bounds (shift_args (params q)) ;;
        store pi (set_params shifted) ;;
        r <- call h name pi udata ;;
        q' <- load pi ;;
        back <- in_bounds (unshift_args (params q')) ;;
        store pi (set_params (<[O := arg0]> back)) ;;
        ret r
    | _ =>
        log CRITICAL (tid q) (Msg_invalid_at real_syscall) ;;
        ret 0
    end
  else syscall_unhandled_other env name pi 0.

(** The call through a function pointer of the table.  The only handler
    that calls through the table again is syscall_xxx_at; [depth] bounds
    that nesting. *)
Fixpoint call (depth : nat) (h : Handler) (name : option string) (pi : nat)
    (udata : Z) : M Z :=
  match h with
  | fn_unhandled_path1 => syscall_unhandled_path1 env name pi udata
  | fn_unhandled_other => syscall_unhandled_other env name pi udata
  | fn_fileopening => syscall_fileopening env name pi udata
  | fn_filestat => syscall_filestat env name pi udata
  | fn_readlink => syscall_readlink env name pi udata
  | fn_mkdir => syscall_mkdir env name pi udata
  | fn_symlink => syscall_symlink env name pi udata
  | fn_chdir => syscall_chdir env name pi udata
  | fn_execve_in => syscall_execve_in env name pi udata
  | fn_execve_out => syscall_execve_out env name pi udata
  | fn_forking => syscall_forking env name pi udata
  | fn_socketcall => syscall_socketcall env name pi udata
  | fn_accept => syscall_accept env name pi udata
  | fn_connect => syscall_connect env name pi udata
  | fn_xxx_at =>
      match depth with
      | O => crash StackExhausted
      | S d => syscall_xxx_at (call d) name pi udata
      end
  end.

(** A pointer to a table entry: the table and the index. *)
Definition entry_ptr : Type := nat * Z.

(** Reading the fields of [*entry]. *)
Definition read_entry (ptr : entry_ptr) : M Tbl.syscall_table_entry :=
  let '(t, n) := ptr in
  tbl <- in_bounds (syscall_tables !! t) ;;
  if (0 <=? n) && (n <? Z.of_nat (List.length (Tbl.entries tbl)))
  then in_bounds (Tbl.entries tbl !! Z.to_nat n)
  else crash OutOfBounds.

(** The loops of the execve workaround: every task of the group that is
    inside execve number [nr] sets [entry] to [target]. *)
Fixpoint transition_loop (task : Z) (group nr : Z) (target : entry_ptr)
    (ps : list Process) (entry : option entry_ptr) : M (option entry_ptr) :=
  match ps with
  | [] => ret entry
  | x :: rest =>
      if is_execve_caller group nr x
      then when (3 <=? verbosity env)
                (log DEBUG task (Msg_transition (fst target))) ;;
           transition_loop task group nr target rest (Some target)
      else transition_loop task group nr target rest entry
  end.

(** The block of syscall_handle that finds the entry and calls the handler;
    it answers the handler's status (0 when none is called). *)
Definition syscall_dispatch (depth : nat) (pi : nat) : M Z :=
  q <- load pi ;;
  let syscall := Z.land (current_syscall q) (Z.lnot __X32_SYSCALL_BIT) in
  let syscall_type := syscall_type_of q in
  when (4 <=? verbosity env)
       (log DEBUG (tid q) (Msg_syscall syscall syscall_type)) ;;
  let entry : option entry_ptr := None in
  tbl <- in_bounds (syscall_tables !! syscall_type) ;;
  when ((syscall <? 0) || (2000 <=? syscall))
       (log ERROR (tid q) (Msg_invalid_syscall syscall)) ;;
  entry <-
    (if (syscall =? 59) && in_syscall q
     then ps <- get_processes ;;
          transition_loop (tid q) (tgid q) 59 (SYSCALL_X86_64, 59) ps entry
     else if (syscall =? 11) && in_syscall q
     then ps <- get_processes ;;
          transition_loop (tid q) (tgid q) 11 (SYSCALL_I386, 11) ps entry
     else if match entry with None => true | Some _ => false end
             && ((0 <=? syscall)
                 || (to_size_t syscall <? Z.of_nat (Tbl.length tbl)))
     then ret (Some (syscall_type, syscall))
     else ret entry) ;;
  match entry with
  | Some ptr =>
      e <- read_entry ptr ;;
      match Tbl.name e with
      | Some nm => when (3 <=? verbosity env)
                        (log DEBUG (tid q) (Msg_entry_name nm))
      | None => ret tt
      end ;;
      match in_syscall q, Tbl.proc_entry e, Tbl.proc_exit e with
      | false, Some h, _ => call depth h (Tbl.name e) pi (Tbl.udata e)
      | true, _, Some h => call depth h (Tbl.name e) pi (Tbl.udata e)
      | _, _, _ => ret 0
      end
  | None => ret 0
  end.

Definition syscall_handle (depth : nat) (pi : nat) : M Z :=
  q <- load pi ;;
  let tid0 := tid q in
  r <- syscall_dispatch depth pi ;;
  if negb (r =? 0) then ret (-1)
  else
    q' <- load pi ;;
    (if in_syscall q'
     then store pi (set_in_syscall false) ;;
          store pi (set_current_syscall (-1)) ;;
          store pi (set_syscall_info None)
     else store pi (set_in_syscall true)) ;;
    emit (Ptrace_syscall tid0) ;;
    ret 0.

End Dispatch.

(** * Concrete scenarios

    The scenarios of the specification, as inputs of the model. *)

(** A register holding [z] under its three readings. *)
Definition reg (z : Z) : register_type := Reg.mk z z z.

(** The strings of a tracee, by address. *)
Definition demo_strings (ptr : Z) : string :=
  if ptr =? 1 then "out"
  else if ptr =? 2 then "/bin/ls"
  else if ptr =? 3 then "/tmp"
  else "data.txt".

(** A tracee and a sink: [v] is the verbosity, [rc] the status the sink
    answers to every call. *)
Definition demo_env (v rc : Z) : Env :=
  {| verbosity := v;
     tracee_strdup := fun _ ptr => demo_strings ptr;
     tracee_strarraydup := fun _ _ ptr => if ptr =? 0 then [] else ["ls"];
     tracee_read := fun _ _ len => replicate (Z.to_nat len) 0;
     tracee_getptr := fun _ _ _ => 0;
     tracee_getlong := fun _ _ _ => 0;
     path_is_dir := fun path => String.eqb path "/tmp";
     trace_count_processes := fun ps => (Z.of_nat (List.length ps), 0);
     call_status := fun _ _ => rc;
     db_new_identifier := fun t => 1000 + Z.of_nat (List.length t) |}.

(** Task 100 of the scenarios: a 64-bit process in /home/u, stopped at the
    exit of syscall [nr] that returned [r], with the given arguments. *)
Definition task100 (nr r : Z) (args : list register_type) : Process :=
  {| identifier := 7; mode := MODE_X86_64; tid := 100; tgid := 100;
     status := PROCESS_ATTACHED; in_syscall := true; current_syscall := nr;
     retvalue := reg r; params := args;
     syscall_info := None; wd := Some "/home/u" |}.

Definition world_of (ps : list Process) : World :=
  {| processes := ps; trace := [] |}.

(** Thread 101 of the group of task 100, stopped inside execve [nr] of
    /bin/ls, with the scratch its entry handler stored. *)
Definition task101 (nr : Z) : Process :=
  {| identifier := 8; mode := MODE_X86_64; tid := 101; tgid := 100;
     status := PROCESS_ATTACHED; in_syscall := true; current_syscall := nr;
     retvalue := reg 0;
     params := [reg 2; reg 9; reg 0; reg 0; reg 0; reg 0];
     syscall_info :=
       Some {| binary := "/bin/ls"; argv := ["ls"]; envp := [] |};
     wd := Some "/home/u" |}.

(** A task with tid 200, as the wait loop or an earlier fork left it. *)
Definition task200 (st : Status) : Process :=
  {| identifier := 9; mode := MODE_X86_64; tid := 200; tgid := 200;
     status := st; in_syscall := false; current_syscall := -1;
     retvalue := reg 0; params := replicate PROCESS_ARGS (reg 0);
     syscall_info := None; wd := None |}.

(** * Vocabulary of the statements *)

(** [resolve_path] of the specification: an absolute path is kept, a
    relative one is resolved against the working directory. *)
Definition resolve_path (cwd raw : string) : string :=
  if is_absolute raw then raw else abspath cwd raw.

(** The effects that are not log lines: sink calls and ptrace requests. *)
Definition actions (t : list Effect) : list Effect :=
  List.filter (fun e => negb (is_log e)) t.

(** The handlers the *at rows of the tables point to. *)
Definition is_path_handler (h : Handler) : bool :=
  match h with
  | fn_fileopening | fn_filestat | fn_readlink | fn_mkdir => true
  | _ => false
  end.

(** What syscall_xxx_at needs of the row [udata] names, checked on a row
    [e] of [tbl] that points to syscall_xxx_at. *)
Definition at_row_ok (tbl : Tbl.syscall_table) (e : Tbl.syscall_table_entry)
  : bool :=
  match Tbl.proc_exit e with
  | Some fn_xxx_at =>
      (Tbl.udata e <? Z.of_nat (Tbl.length tbl))
      && match Tbl.entries tbl !! Z.to_nat (Tbl.udata e) with
         | Some {| Tbl.name := Some _; Tbl.proc_exit := Some h |} =>
             is_path_handler h
         | _ => false
         end
  | _ => true
  end.



(** The identity reading of a task: keeping it means the slot is
    untouched. *)
Definition same (q : Process) : Process := q.

(** The add_file_open event of an open() exit: none when the syscall
    failed, none when the path cannot be resolved. *)
Definition open_events (env : Env) (q : Process) (path flags : register_type)
  : list Effect :=
  let raw := tracee_strdup env (tid q) (Reg.p path) in
  match (if is_absolute raw then Some raw
         else option_map (fun cwd => abspath cwd raw) (wd q)) with
  | Some resolved =>
      if 0 <=? Reg.i (retvalue q)
      then [Db_add_file_open (identifier q) resolved
              (flags2mode (Reg.u flags)) (path_is_dir env resolved)]
      else []
  | None => []
  end.


(** The world in which task [pi] of [w] is stopped at the exit of syscall
    [nr] with the register arguments [args]. *)
Definition at_exit_of (nr : Z) (args : list register_type) (pi : nat)
    (q : Process) (w : World) : World :=
  {| processes :=
       <[pi := set_current_syscall nr (set_params args q)]> (processes w);
     trace := trace w |}.

(** [quiet m]: whatever its outcome, [m] calls neither the database nor the
    /proc scraper. *)
Definition quiet {A} (m : M A) : Prop :=
  forall w, events (trace (snd (m w))) = events (trace w).

(** No row of the tables has another entry handler than syscall_execve_in. *)
Definition entry_is_execve (e : Tbl.syscall_table_entry) : bool :=
  match Tbl.proc_entry e with
  | None | Some fn_execve_in => true
  | Some _ => false
  end.

Definition table_is_short (tbl : Tbl.syscall_table) : bool :=
  Z.of_nat (Tbl.length tbl) <? 2 ^ 31.

(** What the end of syscall_handle makes of a task. *)
Definition flipped (q : Process) : Process :=
  if in_syscall q
  then set_syscall_info None
         (set_current_syscall (-1) (set_in_syscall false q))
  else set_in_syscall true q.

(** The table entry process_table copies from a row. *)
Definition entry_of (pos : Raw.unprocessed_table_entry)
  : Tbl.syscall_table_entry :=
  Tbl.mk_entry (Raw.name pos) (Raw.proc_entry pos) (Raw.proc_exit pos)
               (Raw.udata pos).

(** One step of the loop that measures the table: the length so far and a
    row. *)
Definition longer (len : nat) (pos : Raw.unprocessed_table_entry) : nat :=
  if Nat.ltb len (next_row pos) then next_row pos else len.

(** The number of a row is below UINT_MAX: [pos->n + 1] does not wrap. *)
Definition row_fits (pos : Raw.unprocessed_table_entry) : Prop :=
  Z.of_nat (Raw.n pos) + 1 < 2 ^ 32.

(** One step of the loop that fills the table. *)
Definition copy_row (es : list Tbl.syscall_table_entry)
    (pos : Raw.unprocessed_table_entry) : list Tbl.syscall_table_entry :=
  <[Raw.n pos := entry_of pos]> es.

(** The lines the loops of the execve workaround log. *)
Definition transition_logs (env : Env) (task group nr : Z)
    (target : entry_ptr) (ps : list Process) : list Effect :=
  if 3 <=? verbosity env
  then List.map (fun _ => Log DEBUG task (Msg_transition (fst target)))
                (List.filter (is_execve_caller group nr) ps)
  else [].

(** [calm P pi m]: from a world where task [pi] (if any) satisfies [P], the
    run of [m] calls neither the database nor the /proc scraper, and task
    [pi] satisfies [P] afterwards. *)
Definition calm (P : Process -> Prop) (pi : nat) {A} (m : M A) : Prop :=
  forall w,
    (forall q, processes w !! pi = Some q -> P q) ->
    events (trace (snd (m w))) = events (trace w)
    /\ (forall q, processes (snd (m w)) !! pi = Some q -> P q).

(** The table rows are numbered from [n] on and satisfy [ok]. *)
Fixpoint rows_from (ok : nat -> Tbl.syscall_table_entry -> bool) (n : nat)
    (es : list Tbl.syscall_table_entry) : bool :=
  match es with
  | [] => true
  | e :: rest => ok n e && rows_from ok (S n) rest
  end.

(** The rows whose exit handler is syscall_execve_out are numbered 11, 59
    or 520. *)
Definition execve_out_row (n : nat) (e : Tbl.syscall_table_entry) : bool :=
  match Tbl.proc_exit e with
  | Some fn_execve_out => Nat.eqb n 11 || Nat.eqb n 59 || Nat.eqb n 520
  | _ => true
  end.

(** A failed syscall: the return value is negative.  [t] is the table of
    the task. *)
Definition failed_in (t : nat) (q : Process) : Prop :=
  Reg.i (retvalue q) < 0 /\ syscall_type_of q = t.

(** [steady R m]: the world a run of [m] ends in, whatever its outcome, is
    related by [R] to the world it started from. *)
Definition steady (R : World -> World -> Prop) {A} (m : M A) : Prop :=
  forall w, R w (snd (m w)).

(** The registry of tasks is as it was. *)
Definition same_registry (w w' : World) : Prop := processes w' = processes w.

(** Only log lines were added: the registry is as it was and no call to the
    database, the /proc scraper or ptrace was made. *)
Definition only_logged (w w' : World) : Prop :=
  processes w' = processes w /\ actions (trace w') = actions (trace w).

(** Where a handler takes a directory descriptor: syscall_xxx_at in the
    first register argument, syscall_symlink for symlinkat in the second. *)
Definition dirfd_position (h : Handler) (udata : Z) : option nat :=
  match h with
  | fn_xxx_at => Some 0%nat
  | fn_symlink => if negb (udata =? 0) then Some 1%nat else None
  | _ => None
  end.

(** The warning of syscall_unhandled_other. *)
Definition unhandled_warning (env : Env) (name : option string) (q : Process)
  : list Effect :=
  match name with
  | Some nm =>
      if (1 <=? verbosity env) && in_syscall q && (0 <=? Reg.i (retvalue q))
      then [Log WARNING (tid q) (Msg_unhandled_other nm)]
      else []
  | None => []
  end.

(** The handlers that only write to the log. *)
Definition is_logging_handler (h : Handler) : bool :=
  match h with
  | fn_unhandled_path1 | fn_unhandled_other | fn_socketcall | fn_accept
  | fn_connect => true
  | _ => false
  end.

(** [answers_zero m]: when [m] returns, it returns 0. *)
Definition answers_zero (m : M Z) : Prop :=
  forall w r w', m w = (Done r, w') -> r = 0.


(** The task as the tracer presents it at the exit stop: before it calls
    syscall_handle, the tracer fills in the mode the task runs in by now and
    the return value. *)
Definition at_exit_stop (m : Mode) (rv : register_type) (q : Process)
  : Process :=
  {| identifier := identifier q; mode := m; tid := tid q; tgid := tgid q;
     status := status q; in_syscall := in_syscall q;
     current_syscall := current_syscall q; retvalue := rv;
     params := params q; syscall_info := syscall_info q; wd := wd q |}.

(** What syscall_execve_in reads from the tracee. *)
Definition execve_scratch (env : Env) (q : Process) (cwd : string)
    (path r1 r2 : register_type) : ExecveInfo :=
  {| binary := resolve_path cwd (tracee_strdup env (tid q) (Reg.p path));
     argv := tracee_strarraydup env (mode q) (tid q) (Reg.p r1);
     envp := tracee_strarraydup env (mode q) (tid q) (Reg.p r2) |}.

(** The handler of a row for the edge the task is on. *)
Definition handler_for (q : Process) (e : Tbl.syscall_table_entry)
  : option Handler :=
  if in_syscall q then Tbl.proc_exit e else Tbl.proc_entry e.

(** * Properties *)

(** ** Running the monad *)

Lemma bind_done {A B} (m : M A) (k : A -> M B) w a w' :
  m w = (Done a, w') -> bind m k w = k a w'.
Proof. intros E. unfold bind. now rewrite E. Qed.

Lemma bind_ret {A B} (a : A) (k : A -> M B) w : bind (ret a) k w = k a w.
Proof. reflexivity. Qed.

Lemma bind_inv {A B} (m : M A) (k : A -> M B) w b w2 :
  bind m k w = (Done b, w2) ->
  exists a w1, m w = (Done a, w1) /\ k a w1 = (Done b, w2).
Proof.
  unfold bind. destruct (m w) as [[a | f] w1]; intros E.
  - now exists a, w1.
  - discriminate.
Qed.

Lemma load_ok pi w q :
  processes w !! pi = Some q -> load pi w = (Done q, w).
Proof. intros E. unfold load. now rewrite E. Qed.

Lemma store_ok pi f w q :
  processes w !! pi = Some q ->
  store pi f w =
  (Done tt, {| processes := <[pi := f q]> (processes w); trace := trace w |}).
Proof. intros E. unfold store. now rewrite E. Qed.

Lemma lookup_store (ps : list Process) pi q x :
  ps !! pi = Some q -> <[pi := x]> ps !! pi = Some x.
Proof.
  intros E. apply list_lookup_insert_eq. eapply lookup_lt_Some; eauto.
Qed.

Lemma find_index_Some {A} (f : A -> bool) l n :
  find_index f l = Some n -> exists x, l !! n = Some x /\ f x = true.
Proof.
  revert n. induction l as [| a l IH]; intros n; cbn; [discriminate |].
  destruct (f a) eqn:Fa.
  - intros [= <-]. eauto.
  - destruct (find_index f l) as [m |]; cbn; [| discriminate].
    intros [= <-]. destruct (IH m eq_refl) as (x & ? & ?). eauto.
Qed.

(** Symbolic execution: unfold the monad, then resolve the look-ups of
    registry slots one at a time. *)
Ltac msimpl := cbn beta iota zeta delta [processes trace fst snd].
Ltac munfold :=
  unfold db_add_file_open, db_add_exit, db_add_exec,
    trace_add_files_from_proc, db_add_process, log, when;
  unfold sink, emit, live, nonnull, in_bounds, get_processes, param, load,
    store;
  unfold bind, ret, crash; msimpl.
Ltac lookup_tac :=
  first [ eassumption
        | eapply lookup_store; lookup_tac
        | rewrite list_lookup_insert_ne
            by (assumption || (apply not_eq_sym; assumption));
          lookup_tac ].
Ltac mlookup :=
  match goal with
  | |- context [ @lookup nat Process (list Process) _ ?i ?l ] =>
      let H := fresh "L" in
      eassert (H : l !! i = Some _) by lookup_tac;
      rewrite H; clear H; msimpl
  end.

Ltac mstatus :=
  match goal with
  | |- context [call_status ?e ?t ?ev =? 0] =>
      let H := fresh "Hrc" in
      destruct (call_status e t ev =? 0) eqn:H;
      cbn [negb]; msimpl; rewrite ?H; cbn [negb]; msimpl
  end.

Ltac mstatus_again :=
  repeat match goal with
         | H : (call_status _ _ _ =? 0) = _ |- _ => rewrite H
         end;
  cbn [negb]; msimpl.

Lemma param_ok q n r : params q !! n = Some r -> param q n = ret r.
Proof. intros E. unfold param. now rewrite E. Qed.

Lemma abs_path_arg_ok env q n r cwd w :
  params q !! n = Some r -> wd q = Some cwd ->
  abs_path_arg env q n w =
  (Done (resolve_path cwd (tracee_strdup env (tid q) (Reg.p r))), w).
Proof.
  intros Hr Hwd. unfold abs_path_arg, resolve_path, param, bind.
  rewrite Hr. cbn. rewrite Hwd.
  destruct (is_absolute _); reflexivity.
Qed.

(** ** One level of nesting is all the tables use *)



Section Depth.

Variable env : Env.



Lemma read_entry_in ptr w e w' :
  read_entry ptr w = (Done e, w') ->
  exists tbl, In tbl syscall_tables /\ In e (Tbl.entries tbl).
Proof.
  destruct ptr as [t n]. unfold read_entry.
  destruct (syscall_tables !! t) as [tbl |] eqn:Ht; [| discriminate].
  cbn [in_bounds]. rewrite bind_ret.
  destruct (_ && _); [| discriminate].
  destruct (Tbl.entries tbl !! Z.to_nat n) as [e' |] eqn:He; [| discriminate].
  intros [= <- _]. exists tbl.
  split; apply list_elem_of_In; eapply list_elem_of_lookup_2; eauto.
Qed.



End Depth.

(** ** chdir *)

(** C8. On a chdir exit with [retvalue >= 0] the working directory of the
    task becomes the argument resolved against the old one and exactly one
    add_file_open(identifier, new wd, FILE_WDIR, is_dir = true) is emitted;
    with [retvalue < 0] nothing changes and nothing is emitted. *)
Theorem chdir_exit env name pi udata w q r0 cwd :
  processes w !! pi = Some q ->
  params q !! O = Some r0 ->
  wd q = Some cwd ->
  let path := resolve_path cwd (tracee_strdup env (tid q) (Reg.p r0)) in
  (0 <= Reg.i (retvalue q) ->
   exists rc,
     syscall_chdir env name pi udata w =
     (Done rc,
      {| processes := <[pi := set_wd (Some path) q]> (processes w);
         trace := trace w
                  ++ [Db_add_file_open (identifier q) path FILE_WDIR true] |}))
  /\ (Reg.i (retvalue q) < 0 ->
      syscall_chdir env name pi udata w = (Done 0, w)).
Proof.
  intros Hq Hr Hwd path. unfold syscall_chdir.
  rewrite (bind_done _ _ _ _ _ (load_ok _ _ _ Hq)).
  rewrite (bind_done _ _ _ _ _ (abs_path_arg_ok env _ _ _ _ _ Hr Hwd)).
  fold path. split; intros Hret.
  - apply Z.leb_le in Hret. rewrite Hret, Hwd. cbn [live].
    unfold bind at 1. cbn [ret].
    rewrite (bind_done _ _ _ _ _ (store_ok _ _ _ _ Hq)).
    unfold db_add_file_open, sink, bind. cbn.
    destruct (negb _); eauto.
  - apply Z.leb_gt in Hret. now rewrite Hret.
Qed.

Lemma chdir_exit_witness :
  let q := task100 80 0 [reg 3; reg 0; reg 0; reg 0; reg 0; reg 0] in
  exists rc,
    syscall_chdir (demo_env 0 0) (Some "chdir") 0 0 (world_of [q]) =
    (Done rc,
     {| processes := [set_wd (Some "/tmp") q];
        trace := [Db_add_file_open 7 "/tmp" FILE_WDIR true] |}).
Proof.
  intros q.
  exact (proj1 (chdir_exit (demo_env 0 0) (Some "chdir") 0%nat 0 (world_of [q])
                  q (reg 3) "/home/u" eq_refl eq_refl eq_refl)
               ltac:(cbn; lia)).
Defined.

(** ** accept and connect *)

(** C10. On an accept or accept4 exit the address length is read from
    tracee memory through the third argument, on a connect exit it is the
    third argument itself; when it is smaller than [sizeof(short)] the
    handler emits nothing, neither a warning nor an event, and answers 0. *)
Theorem short_sockaddr_dropped env name pi udata w q r1 r2 :
  processes w !! pi = Some q ->
  params q !! 1%nat = Some r1 ->
  params q !! 2%nat = Some r2 ->
  (le_uint 4 (tracee_read env (tid q) (Reg.p r2) sizeof_socklen_t)
     < sizeof_short ->
   syscall_accept env name pi udata w = (Done 0, w))
  /\ (to_socklen_t (Reg.u r2) < sizeof_short ->
      syscall_connect env name pi udata w = (Done 0, w)).
Proof.
  intros Hq H1 H2.
  split; intros Hlen; apply Z.leb_gt in Hlen.
  - unfold syscall_accept.
    rewrite (bind_done _ _ _ _ _ (load_ok _ _ _ Hq)).
    rewrite (param_ok _ _ _ H1), (param_ok _ _ _ H2).
    unfold bind at 1 2. cbn [ret]. unfold handle_accept.
    rewrite (bind_done _ _ _ _ _ (load_ok _ _ _ Hq)).
    cbv zeta. rewrite Hlen. reflexivity.
  - unfold syscall_connect.
    rewrite (bind_done _ _ _ _ _ (load_ok _ _ _ Hq)).
    rewrite (param_ok _ _ _ H1), (param_ok _ _ _ H2).
    unfold bind at 1 2. cbn [ret]. unfold handle_connect.
    rewrite (bind_done _ _ _ _ _ (load_ok _ _ _ Hq)).
    rewrite Hlen. reflexivity.
Qed.

Lemma short_sockaddr_dropped_witness :
  let q := task100 43 5 [reg 3; reg 64; reg 1; reg 0; reg 0; reg 0] in
  (le_uint 4 (tracee_read (demo_env 1 0) 100 1 sizeof_socklen_t) < sizeof_short
   /\ to_socklen_t 1 < sizeof_short)
  /\ syscall_accept (demo_env 1 0) (Some "accept") 0 0 (world_of [q])
     = (Done 0, world_of [q])
  /\ syscall_connect (demo_env 1 0) (Some "connect") 0 0 (world_of [q])
     = (Done 0, world_of [q]).
Proof.
  intros q.
  pose proof (short_sockaddr_dropped (demo_env 1 0) (Some "accept") 0%nat 0
                (world_of [q]) q (reg 64) (reg 1) eq_refl eq_refl eq_refl)
    as [Ha _].
  pose proof (short_sockaddr_dropped (demo_env 1 0) (Some "connect") 0%nat 0
                (world_of [q]) q (reg 64) (reg 1) eq_refl eq_refl eq_refl)
    as [_ Hc].
  split; [split; reflexivity |].
  split; [apply Ha | apply Hc]; reflexivity.
Defined.

(** ** The file-opening family *)

(** C5 (amended). The file-opening handler with the creat discriminator
    computes the mode bits from the second register argument unioned with
    O_CREAT|O_WRONLY|O_TRUNC under the flag mapping of the specification: on
    success it emits add_file_open(identifier, resolved path, that mode,
    is_dir).  When the access mode of the union is WRONLY, as for
    creat("out", 0644), the mapping gives FILE_WRITE without FILE_READ. *)
Theorem creat_emits_file_write env name pi w q r0 r1 cwd :
  processes w !! pi = Some q ->
  params q !! 0%nat = Some r0 ->
  params q !! 1%nat = Some r1 ->
  wd q = Some cwd ->
  0 <= Reg.i (retvalue q) ->
  let path := resolve_path cwd (tracee_strdup env (tid q) (Reg.p r0)) in
  let flags := Z.lor (Z.lor (Z.lor (Reg.u r1) O_CREAT) O_WRONLY) O_TRUNC in
  (Z.land flags O_ACCMODE = O_WRONLY -> flags2mode flags = FILE_WRITE)
  /\ exists rc w',
      syscall_fileopening env name pi SYSCALL_OPENING_CREAT w = (Done rc, w')
      /\ processes w' = processes w
      /\ events (trace w')
         = events (trace w)
           ++ [Db_add_file_open (identifier q) path (flags2mode flags)
                                (path_is_dir env path)].
Proof.
  intros Hq H0 H1 Hwd Hret path flags.
  split.
  { intros Hacc. unfold flags2mode. rewrite Hacc. reflexivity. }
  unfold syscall_fileopening.
  rewrite (bind_done _ _ _ _ _ (load_ok _ _ _ Hq)).
  rewrite (bind_done _ _ _ _ _ (abs_path_arg_ok env _ _ _ _ _ H0 Hwd)).
  fold path. cbn [Z.eqb SYSCALL_OPENING_CREAT SYSCALL_OPENING_ACCESS Pos.eqb].
  rewrite (param_ok _ _ _ H1). fold flags.
  apply Z.leb_le in Hret. rewrite Hret.
  unfold bind, ret, when, log, emit, db_add_file_open, sink.
  destruct (3 <=? verbosity env); cbn;
    match goal with |- context [negb ?b] => destruct (negb b) end;
    eexists _, _; (split; [reflexivity |]); cbn;
    unfold events; rewrite ?List.filter_app; cbn; rewrite ?app_nil_r;
    split; reflexivity.
Qed.

Lemma creat_emits_file_write_witness :
  let q := task100 85 4 [reg 1; reg 420; reg 0; reg 0; reg 0; reg 0] in
  let flags := Z.lor (Z.lor (Z.lor 420 O_CREAT) O_WRONLY) O_TRUNC in
  0 <= Reg.i (retvalue q)
  /\ Z.land flags O_ACCMODE = O_WRONLY
  /\ flags2mode flags = FILE_WRITE
  /\ exists rc w',
      syscall_fileopening (demo_env 0 0) (Some "creat") 0
                          SYSCALL_OPENING_CREAT (world_of [q])
      = (Done rc, w')
      /\ processes w' = [q]
      /\ events (trace w')
         = [Db_add_file_open 7 "/home/u/out" FILE_WRITE false].
Proof.
  intros q flags.
  assert (Hret : 0 <= Reg.i (retvalue q)) by (cbn; lia).
  destruct (creat_emits_file_write (demo_env 0 0) (Some "creat") 0%nat
              (world_of [q]) q (reg 1) (reg 420) "/home/u"
              eq_refl eq_refl eq_refl eq_refl Hret) as [Hmode Hrun].
  split; [exact Hret |]. split; [reflexivity |].
  split; [exact (Hmode eq_refl) | exact Hrun].
Defined.

(** C5, as stated, fails on its own example: creat("out", 0644) returning 4
    in /home/u emits the mode FILE_WRITE, not FILE_READ|FILE_WRITE. *)
Lemma creat_example_is_not_read_write :
  let q := task100 85 4 [reg 1; reg 420; reg 0; reg 0; reg 0; reg 0] in
  let w' := snd (syscall_fileopening (demo_env 0 0) (Some "creat") 0
                   SYSCALL_OPENING_CREAT (world_of [q])) in
  events (trace w') = [Db_add_file_open 7 "/home/u/out" FILE_WRITE false]
  /\ events (trace w')
     <> [Db_add_file_open 7 "/home/u/out" (Z.lor FILE_READ FILE_WRITE) false].
Proof.
  cbv zeta. split; [reflexivity | discriminate].
Qed.

(** ** The dispatch engine on numbers past the tables *)

(** C1 (the code at the failing inputs). A 64-bit task whose syscall number
    is 2000 is logged as invalid, and then the entry 2000 of the X86_64
    table, which has 304 entries, is read all the same; with number 1999
    the same read happens without the log line. *)
Theorem syscall_2000_reads_past_table env depth :
  let args := [reg 0; reg 0; reg 0; reg 0; reg 0; reg 0] in
  Tbl.length <$> syscall_tables !! SYSCALL_X86_64 = Some 304%nat
  /\ syscall_handle env depth 0 (world_of [task100 2000 0 args])
     = (Crash OutOfBounds,
        {| processes := [task100 2000 0 args];
           trace := (if 4 <=? verbosity env
                     then [Log DEBUG 100 (Msg_syscall 2000 SYSCALL_X86_64)]
                     else [])
                    ++ [Log ERROR 100 (Msg_invalid_syscall 2000)] |})
  /\ syscall_handle env depth 0 (world_of [task100 1999 0 args])
     = (Crash OutOfBounds,
        {| processes := [task100 1999 0 args];
           trace := (if 4 <=? verbosity env
                     then [Log DEBUG 100 (Msg_syscall 1999 SYSCALL_X86_64)]
                     else []) |}).
Proof.
  cbv zeta. split; [reflexivity |].
  unfold syscall_handle, syscall_dispatch, bind, load, when, log, emit.
  split; cbn; destruct (4 <=? verbosity env); reflexivity.
Qed.

(** ** execve exit with no recorded call *)

(** C2 (the code at the failing input). An execve exit on a task that has no
    scratch, with no task of the registry inside execve: the search leaves
    [exec_process] at the task itself, so the handler emits an exit event
    for the task, frees its working directory, marks it FREE and then reads
    through the null scratch pointer.  No critical line is logged and no
    failure is answered. *)
Theorem execve_exit_without_caller v :
  let args := [reg 2; reg 0; reg 0; reg 0; reg 0; reg 0] in
  let q := task100 59 0 args in
  let x := task100 (__X32_SYSCALL_BIT + 520) 0 args in
  syscall_execve_out (demo_env v 0) (Some "execve") 0 59 (world_of [q])
  = (Crash NullDereference,
     {| processes := [set_status PROCESS_FREE (set_wd None q)];
        trace := [Db_add_exit 7 0] |})
  /\ logs (trace (snd (syscall_handle (demo_env v 0) 1 0 (world_of [x])))) =
     (if 4 <=? v then [Log DEBUG 100 (Msg_syscall 520 SYSCALL_X86_64_x32)]
      else [])
     ++ (if 3 <=? v then [Log DEBUG 100 (Msg_entry_name "execve")] else [])
  /\ events (trace (snd (syscall_handle (demo_env v 0) 1 0 (world_of [x]))))
     = [Db_add_exit 7 0]
  /\ fst (syscall_handle (demo_env v 0) 1 0 (world_of [x]))
     = Crash NullDereference.
Proof.
  cbv zeta. split; [reflexivity |].
  unfold syscall_handle, syscall_dispatch, bind, load, when, log, emit.
  cbn. destruct (4 <=? v); cbn; destruct (3 <=? v); cbn; auto.
Qed.

(** ** execve exit on another task than the caller *)

(** C3 (amended). An execve exit delivered on a task with no scratch of its
    own, when the registry search finds the calling thread and the sink
    answers 0 to every call: the handler emits add_exit(caller, 0), frees the
    caller's working directory and marks the caller FREE; then, when
    [retvalue >= 0], emits add_exec for the surviving task with its working
    directory and add_files_from_proc(surviving identifier, surviving tid,
    binary); and last releases the scratch and nulls the caller's
    [syscall_info].  It answers 0. *)
Theorem execve_exit_on_other_task env name pi nr w q ep e x cwd ecwd :
  processes w !! pi = Some q ->
  syscall_info q = None ->
  wd q = Some cwd ->
  find_index (is_execve_caller (tgid q) (to_int nr)) (processes w) = Some ep ->
  processes w !! ep = Some e ->
  syscall_info e = Some x ->
  wd e = Some ecwd ->
  (forall t ev, call_status env t ev = 0) ->
  syscall_execve_out env name pi nr w =
  (Done 0,
   {| processes :=
        <[ep := set_syscall_info None
                  (set_status PROCESS_FREE (set_wd None e))]> (processes w);
      trace :=
        trace w
        ++ [Db_add_exit (identifier e) 0]
        ++ (if 0 <=? Reg.i (retvalue q)
            then [Db_add_exec (identifier q) (binary x) (argv x) (envp x) cwd]
                 ++ (if 2 <=? verbosity env
                     then [Log INFO (tid e) (Msg_execd (binary x))] else [])
                 ++ [Trace_add_files_from_proc (identifier q) (tid q)
                                               (binary x)]
            else []) |}).
Proof.
  intros Hq Hinfo Hwd Hfind He Hx Hewd Hsink.
  assert (Hne : ep <> pi) by (intros ->; congruence).
  unfold syscall_execve_out, execve_out_finish. munfold.
  mlookup. rewrite Hinfo, Hfind. msimpl. mlookup.
  rewrite Hsink. cbn [negb Z.eqb]. rewrite Hewd. msimpl.
  mlookup. mlookup. rewrite ?list_insert_insert_eq. mlookup.
  rewrite Hx, Hwd. msimpl.
  destruct (0 <=? Reg.i (retvalue q)); msimpl.
  - rewrite Hsink. cbn [negb Z.eqb]. msimpl.
    destruct (2 <=? verbosity env); msimpl.
    + mlookup. rewrite Hsink. cbn [negb Z.eqb]. msimpl. mlookup.
      rewrite ?list_insert_insert_eq, <- ?app_assoc. reflexivity.
    + rewrite Hsink. cbn [negb Z.eqb]. msimpl. mlookup.
      rewrite ?list_insert_insert_eq, <- ?app_assoc. reflexivity.
  - mlookup. rewrite ?list_insert_insert_eq, <- ?app_assoc. reflexivity.
Qed.

Lemma execve_exit_on_other_task_witness :
  let q := task100 59 0 [reg 2; reg 9; reg 0; reg 0; reg 0; reg 0] in
  syscall_execve_out (demo_env 0 0) (Some "execve") 0 59
                     (world_of [q; task101 59])
  = (Done 0,
     {| processes :=
          [q; set_syscall_info None
                (set_status PROCESS_FREE (set_wd None (task101 59)))];
        trace := [Db_add_exit 8 0;
                  Db_add_exec 7 "/bin/ls" ["ls"] [] "/home/u";
                  Trace_add_files_from_proc 7 100 "/bin/ls"] |}).
Proof.
  intros q.
  exact (execve_exit_on_other_task (demo_env 0 0) (Some "execve") 0%nat 59
           (world_of [q; task101 59]) q 1%nat (task101 59)
           {| binary := "/bin/ls"; argv := ["ls"]; envp := [] |}
           "/home/u" "/home/u"
           eq_refl eq_refl eq_refl eq_refl eq_refl eq_refl eq_refl
           (fun _ _ => eq_refl)).
Defined.

(** The order of the steps, seen from a sink that refuses the exec event:
    the caller is already FREE and without working directory when add_exec
    is attempted, and still holds the scratch. *)
Lemma execve_exit_exec_refused env name pi nr w q ep e x cwd ecwd :
  processes w !! pi = Some q ->
  syscall_info q = None ->
  wd q = Some cwd ->
  find_index (is_execve_caller (tgid q) (to_int nr)) (processes w) = Some ep ->
  processes w !! ep = Some e ->
  syscall_info e = Some x ->
  wd e = Some ecwd ->
  0 <= Reg.i (retvalue q) ->
  call_status env (trace w) (Db_add_exit (identifier e) 0) = 0 ->
  call_status env (trace w ++ [Db_add_exit (identifier e) 0])
    (Db_add_exec (identifier q) (binary x) (argv x) (envp x) cwd) <> 0 ->
  syscall_execve_out env name pi nr w =
  (Done (-1),
   {| processes :=
        <[ep := set_status PROCESS_FREE (set_wd None e)]> (processes w);
      trace :=
        trace w
        ++ [Db_add_exit (identifier e) 0;
            Db_add_exec (identifier q) (binary x) (argv x) (envp x) cwd] |}).
Proof.
  intros Hq Hinfo Hwd Hfind He Hx Hewd Hret Hexit Hexec.
  assert (Hne : ep <> pi) by (intros ->; congruence).
  apply Z.leb_le in Hret. apply Z.eqb_neq in Hexec.
  unfold syscall_execve_out, execve_out_finish. munfold.
  mlookup. rewrite Hinfo, Hfind. msimpl. mlookup.
  rewrite Hexit. cbn [negb Z.eqb]. rewrite Hewd. msimpl.
  mlookup. mlookup. rewrite ?list_insert_insert_eq. mlookup.
  rewrite Hx, Hwd, Hret. msimpl. rewrite Hexec. cbn [negb]. msimpl.
  rewrite <- app_assoc. reflexivity.
Qed.

(** C3, as stated, fails when the sink refuses the exit event: the handler
    answers -1 at once; the caller stays ATTACHED with its working directory
    and its scratch, and no exec event follows although [retvalue >= 0]. *)
Lemma execve_exit_sink_refuses :
  let q := task100 59 0 [reg 2; reg 9; reg 0; reg 0; reg 0; reg 0] in
  syscall_execve_out (demo_env 0 1) (Some "execve") 0 59
                     (world_of [q; task101 59])
  = (Done (-1),
     {| processes := [q; task101 59]; trace := [Db_add_exit 8 0] |}).
Proof. reflexivity. Qed.

(** ** fork, vfork, clone *)

Lemma land_pow2 a n :
  0 <= n -> Z.land a (2 ^ n) = if Z.testbit a n then 2 ^ n else 0.
Proof.
  intros Hn. apply Z.bits_inj'. intros m Hm.
  rewrite Z.land_spec, Z.pow2_bits_eqb by lia.
  destruct (Z.eqb_spec n m) as [-> | Hne].
  - destruct (Z.testbit a m); cbn; [| now rewrite Z.bits_0].
    now rewrite Z.pow2_bits_true.
  - rewrite andb_false_r.
    destruct (Z.testbit a n); [| now rewrite Z.bits_0].
    now rewrite Z.pow2_bits_false.
Qed.

(** The [int] the code keeps of [flags & CLONE_THREAD] is zero exactly when
    the flag is not among the clone flags. *)
Lemma is_thread_flag flags :
  (to_int (Z.land flags CLONE_THREAD) =? 0)
  = (Z.land flags CLONE_THREAD =? 0).
Proof.
  change CLONE_THREAD with (2 ^ 16). rewrite land_pow2 by lia.
  destruct (Z.testbit flags 16); reflexivity.
Qed.

Section Forking.

Variable env : Env.

Lemma forking_finish_spec pi np it w q n cwd :
  processes w !! pi = Some q ->
  processes w !! np = Some n ->
  wd q = Some cwd ->
  exists rc w' n',
    forking_finish env pi np it w = (Done rc, w')
    /\ processes w' !! np = Some n'
    /\ tgid n' = (if negb (it =? 0) then tgid q else tid n)
    /\ wd n' = Some cwd
    /\ status n' = status n /\ tid n' = tid n
    /\ in_syscall n' = in_syscall n
    /\ trace w' = trace w ++ [Db_add_process (identifier q) cwd].
Proof.
  intros Hq Hn Hwd. unfold forking_finish. munfold.
  destruct (decide (np = pi)) as [-> | Hne].
  - assert (n = q) as -> by congruence.
    destruct (negb (it =? 0)); msimpl; repeat mlookup;
      cbn [wd set_tgid set_wd]; rewrite Hwd; msimpl; repeat mlookup;
      cbn [wd set_tgid set_wd identifier]; msimpl;
      mstatus; repeat mlookup; mstatus_again;
      eexists _, _, _; (split; [reflexivity |]); msimpl;
      (split; [lookup_tac |]); cbn; auto 10.
  - destruct (negb (it =? 0)); msimpl; repeat mlookup;
      rewrite Hwd; msimpl; repeat mlookup;
      rewrite Hwd; msimpl;
      mstatus; repeat mlookup; mstatus_again;
      eexists _, _, _; (split; [reflexivity |]); msimpl;
      (split; [lookup_tac |]); cbn; auto 10.
Qed.

Lemma actions_app t1 t2 : actions (t1 ++ t2) = actions t1 ++ actions t2.
Proof. apply List.filter_app. Qed.

Lemma forking_known_spec pi np new_tid it w q n cwd :
  processes w !! pi = Some q ->
  processes w !! np = Some n ->
  wd q = Some cwd ->
  status n = PROCESS_UNKNOWN ->
  exists rc w' n',
    forking_known env pi np new_tid it w = (Done rc, w')
    /\ processes w' !! np = Some n'
    /\ status n' = PROCESS_ATTACHED
    /\ tid n' = tid n
    /\ tgid n' = (if negb (it =? 0) then tgid q else tid n)
    /\ wd n' = Some cwd
    /\ actions (trace w')
       = actions (trace w)
         ++ [Ptrace_syscall (tid n); Db_add_process (identifier q) cwd].
Proof.
  intros Hq Hn Hwd Hst. unfold forking_known. munfold.
  mlookup. rewrite Hst. cbn [Status_eqb negb]. mlookup.
  set (w1 := {| processes := _; trace := _ |}).
  assert (exists q1, processes w1 !! pi = Some q1
                     /\ wd q1 = Some cwd /\ tgid q1 = tgid q
                     /\ identifier q1 = identifier q) as (q1 & Hq1 & W1 & G1 & I1).
  { subst w1. cbn [processes].
    destruct (decide (np = pi)) as [-> | Hne].
    - assert (n = q) as -> by congruence.
      eexists. split; [lookup_tac | auto]. 
    - eexists. split; [lookup_tac | auto]. }
  assert (Hn1 : processes w1 !! np = Some (set_status PROCESS_ATTACHED n))
    by (subst w1; cbn [processes]; lookup_tac).
  destruct (2 <=? verbosity env); msimpl.
  - destruct (trace_count_processes env _) as [nproc unknown]. msimpl.
    match goal with |- context [forking_finish env pi np it ?W] =>
      destruct (forking_finish_spec pi np it W q1 _ cwd Hq1 Hn1 W1)
        as (rc & w' & n' & E & L & G & D & S & T & _ & Tr) end.
    rewrite E. exists rc, w', n'. rewrite G, G1, Tr. cbn [trace] in *.
    subst w1. cbn [trace]. rewrite !actions_app. cbn in S, T |- *.
    rewrite <- ?app_assoc, I1. cbn [app]. auto 10.
  - match goal with |- context [forking_finish env pi np it ?W] =>
      destruct (forking_finish_spec pi np it W q1 _ cwd Hq1 Hn1 W1)
        as (rc & w' & n' & E & L & G & D & S & T & _ & Tr) end.
    rewrite E. exists rc, w', n'. rewrite G, G1, Tr. cbn [trace] in *.
    subst w1. cbn [trace]. rewrite !actions_app. cbn in S, T |- *.
    rewrite <- ?app_assoc, I1. cbn [app]. auto 10.
Qed.

Lemma forking_fresh_spec pi new_tid it w q cwd :
  processes w !! pi = Some q ->
  wd q = Some cwd ->
  exists rc w' np n',
    forking_fresh env pi new_tid it w = (Done rc, w')
    /\ match processes w !! np with
       | Some old => status old = PROCESS_FREE
       | None => np = List.length (processes w)
       end
    /\ processes w' !! np = Some n'
    /\ status n' = PROCESS_ALLOCATED
    /\ in_syscall n' = false
    /\ tid n' = new_tid
    /\ tgid n' = (if negb (it =? 0) then tgid q else new_tid)
    /\ wd n' = Some cwd
    /\ actions (trace w')
       = actions (trace w) ++ [Db_add_process (identifier q) cwd].
Proof.
  intros Hq Hwd. unfold forking_fresh, trace_get_empty_process. munfold.
  destruct (find_index _ (processes w)) as [np |] eqn:Hfind.
  - apply find_index_Some in Hfind as (old & Hold & Hfree).
    assert (Hst : status old = PROCESS_FREE)
      by (destruct (status old); cbn in Hfree; congruence).
    repeat mlookup.
    set (w1 := {| processes := _; trace := _ |}).
    set (n1 := set_in_syscall false
                 (set_tid new_tid (set_status PROCESS_ALLOCATED old))).
    assert (Hn1 : processes w1 !! np = Some n1)
      by (subst w1; cbn [processes]; lookup_tac).
    assert (exists q1, processes w1 !! pi = Some q1
                       /\ wd q1 = Some cwd /\ tgid q1 = tgid q
                       /\ identifier q1 = identifier q)
      as (q1 & Hq1 & W1 & G1 & I1).
    { subst w1. cbn [processes].
      destruct (decide (np = pi)) as [-> | Hne].
      - assert (old = q) as -> by congruence.
        eexists. split; [lookup_tac | auto].
      - eexists. split; [lookup_tac | auto]. }
    destruct (forking_finish_spec pi np it w1 q1 n1 cwd Hq1 Hn1 W1)
      as (rc & w' & n' & E & L & G & D & S & T & In & Tr).
    rewrite E. exists rc, w', np, n'. rewrite Hold, G, G1, Tr, I1.
    subst w1. cbn [trace]. rewrite actions_app. cbn in S, T, In |- *.
    auto 12.
  - set (ps := processes w ++ [blank_process]).
    set (np := List.length (processes w)).
    assert (Hnp : ps !! np = Some blank_process)
      by (subst ps np; apply list_lookup_middle; reflexivity).
    assert (Hpi : ps !! pi = Some q).
    { subst ps. rewrite lookup_app_l; [assumption |].
      eapply lookup_lt_Some; eauto. }
    assert (Hne : np <> pi).
    { subst np. apply lookup_lt_Some in Hq. lia. }
    repeat mlookup.
    set (w1 := {| processes := _; trace := _ |}).
    set (n1 := set_in_syscall false
                 (set_tid new_tid (set_status PROCESS_ALLOCATED blank_process))).
    assert (Hn1 : processes w1 !! np = Some n1)
      by (subst w1; cbn [processes]; lookup_tac).
    assert (Hq1 : processes w1 !! pi = Some q)
      by (subst w1; cbn [processes]; lookup_tac).
    destruct (forking_finish_spec pi np it w1 q n1 cwd Hq1 Hn1 Hwd)
      as (rc & w' & n' & E & L & G & D & S & T & In & Tr).
    rewrite E. exists rc, w', np, n'. rewrite G, Tr.
    assert (Hnone : processes w !! np = None)
      by (apply lookup_ge_None_2; subst np; lia).
    rewrite Hnone. subst w1. cbn [trace]. rewrite actions_app.
    cbn in S, T, In |- *. auto 12.
Qed.

Lemma forking_known_refused pi np new_tid it w n :
  processes w !! np = Some n ->
  status n <> PROCESS_UNKNOWN ->
  forking_known env pi np new_tid it w
  = (Done (-1),
     {| processes := processes w;
        trace := trace w
                 ++ [Log CRITICAL new_tid (Msg_already_running (status n))] |}).
Proof.
  intros Hn Hst. unfold forking_known. munfold. mlookup.
  destruct (status n); cbn [Status_eqb negb]; msimpl; congruence.
Qed.

Lemma forking_prefix name pi syscall w q r0 cwd :
  processes w !! pi = Some q ->
  params q !! 0%nat = Some r0 ->
  wd q = Some cwd ->
  0 < Reg.i (retvalue q) ->
  let new_tid := to_pid_t (Reg.i (retvalue q)) in
  let it := if syscall =? SYSCALL_FORK_CLONE
            then to_int (Z.land (Reg.u r0) CLONE_THREAD) else 0 in
  syscall_forking env name pi syscall w
  = match trace_find_process (processes w) new_tid with
    | Some np => forking_known env pi np new_tid it
    | None => forking_fresh env pi new_tid it
    end
      {| processes := processes w;
         trace := trace w
                  ++ (if 2 <=? verbosity env
                      then [Log INFO new_tid
                              (Msg_created (tid q) syscall
                                           (negb (it =? 0)) cwd)]
                      else []) |}.
Proof.
  intros Hq Hr0 Hwd Hret new_tid it. apply Z.ltb_lt in Hret.
  unfold syscall_forking. munfold. mlookup. rewrite Hret, Hr0, Hwd. msimpl.
  fold new_tid. subst it.
  destruct (syscall =? SYSCALL_FORK_CLONE); msimpl;
    destruct (2 <=? verbosity env); msimpl; try reflexivity;
    rewrite app_nil_r; destruct w; reflexivity.
Qed.

End Forking.

(** C9 (amended). On a fork, vfork or clone exit with [retvalue > 0], where
    the new tid is [retvalue] as a [pid_t]:
    - when the new tid is registered with status UNKNOWN, that task is
      promoted to ATTACHED and resumed with PTRACE_SYSCALL;
    - when it is not registered, a task is taken from a FREE or a new slot
      with status ALLOCATED, the new tid and [in_syscall = false];
    in both cases the task's tgid is the parent's tgid when the syscall is
    clone and its flags include CLONE_THREAD, and the new tid otherwise, its
    working directory is a copy of the parent's, and exactly one
    add_process(parent identifier, parent wd) is emitted;
    - when the new tid is registered with another status, the handler logs
      a critical line (the last line of the trace) and answers -1: no task
      changes, nothing is emitted. *)
Theorem forking_exit env name pi syscall w q r0 cwd :
  processes w !! pi = Some q ->
  params q !! 0%nat = Some r0 ->
  wd q = Some cwd ->
  0 < Reg.i (retvalue q) ->
  let new_tid := to_pid_t (Reg.i (retvalue q)) in
  let is_thread :=
    (syscall =? SYSCALL_FORK_CLONE)
    && negb (Z.land (Reg.u r0) CLONE_THREAD =? 0) in
  let new_tgid := if is_thread then tgid q else new_tid in
  match trace_find_process (processes w) new_tid with
  | Some np =>
      forall n, processes w !! np = Some n ->
      (status n = PROCESS_UNKNOWN ->
       exists rc w' n',
         syscall_forking env name pi syscall w = (Done rc, w')
         /\ processes w' !! np = Some n'
         /\ status n' = PROCESS_ATTACHED
         /\ tid n' = new_tid
         /\ tgid n' = new_tgid
         /\ wd n' = Some cwd
         /\ actions (trace w')
            = actions (trace w)
              ++ [Ptrace_syscall new_tid;
                  Db_add_process (identifier q) cwd])
      /\ (status n <> PROCESS_UNKNOWN ->
          exists w',
            syscall_forking env name pi syscall w = (Done (-1), w')
            /\ processes w' = processes w
            /\ actions (trace w') = actions (trace w)
            /\ trace w'
               = trace w
                 ++ (if 2 <=? verbosity env
                     then [Log INFO new_tid
                             (Msg_created (tid q) syscall is_thread cwd)]
                     else [])
                 ++ [Log CRITICAL new_tid (Msg_already_running (status n))])
  | None =>
      exists rc w' np n',
        syscall_forking env name pi syscall w = (Done rc, w')
        /\ match processes w !! np with
           | Some old => status old = PROCESS_FREE
           | None => np = List.length (processes w)
           end
        /\ processes w' !! np = Some n'
        /\ status n' = PROCESS_ALLOCATED
        /\ in_syscall n' = false
        /\ tid n' = new_tid
        /\ tgid n' = new_tgid
        /\ wd n' = Some cwd
        /\ actions (trace w')
           = actions (trace w) ++ [Db_add_process (identifier q) cwd]
  end.
Proof.
  intros Hq Hr0 Hwd Hret new_tid is_thread new_tgid.
  rewrite (forking_prefix env name pi syscall w q r0 cwd Hq Hr0 Hwd Hret).
  fold new_tid.
  set (it := if syscall =? SYSCALL_FORK_CLONE
             then to_int (Z.land (Reg.u r0) CLONE_THREAD) else 0).
  assert (Hit : negb (it =? 0) = is_thread).
  { subst it is_thread. destruct (syscall =? SYSCALL_FORK_CLONE); cbn [andb].
    - now rewrite is_thread_flag.
    - reflexivity. }
  set (w1 := {| processes := processes w; trace := _ |}).
  assert (Ha : actions (trace w1) = actions (trace w)).
  { subst w1. cbn [trace]. rewrite actions_app.
    destruct (2 <=? verbosity env); cbn; apply app_nil_r. }
  destruct (trace_find_process (processes w) new_tid) as [np |] eqn:Hfind.
  - intros n Hn. apply find_index_Some in Hfind as (n0 & Hn0 & Hp).
    assert (n0 = n) as -> by congruence.
    apply andb_prop in Hp as [_ Htid]. apply Z.eqb_eq in Htid.
    split; intros Hst.
    + destruct (forking_known_spec env pi np new_tid it w1 q n cwd Hq Hn Hwd Hst)
        as (rc & w' & n' & E & L & S & T & G & D & Tr).
      exists rc, w', n'. rewrite E, G, Hit, Tr, Ha, Htid.
      repeat split; auto; congruence.
    + rewrite (forking_known_refused env pi np new_tid it w1 n Hn Hst).
      eexists. split; [reflexivity |]. cbn [processes trace].
      rewrite actions_app, Ha. cbn.
      split; [reflexivity |]. split; [apply app_nil_r |].
      subst w1. cbn [trace]. rewrite Hit. now rewrite <- app_assoc.
  - destruct (forking_fresh_spec env pi new_tid it w1 q cwd Hq Hwd)
      as (rc & w' & np & n' & E & F & L & S & I & T & G & D & Tr).
    exists rc, w', np, n'. rewrite E, G, Hit, Tr, Ha. auto 12.
Qed.

Lemma forking_exit_witness :
  let q := task100 57 200 [reg 0; reg 0; reg 0; reg 0; reg 0; reg 0] in
  0 < Reg.i (retvalue q)
  /\ exists rc w' np n',
      syscall_forking (demo_env 0 0) (Some "fork") 0 SYSCALL_FORK_FORK
                      (world_of [q])
      = (Done rc, w')
      /\ match [q] !! np with
         | Some old => status old = PROCESS_FREE
         | None => np = 1%nat
         end
      /\ processes w' !! np = Some n'
      /\ status n' = PROCESS_ALLOCATED
      /\ in_syscall n' = false
      /\ tid n' = 200
      /\ tgid n' = 200
      /\ wd n' = Some "/home/u"
      /\ actions (trace w') = [Db_add_process 7 "/home/u"].
Proof.
  intros q. split; [cbn; lia |].
  exact (forking_exit (demo_env 0 0) (Some "fork") 0%nat SYSCALL_FORK_FORK
           (world_of [q]) q (reg 0) "/home/u"
           eq_refl eq_refl eq_refl ltac:(cbn; lia)).
Defined.

(** C9, as stated, fails when the new tid is registered with a status other
    than UNKNOWN: fork returning 200 while task 200 is ATTACHED logs a
    critical line and answers -1; no tgid or working directory is set and
    no add_process is emitted. *)
Lemma forking_exit_already_running :
  let q := task100 57 200 [reg 0; reg 0; reg 0; reg 0; reg 0; reg 0] in
  syscall_forking (demo_env 0 0) (Some "fork") 0 SYSCALL_FORK_FORK
                  (world_of [q; task200 PROCESS_ATTACHED])
  = (Done (-1),
     {| processes := [q; task200 PROCESS_ATTACHED];
        trace := [Log CRITICAL 200
                      (Msg_already_running PROCESS_ATTACHED)] |}).
Proof. reflexivity. Qed.

(** ** Frame properties of the handlers *)

(** A reading of a task that the setters of the handlers leave alone. *)
Class Frame {X} (f : Process -> X) : Prop := {
  frame_identifier v q : f (set_identifier v q) = f q;
  frame_tid v q : f (set_tid v q) = f q;
  frame_tgid v q : f (set_tgid v q) = f q;
  frame_status v q : f (set_status v q) = f q;
  frame_syscall_info v q : f (set_syscall_info v q) = f q;
  frame_wd v q : f (set_wd v q) = f q;
}.

#[global] Instance params_frame : Frame params.
Proof. split; reflexivity. Qed.
#[global] Instance in_syscall_frame : Frame in_syscall.
Proof. split; reflexivity. Qed.

Section Preservation.

Context {X : Type} (f : Process -> X) (pi : nat).

(** The slot [pi] still holds a task, with the same reading. *)
Definition keeps (w w' : World) : Prop :=
  forall q, processes w !! pi = Some q ->
  exists q', processes w' !! pi = Some q' /\ f q' = f q.

Definition preserves {A} (m : M A) : Prop :=
  forall w a w', m w = (Done a, w') -> keeps w w'.

Lemma keeps_refl w : keeps w w.
Proof. intros q Hq. eauto. Qed.

Lemma keeps_trans w1 w2 w3 : keeps w1 w2 -> keeps w2 w3 -> keeps w1 w3.
Proof.
  intros H12 H23 q Hq. destruct (H12 q Hq) as (q2 & Hq2 & E2).
  destruct (H23 q2 Hq2) as (q3 & Hq3 & E3). exists q3. split; congruence.
Qed.

Lemma keeps_same_processes w w' :
  processes w' = processes w -> keeps w w'.
Proof. intros E q Hq. rewrite E. eauto. Qed.

Lemma preserves_ret {A} (a : A) : preserves (ret a).
Proof. intros w b w' [= _ <-]. apply keeps_refl. Qed.

Lemma preserves_crash {A} fl : preserves (@crash A fl).
Proof. intros w b w' [=]. Qed.

Lemma preserves_bind {A B} (m : M A) (k : A -> M B) :
  preserves m -> (forall a, preserves (k a)) -> preserves (bind m k).
Proof.
  intros Hm Hk w b w2 E. apply bind_inv in E as (a & w1 & E1 & E2).
  eapply keeps_trans; [eapply Hm | eapply Hk]; eauto.
Qed.

Lemma preserves_load j : preserves (load j).
Proof.
  intros w a w'. unfold load. destruct (processes w !! j); intros [=]; subst.
  apply keeps_refl.
Qed.

Lemma preserves_get_processes : preserves get_processes.
Proof. intros w a w' [= _ <-]. apply keeps_refl. Qed.

Lemma preserves_emit e : preserves (emit e).
Proof. intros w a w' [= _ <-]. now apply keeps_same_processes. Qed.

Lemma preserves_sink env e : preserves (sink env e).
Proof. intros w a w' [= _ <-]. now apply keeps_same_processes. Qed.

Lemma preserves_store j g :
  (j = pi -> forall q, f (g q) = f q) -> preserves (store j g).
Proof.
  intros Hg w a w'. unfold store.
  destruct (processes w !! j) as [x |] eqn:Hj; intros [= _ <-]. intros q Hq.
  cbn [processes]. destruct (decide (j = pi)) as [-> | Hne].
  - exists (g x). split; [eapply lookup_store; eauto |].
    rewrite Hg by reflexivity. congruence.
  - exists q. now rewrite list_lookup_insert_ne.
Qed.

Lemma preserves_get_empty : preserves trace_get_empty_process.
Proof.
  intros w a w'. unfold trace_get_empty_process.
  destruct (find_index _ _); intros [= _ <-]; [apply keeps_refl |].
  intros q Hq. exists q. cbn [processes]. split; [| reflexivity].
  rewrite lookup_app_l; [assumption |]. eapply lookup_lt_Some; eauto.
Qed.

Lemma preserves_db_add_process `{!Frame f} env np parent cwd :
  preserves (db_add_process env np parent cwd).
Proof.
  intros w a w'. unfold db_add_process.
  destruct (_ =? 0).
  - intros E. apply bind_inv in E as (u & w1 & E1 & E2).
    injection E2 as _ <-.
    eapply keeps_trans; [| eapply preserves_store; [| exact E1]].
    + now apply keeps_same_processes.
    + intros _ q. apply frame_identifier.
  - intros [= _ <-]. now apply keeps_same_processes.
Qed.

End Preservation.

(** Goals [preserves f pi m] for straight-line monadic code. *)
Ltac preserve :=
  repeat first
    [ assumption
    | apply preserves_ret | apply preserves_crash | apply preserves_load
    | apply preserves_emit | apply preserves_sink
    | apply preserves_get_processes | apply preserves_get_empty
    | apply preserves_db_add_process; first [assumption | typeclasses eauto]
    | match goal with
      | |- preserves ?F _ (store _ _) =>
          apply preserves_store; intros;
          first [ exfalso; congruence
                | apply (@frame_identifier _ F _) | apply (@frame_tid _ F _)
                | apply (@frame_tgid _ F _) | apply (@frame_status _ F _)
                | apply (@frame_syscall_info _ F _) | apply (@frame_wd _ F _)
                | solve [auto] ]
      end
    | apply preserves_bind; [| intros ?]
    | match goal with
      | |- preserves _ _ (if ?c then _ else _) => destruct c
      | |- preserves _ _ (match ?x with _ => _ end) => destruct x
      end ].

Ltac unfold_handlers :=
  unfold syscall_unhandled_path1, syscall_unhandled_other,
    syscall_fileopening, syscall_filestat, syscall_readlink, syscall_mkdir,
    syscall_symlink, syscall_chdir, syscall_execve_in, syscall_execve_out,
    execve_out_finish, syscall_forking, forking_known, forking_fresh,
    forking_finish, syscall_socketcall,
    syscall_accept, syscall_connect, handle_accept, handle_connect,
    abs_path_arg, syscall_unhandled_other;
  unfold db_add_file_open, db_add_exit, db_add_exec,
    trace_add_files_from_proc, log, when, live, nonnull, in_bounds, param.

Section HandlerFrames.

Context {X : Type} (f : Process -> X) `{!Frame f} (pi : nat) (env : Env).

Lemma log_each_preserves task args : preserves f pi (log_each task args).
Proof. induction args; cbn [log_each]; unfold log; preserve. Qed.

(** Every handler but syscall_forking and syscall_xxx_at keeps the readings
    of a frame, in every slot. *)
Lemma leaf_handlers_preserve name pj udata :
  preserves f pi (syscall_unhandled_path1 env name pj udata)
  /\ preserves f pi (syscall_unhandled_other env name pj udata)
  /\ preserves f pi (syscall_fileopening env name pj udata)
  /\ preserves f pi (syscall_filestat env name pj udata)
  /\ preserves f pi (syscall_readlink env name pj udata)
  /\ preserves f pi (syscall_mkdir env name pj udata)
  /\ preserves f pi (syscall_symlink env name pj udata)
  /\ preserves f pi (syscall_chdir env name pj udata)
  /\ preserves f pi (syscall_execve_in env name pj udata)
  /\ preserves f pi (syscall_execve_out env name pj udata)
  /\ preserves f pi (syscall_socketcall env name pj udata)
  /\ preserves f pi (syscall_accept env name pj udata)
  /\ preserves f pi (syscall_connect env name pj udata).
Proof.
  repeat split; unfold_handlers; preserve; apply log_each_preserves.
Qed.

(** syscall_forking also writes [in_syscall], of the new task. *)
Lemma forking_preserves name pj udata :
  (forall v q, f (set_in_syscall v q) = f q) ->
  preserves f pi (syscall_forking env name pj udata).
Proof. intros Hin. unfold_handlers. preserve. Qed.

End HandlerFrames.

Lemma shift_unshift {A} (a s : list A) (a0 : A) :
  a !! 0%nat = Some a0 ->
  shift_args a = Some s ->
  exists back, unshift_args s = Some back /\ <[0%nat := a0]> back = a.
Proof.
  destruct a as [| x0 [| x1 [| x2 [| x3 [| x4 [| x5 rest]]]]]];
    cbn; intros [= <-] [= <-]; eexists; split; reflexivity.
Qed.


(** ** The *at wrapper restores the register arguments *)

Section ParamsRestored.

Variables (env : Env) (pi : nat).

Lemma xxx_at_restores callk name udata :
  (forall h nm u, preserves params pi (callk h nm pi u)) ->
  preserves params pi (syscall_xxx_at env callk name pi udata).
Proof.
  intros Hc w r w' E q Hq. unfold syscall_xxx_at in E.
  erewrite bind_done in E by (apply load_ok; eassumption).
  unfold param in E.
  destruct (params q !! 0%nat) as [r0 |] eqn:H0; [| discriminate E].
  rewrite bind_ret in E.
  destruct (Reg.i r0 =? AT_FDCWD).
  2: { destruct (leaf_handlers_preserve params pi env name pi 0)
         as (_ & P & _). exact (P _ _ _ E q Hq). }
  destruct (syscall_tables !! syscall_type_of q) as [tbl |];
    [| discriminate E].
  cbn [in_bounds] in E. rewrite bind_ret in E.
  assert (Hbad : forall n, preserves params pi
                   (log CRITICAL (tid q) (Msg_invalid_at n) ;; ret 0))
    by (intros n; unfold log; preserve).
  destruct (if udata <? Z.of_nat (Tbl.length tbl)
            then Tbl.entries tbl !! Z.to_nat udata else None)
    as [[[nm |] pe [h |] u] |];
    try exact (Hbad _ _ _ _ E q Hq).
  destruct (shift_args (params q)) as [s |] eqn:Hs; [| discriminate E].
  cbn [in_bounds] in E. rewrite bind_ret in E.
  erewrite bind_done in E by (apply store_ok; eassumption).
  apply bind_inv in E as (r1 & w2 & Ec & E).
  destruct (Hc h name u _ _ _ Ec (set_params s q)) as (q2 & Hq2 & P2).
  { cbn [processes]. eapply lookup_store; eauto. }
  cbn [params set_params] in P2.
  erewrite bind_done in E by (apply load_ok; exact Hq2).
  destruct (shift_unshift _ _ _ H0 Hs) as (back & Hb & Hr).
  rewrite P2, Hb in E. cbn [in_bounds] in E. rewrite bind_ret in E.
  erewrite bind_done in E by (apply store_ok; exact Hq2).
  injection E as _ <-. cbn [processes].
  eexists. split; [eapply lookup_store; eauto |]. exact Hr.
Qed.

(** No handler changes the register arguments of the task it is called
    for, whatever the nesting of the calls through the table. *)
Lemma call_keeps_params depth h name udata :
  preserves params pi (call env depth h name pi udata).
Proof.
  revert h name udata. induction depth as [| d IH]; intros h name udata;
    destruct (leaf_handlers_preserve params pi env name pi udata)
      as (? & ? & ? & ? & ? & ? & ? & ? & ? & ? & ? & ? & ?);
    destruct h; cbn [call]; try assumption;
    try (apply forking_preserves; [typeclasses eauto | reflexivity]).
  - apply preserves_crash.
  - apply xxx_at_restores. intros. apply IH.
Qed.

End ParamsRestored.

Lemma at_rows_ok :
  forallb (fun tbl => forallb (at_row_ok tbl) (Tbl.entries tbl))
          syscall_tables = true.
Proof. vm_compute. reflexivity. Qed.

Lemma at_row_target t tbl n e :
  syscall_tables !! t = Some tbl ->
  Tbl.entries tbl !! n = Some e ->
  Tbl.proc_exit e = Some fn_xxx_at ->
  (Tbl.udata e <? Z.of_nat (Tbl.length tbl)) = true
  /\ exists nm pe h u,
      Tbl.entries tbl !! Z.to_nat (Tbl.udata e)
      = Some (Tbl.mk_entry (Some nm) pe (Some h) u)
      /\ is_path_handler h = true.
Proof.
  intros Ht He Hat. pose proof at_rows_ok as Hall.
  rewrite forallb_forall in Hall.
  assert (Hin : In tbl syscall_tables)
    by (apply list_elem_of_In; eapply list_elem_of_lookup_2; eauto).
  specialize (Hall _ Hin). rewrite forallb_forall in Hall.
  assert (Hin' : In e (Tbl.entries tbl))
    by (apply list_elem_of_In; eapply list_elem_of_lookup_2; eauto).
  specialize (Hall _ Hin'). unfold at_row_ok in Hall. rewrite Hat in Hall.
  apply andb_prop in Hall as [Hlt Hrow]. split; [assumption |].
  destruct (Tbl.entries tbl !! Z.to_nat (Tbl.udata e))
    as [[[nm |] pe [h |] u] |]; try discriminate.
  eauto 10.
Qed.

Lemma path_handlers_return env depth h name pi udata w q cwd x0 x1 :
  processes w !! pi = Some q ->
  wd q = Some cwd ->
  params q !! 0%nat = Some x0 ->
  params q !! 1%nat = Some x1 ->
  is_path_handler h = true ->
  exists r w', call env depth h name pi udata w = (Done r, w').
Proof.
  intros Hq Hwd H0 H1 Hh.
  destruct h; try discriminate Hh; destruct depth; cbn [call];
    unfold syscall_fileopening, syscall_filestat, syscall_readlink,
      syscall_mkdir, abs_path_arg; munfold; mlookup;
    rewrite ?H0, ?H1, ?Hwd; msimpl;
    destruct (negb (is_absolute _)); msimpl; rewrite ?Hwd; msimpl;
    repeat match goal with
           | |- context [if ?c then _ else _] => destruct c; msimpl
           end;
    rewrite ?H1; msimpl;
    repeat match goal with
           | |- context [if ?c then _ else _] => destruct c; msimpl
           end;
    eauto.
Qed.

Lemma xxx_at_returns env depth pi w q r0 cwd tbl n e :
  processes w !! pi = Some q ->
  params q !! 0%nat = Some r0 ->
  Reg.i r0 = AT_FDCWD ->
  List.length (params q) = PROCESS_ARGS ->
  wd q = Some cwd ->
  syscall_tables !! syscall_type_of q = Some tbl ->
  Tbl.entries tbl !! n = Some e ->
  Tbl.proc_exit e = Some fn_xxx_at ->
  exists r w',
    syscall_xxx_at env (call env depth) (Tbl.name e) pi (Tbl.udata e) w
    = (Done r, w').
Proof.
  intros Hq H0 Hfd Hlen Hwd Ht He Hat.
  destruct (at_row_target _ _ _ _ Ht He Hat)
    as (Hlt & nm & pe & h & u & Hrow & Hh).
  destruct (params q) as [| x0 [| x1 [| x2 [| x3 [| x4 [| x5 [|]]]]]]] eqn:Hp;
    try discriminate Hlen.
  assert (Hs : shift_args (params q) = Some [x1; x2; x3; x4; x5; x5])
    by (rewrite Hp; reflexivity).
  rewrite <- Hp in H0.
  unfold syscall_xxx_at.
  erewrite bind_done by (apply load_ok; eassumption).
  unfold param. rewrite H0, bind_ret.
  apply Z.eqb_eq in Hfd. rewrite Hfd, Ht. cbn [in_bounds].
  rewrite bind_ret, Hlt, Hrow, Hs. cbn [in_bounds]. rewrite bind_ret.
  erewrite bind_done by (apply store_ok; eassumption).
  set (w1 := {| processes := _; trace := _ |}).
  set (q1 := set_params [x1; x2; x3; x4; x5; x5] q).
  assert (Hq1 : processes w1 !! pi = Some q1)
    by (subst w1; cbn [processes]; eapply lookup_store; eauto).
  destruct (path_handlers_return env depth h (Tbl.name e) pi u w1 q1 cwd x1 x2
              Hq1 Hwd eq_refl eq_refl Hh) as (r1 & w2 & E1).
  erewrite bind_done by exact E1.
  destruct (call_keeps_params env pi depth h (Tbl.name e) u _ _ _ E1 q1 Hq1)
    as (q2 & Hq2 & P2).
  erewrite bind_done by (apply load_ok; exact Hq2).
  destruct (shift_unshift _ _ _ H0 Hs) as (back & Hb & _).
  rewrite P2. cbn [params q1 set_params]. rewrite Hb. cbn [in_bounds].
  rewrite bind_ret.
  erewrite bind_done by (apply store_ok; exact Hq2).
  eauto.
Qed.

(** C7. For every task whose directory-fd argument is the AT_FDCWD
    sentinel: after syscall_xxx_at returns, every register argument of the
    task has the value it had before the call; and for the *at rows of the
    tables, on a task with its six register arguments and a live working
    directory, the wrapper does return. *)
Theorem xxx_at_restores_params env depth name pi real_syscall w q r0 :
  processes w !! pi = Some q ->
  params q !! 0%nat = Some r0 ->
  Reg.i r0 = AT_FDCWD ->
  (forall r w',
     syscall_xxx_at env (call env depth) name pi real_syscall w = (Done r, w')
     -> exists q', processes w' !! pi = Some q' /\ params q' = params q)
  /\ (forall cwd tbl n e,
        List.length (params q) = PROCESS_ARGS ->
        wd q = Some cwd ->
        syscall_tables !! syscall_type_of q = Some tbl ->
        Tbl.entries tbl !! n = Some e ->
        Tbl.proc_exit e = Some fn_xxx_at ->
        name = Tbl.name e ->
        real_syscall = Tbl.udata e ->
        exists r w',
          syscall_xxx_at env (call env depth) name pi real_syscall w
          = (Done r, w')).
Proof.
  intros Hq H0 Hfd. split.
  - intros r w' E.
    exact (xxx_at_restores env pi (call env depth) name real_syscall
             (fun h nm u => call_keeps_params env pi depth h nm u)
             w r w' E q Hq).
  - intros cwd tbl n e Hlen Hwd Ht He Hat -> ->.
    eapply xxx_at_returns; eauto.
Qed.

Lemma xxx_at_restores_params_witness :
  let q := task100 257 3 [reg AT_FDCWD; reg 4; reg 0; reg 0; reg 0; reg 0] in
  exists r w' q',
    syscall_xxx_at (demo_env 0 0) (call (demo_env 0 0) 0) (Some "openat") 0 2
                   (world_of [q])
    = (Done r, w')
    /\ processes w' !! 0%nat = Some q'
    /\ params q' = params q.
Proof.
  intros q.
  destruct (xxx_at_restores_params (demo_env 0 0) 0 (Some "openat") 0%nat 2
              (world_of [q]) q (reg AT_FDCWD) eq_refl eq_refl eq_refl)
    as [Hback Hret].
  destruct (Hret "/home/u" (process_table list_x86_64) 257%nat
              (Tbl.mk_entry (Some "openat") None (Some fn_xxx_at) 2)
              eq_refl eq_refl eq_refl eq_refl eq_refl eq_refl eq_refl)
    as (r & w' & E).
  destruct (Hback r w' E) as (q' & Hq' & Hp).
  exists r, w', q'. auto.
Defined.

(** ** The dispatch engine flips [in_syscall] *)

(** [E : m w = (Done a, w')] for straight-line [m]: the run keeps [f]. *)
Ltac by_preserves E f pi :=
  match type of E with
  | ?m ?w = (Done _, _) =>
      let P := fresh "P" in
      assert (P : preserves f pi m) by (unfold_handlers; preserve);
      exact (P _ _ _ E)
  end.

Section Flip.

Variables (env : Env) (pi : nat).

Lemma keeps_same_lookup w w' q :
  keeps same pi w w' -> processes w !! pi = Some q ->
  processes w' !! pi = Some q.
Proof.
  intros K Hq. destruct (K q Hq) as (q' & Hq' & E). unfold same in E.
  congruence.
Qed.

Lemma keeps_same_any {X} (f : Process -> X) w w' :
  keeps same pi w w' -> keeps f pi w w'.
Proof.
  intros K q Hq. exists q. split; [eapply keeps_same_lookup; eauto | auto].
Qed.

Lemma get_empty_other w np w1 q :
  trace_get_empty_process w = (Done np, w1) ->
  processes w !! pi = Some q ->
  status q <> PROCESS_FREE ->
  np <> pi /\ processes w1 !! pi = Some q.
Proof.
  unfold trace_get_empty_process. intros E Hq Hst.
  destruct (find_index _ (processes w)) as [k |] eqn:Hfind;
    injection E as <- <-.
  - apply find_index_Some in Hfind as (old & Hold & Hfree).
    split; [| assumption]. intros ->.
    assert (old = q) as -> by congruence.
    destruct (status q); cbn in Hfree; congruence.
  - cbn [processes]. pose proof (lookup_lt_Some _ _ _ Hq).
    split; [lia |]. now rewrite lookup_app_l.
Qed.

Lemma forking_fresh_keeps_in_syscall new_tid it w r w' q :
  processes w !! pi = Some q ->
  status q <> PROCESS_FREE ->
  forking_fresh env pi new_tid it w = (Done r, w') ->
  keeps in_syscall pi w w'.
Proof.
  intros Hq Hst E. unfold forking_fresh in E.
  apply bind_inv in E as (np & w1 & E1 & E).
  destruct (get_empty_other _ _ _ _ E1 Hq Hst) as [Hne Hq1].
  eapply keeps_trans.
  - exact (preserves_get_empty in_syscall pi _ _ _ E1).
  - by_preserves E in_syscall pi.
Qed.

Lemma forking_keeps_in_syscall name udata w r w' q :
  processes w !! pi = Some q ->
  status q <> PROCESS_FREE ->
  syscall_forking env name pi udata w = (Done r, w') ->
  keeps in_syscall pi w w'.
Proof.
  intros Hq Hst E. unfold syscall_forking in E.
  erewrite bind_done in E by (apply load_ok; eassumption).
  destruct (0 <? Reg.i (retvalue q));
    [| injection E as _ <-; apply keeps_refl].
  apply bind_inv in E as (it & w1 & E1 & E).
  apply bind_inv in E as ([] & w2 & E2 & E).
  apply bind_inv in E as (ps & w3 & E3 & E).
  assert (K : keeps same pi w w3).
  { eapply keeps_trans; [| eapply keeps_trans].
    - by_preserves E1 same pi.
    - by_preserves E2 same pi.
    - exact (preserves_get_processes same pi _ _ _ E3). }
  eapply keeps_trans; [apply keeps_same_any; exact K |].
  pose proof (keeps_same_lookup _ _ _ K Hq) as Hq3.
  destruct (trace_find_process ps _) as [np |].
  - by_preserves E in_syscall pi.
  - eapply forking_fresh_keeps_in_syscall; eauto.
Qed.

Lemma xxx_at_keeps_in_syscall callk name udata w r w' q :
  (forall h nm u w r w' q,
     processes w !! pi = Some q -> status q <> PROCESS_FREE ->
     callk h nm pi u w = (Done r, w') -> keeps in_syscall pi w w') ->
  processes w !! pi = Some q ->
  status q <> PROCESS_FREE ->
  syscall_xxx_at env callk name pi udata w = (Done r, w') ->
  keeps in_syscall pi w w'.
Proof.
  intros Hc Hq Hst E. unfold syscall_xxx_at in E.
  erewrite bind_done in E by (apply load_ok; eassumption).
  unfold param in E.
  destruct (params q !! 0%nat) as [r0 |]; [| discriminate E].
  rewrite bind_ret in E.
  destruct (Reg.i r0 =? AT_FDCWD); [| by_preserves E in_syscall pi].
  destruct (syscall_tables !! syscall_type_of q) as [tbl |];
    [| discriminate E].
  cbn [in_bounds] in E. rewrite bind_ret in E.
  destruct (if udata <? Z.of_nat (Tbl.length tbl)
            then Tbl.entries tbl !! Z.to_nat udata else None)
    as [[[nm |] pe [h |] u] |];
    try by_preserves E in_syscall pi.
  destruct (shift_args (params q)) as [s |]; [| discriminate E].
  cbn [in_bounds] in E. rewrite bind_ret in E.
  apply bind_inv in E as ([] & w1 & E1 & E).
  apply bind_inv in E as (r1 & w2 & E2 & E).
  assert (K1 : keeps in_syscall pi w w1) by by_preserves E1 in_syscall pi.
  assert (Hq1 : processes w1 !! pi = Some (set_params s q)).
  { rewrite (store_ok _ _ _ _ Hq) in E1. injection E1 as <-.
    cbn [processes]. eapply lookup_store; eauto. }
  assert (K2 : keeps in_syscall pi w1 w2) by (eapply Hc; eauto).
  assert (K3 : keeps in_syscall pi w2 w') by by_preserves E in_syscall pi.
  eauto using keeps_trans.
Qed.

(** A handler called for a task whose slot is not FREE leaves the task's
    [in_syscall] as it was. *)
Lemma call_keeps_in_syscall depth h name udata w r w' q :
  processes w !! pi = Some q ->
  status q <> PROCESS_FREE ->
  call env depth h name pi udata w = (Done r, w') ->
  keeps in_syscall pi w w'.
Proof.
  revert h name udata w r w' q.
  induction depth as [| d IH]; intros h name udata w r w' q Hq Hst E;
    destruct (leaf_handlers_preserve in_syscall pi env name pi udata)
      as (? & ? & ? & ? & ? & ? & ? & ? & ? & ? & ? & ? & ?);
    destruct h; cbn [call] in E;
    try match goal with
        | P : preserves _ _ ?m |- _ =>
            match type of E with m _ = _ => exact (P _ _ _ E) end
        end;
    try (eapply forking_keeps_in_syscall; eauto; fail).
  - discriminate E.
  - eapply xxx_at_keeps_in_syscall; eauto.
Qed.

Lemma transition_loop_preserves {X} (f : Process -> X) task group nr target
    ps entry :
  preserves f pi (transition_loop env task group nr target ps entry).
Proof.
  revert entry. induction ps as [| x ps IH]; intros entry;
    cbn [transition_loop]; unfold_handlers; preserve; apply IH.
Qed.

Lemma read_entry_preserves {X} (f : Process -> X) ptr :
  preserves f pi (read_entry ptr).
Proof. unfold read_entry. destruct ptr. unfold_handlers. preserve. Qed.

Lemma dispatch_keeps_in_syscall depth w r w' q :
  processes w !! pi = Some q ->
  status q <> PROCESS_FREE ->
  syscall_dispatch env depth pi w = (Done r, w') ->
  keeps in_syscall pi w w'.
Proof.
  intros Hq Hst E. unfold syscall_dispatch in E.
  erewrite bind_done in E by (apply load_ok; eassumption).
  apply bind_inv in E as ([] & w1 & E1 & E).
  apply bind_inv in E as (tbl & w2 & E2 & E).
  apply bind_inv in E as ([] & w3 & E3 & E).
  apply bind_inv in E as (entry & w4 & E4 & E).
  pose proof (transition_loop_preserves same) as Hloop.
  assert (K : keeps same pi w w4).
  { eapply keeps_trans; [| eapply keeps_trans; [| eapply keeps_trans]].
    - by_preserves E1 same pi.
    - by_preserves E2 same pi.
    - by_preserves E3 same pi.
    - match type of E4 with
      | ?m _ = _ => assert (P : preserves same pi m)
      end.
      { unfold_handlers. preserve; apply Hloop. }
      exact (P _ _ _ E4). }
  destruct entry as [ptr |]; [| injection E as _ <-; now apply keeps_same_any].
  apply bind_inv in E as (e & w5 & E5 & E).
  apply bind_inv in E as ([] & w6 & E6 & E).
  assert (K' : keeps same pi w w6).
  { eapply keeps_trans; [exact K | eapply keeps_trans].
    - exact (read_entry_preserves same ptr _ _ _ E5).
    - by_preserves E6 same pi. }
  pose proof (keeps_same_lookup _ _ _ K' Hq) as Hq6.
  eapply keeps_trans; [apply keeps_same_any; exact K' |].
  destruct (in_syscall q), (Tbl.proc_entry e), (Tbl.proc_exit e);
    try (eapply call_keeps_in_syscall; eauto; fail);
    injection E as _ <-; apply keeps_refl.
Qed.

End Flip.

(** C4 (amended). An invocation of syscall_handle on a task whose slot is
    not FREE, split at the end of the block that looks the entry up and
    calls the handler ([syscall_dispatch], which answers the handler's
    status, 0 when none is called).  That block leaves [in_syscall] as it
    was.  When the status is 0, syscall_handle returns 0: [in_syscall] has
    been negated exactly once, on the exit edge [current_syscall] is -1 and
    [syscall_info] is null, and the PTRACE_SYSCALL resume of the task is the
    last effect.  When the status is not 0, syscall_handle returns -1 at
    once: the registry and the trace are as the handler left them, so
    [in_syscall] is as it was and the task is not resumed.  A fault in the
    block is the fault of syscall_handle. *)
Theorem syscall_handle_flips env depth pi w q :
  processes w !! pi = Some q ->
  status q <> PROCESS_FREE ->
  match syscall_dispatch env depth pi w with
  | (Done r, w1) =>
      exists q1,
        processes w1 !! pi = Some q1
        /\ in_syscall q1 = in_syscall q
        /\ in_syscall (flipped q1) = negb (in_syscall q)
        /\ (in_syscall q = true ->
            current_syscall (flipped q1) = -1
            /\ syscall_info (flipped q1) = None)
        /\ syscall_handle env depth pi w
           = (if r =? 0
              then (Done 0,
                    {| processes := <[pi := flipped q1]> (processes w1);
                       trace := trace w1 ++ [Ptrace_syscall (tid q)] |})
              else (Done (-1), w1))
  | (Crash fl, w1) => syscall_handle env depth pi w = (Crash fl, w1)
  end.
Proof.
  intros Hq Hst.
  destruct (syscall_dispatch env depth pi w) as [[r | fl] w1] eqn:E1.
  - destruct (dispatch_keeps_in_syscall env pi depth w r w1 q Hq Hst E1 q Hq)
      as (q1 & Hq1 & I1).
    exists q1. split; [exact Hq1 |]. split; [exact I1 |].
    split; [| split].
    + unfold flipped. rewrite <- I1. now destruct (in_syscall q1).
    + intros Hin. unfold flipped. rewrite I1, Hin. split; reflexivity.
    + unfold syscall_handle.
      erewrite bind_done by (apply load_ok; eassumption).
      erewrite bind_done by exact E1.
      destruct (r =? 0); cbn [negb]; [| reflexivity].
      unfold flipped. munfold. mlookup.
      destruct (in_syscall q1); msimpl; repeat mlookup;
        rewrite ?list_insert_insert_eq; reflexivity.
  - unfold syscall_handle.
    erewrite bind_done by (apply load_ok; eassumption).
    unfold bind. now rewrite E1.
Qed.

Lemma syscall_handle_flips_witness :
  let q := task100 85 4 [reg 1; reg 420; reg 0; reg 0; reg 0; reg 0] in
  status q <> PROCESS_FREE
  /\ in_syscall (flipped q) = false
  /\ current_syscall (flipped q) = -1
  /\ syscall_info (flipped q) = None
  /\ syscall_handle (demo_env 0 0) 1 0 (world_of [q])
     = (Done 0,
        {| processes := [flipped q];
           trace := [Db_add_file_open 7 "/home/u/out" FILE_WRITE false;
                     Ptrace_syscall 100] |}).
Proof.
  intros q.
  assert (Hst : status q <> PROCESS_FREE) by discriminate.
  split; [exact Hst |].
  generalize (syscall_handle_flips (demo_env 0 0) 1 0%nat (world_of [q]) q
                eq_refl Hst).
  change (syscall_dispatch (demo_env 0 0) 1 0 (world_of [q]))
    with (Done 0,
          {| processes := [q];
             trace := [Db_add_file_open 7 "/home/u/out" FILE_WRITE false] |}).
  intros (q1 & Hq1 & _ & Hflip & Hexit & Hrun).
  injection Hq1 as <-.
  split; [exact Hflip |]. split; [exact (proj1 (Hexit eq_refl)) |].
  split; [exact (proj2 (Hexit eq_refl)) | exact Hrun].
Defined.

(** C4, as stated, fails when a handler fails: fork returning 200 while
    task 200 is already ATTACHED makes syscall_forking answer -1, and
    syscall_handle returns -1 at once; [in_syscall] is still true and the
    task is not resumed. *)
Lemma syscall_handle_handler_fails :
  let q := task100 57 200 [reg 0; reg 0; reg 0; reg 0; reg 0; reg 0] in
  in_syscall q = true
  /\ syscall_handle (demo_env 0 0) 1 0
                    (world_of [q; task200 PROCESS_ATTACHED])
     = (Done (-1),
        {| processes := [q; task200 PROCESS_ATTACHED];
           trace := [Log CRITICAL 200
                         (Msg_already_running PROCESS_ATTACHED)] |}).
Proof. split; reflexivity. Qed.

(** Why the slot must not be FREE: dispatched for a FREE slot, a fork exit
    is handed that same slot for the new task; the handler clears
    [in_syscall] and the flip sets it again, so it ends as it began. *)
Lemma syscall_handle_on_free_slot :
  let q := set_status PROCESS_FREE
             (task100 57 200 [reg 0; reg 0; reg 0; reg 0; reg 0; reg 0]) in
  exists w' q',
    syscall_handle (demo_env 0 0) 1 0 (world_of [q]) = (Done 0, w')
    /\ processes w' !! 0%nat = Some q'
    /\ in_syscall q = true /\ in_syscall q' = true.
Proof.
  cbv zeta. eexists _, _.
  split; [vm_compute; reflexivity |].
  split; [reflexivity | split; reflexivity].
Qed.

(** ** openat with the AT_FDCWD sentinel *)

Lemma events_app t1 t2 : events (t1 ++ t2) = events t1 ++ events t2.
Proof. apply List.filter_app. Qed.

Lemma fileopening_open_events env name pi w q path flags :
  processes w !! pi = Some q ->
  params q !! 0%nat = Some path ->
  params q !! 1%nat = Some flags ->
  exists r w',
    syscall_fileopening env name pi SYSCALL_OPENING_OPEN w = (r, w')
    /\ processes w' = processes w
    /\ events (trace w') = events (trace w) ++ open_events env q path flags.
Proof.
  intros Hq H0 H1. unfold syscall_fileopening, abs_path_arg, open_events.
  munfold. mlookup. rewrite H0. msimpl.
  change (SYSCALL_OPENING_OPEN =? SYSCALL_OPENING_ACCESS) with false.
  change (SYSCALL_OPENING_OPEN =? SYSCALL_OPENING_CREAT) with false.
  cbv iota.
  destruct (is_absolute _); cbn [negb]; msimpl.
  - rewrite H1. msimpl.
    destruct (3 <=? verbosity env); msimpl;
      destruct (0 <=? Reg.i (retvalue q)); msimpl;
      try (destruct (negb _); msimpl);
      eexists _, _; (split; [reflexivity |]); cbn [processes trace];
      rewrite ?events_app; cbn; rewrite ?app_nil_r; auto.
  - destruct (wd q); msimpl; cbn [option_map].
    + rewrite H1. msimpl.
      destruct (3 <=? verbosity env); msimpl;
        destruct (0 <=? Reg.i (retvalue q)); msimpl;
        try (destruct (negb _); msimpl);
        eexists _, _; (split; [reflexivity |]); cbn [processes trace];
        rewrite ?events_app; cbn; rewrite ?app_nil_r; auto.
    + eexists _, _; (split; [reflexivity |]). rewrite app_nil_r. auto.
Qed.

Lemma handle_events env depth pi w :
  events (trace (snd (syscall_handle env depth pi w)))
  = events (trace (snd (syscall_dispatch env depth pi w))).
Proof.
  unfold syscall_handle. unfold bind at 1, load at 1.
  destruct (processes w !! pi) as [q |] eqn:Hq.
  - unfold bind at 1.
    destruct (syscall_dispatch env depth pi w) as [[r | fl] w1];
      [| reflexivity].
    destruct (negb (r =? 0)); [reflexivity |].
    munfold.
    destruct (processes w1 !! pi) as [q1 |]; msimpl; [| reflexivity].
    destruct (in_syscall q1); msimpl;
      repeat match goal with
             | |- context [ @lookup nat Process (list Process) _ ?i ?l ] =>
                 destruct (l !! i); msimpl
             end;
      rewrite ?events_app; cbn; rewrite ?app_nil_r; reflexivity.
  - unfold syscall_dispatch. unfold bind at 1, load at 1. rewrite Hq.
    reflexivity.
Qed.

Ltac zeval t := let v := eval vm_compute in t in change t with v.

Lemma read_entry_open w :
  read_entry (SYSCALL_X86_64, 2) w
  = (Done (Tbl.mk_entry (Some "open") None (Some fn_fileopening)
                        SYSCALL_OPENING_OPEN), w).
Proof. reflexivity. Qed.

Lemma read_entry_openat w :
  read_entry (SYSCALL_X86_64, 257) w
  = (Done (Tbl.mk_entry (Some "openat") None (Some fn_xxx_at) 2), w).
Proof. reflexivity. Qed.

Lemma dispatch_on_x86_64 env depth pi w q nr :
  processes w !! pi = Some q ->
  mode q = MODE_X86_64 ->
  current_syscall q = nr ->
  in_syscall q = true ->
  nr = 2 \/ nr = 257 ->
  exists logged,
    events logged = []
    /\ syscall_dispatch env depth pi w
       = (e <- read_entry (SYSCALL_X86_64, nr) ;;
          match Tbl.name e with
          | Some nm => when (3 <=? verbosity env)
                            (log DEBUG (tid q) (Msg_entry_name nm))
          | None => ret tt
          end ;;
          match Tbl.proc_exit e with
          | Some h => call env depth h (Tbl.name e) pi (Tbl.udata e)
          | None => ret 0
          end)
           {| processes := processes w; trace := trace w ++ logged |}.
Proof.
  intros Hq Hm Hnr Hin Hcase.
  exists (if 4 <=? verbosity env
          then [Log DEBUG (tid q) (Msg_syscall nr SYSCALL_X86_64)] else []).
  split; [destruct (4 <=? verbosity env); reflexivity |].
  unfold syscall_dispatch.
  erewrite bind_done by (apply load_ok; eassumption).
  unfold syscall_type_of. rewrite Hm, Hnr, Hin.
  destruct Hcase as [-> | ->].
  - zeval (Z.land 2 (Z.lnot __X32_SYSCALL_BIT)).
    zeval (Z.land 2 __X32_SYSCALL_BIT =? 0). cbn [negb].
    change (syscall_tables !! SYSCALL_X86_64)
      with (Some (process_table list_x86_64)).
    munfold.
    destruct (4 <=? verbosity env); msimpl; [reflexivity |].
    rewrite app_nil_r. destruct w; reflexivity.
  - zeval (Z.land 257 (Z.lnot __X32_SYSCALL_BIT)).
    zeval (Z.land 257 __X32_SYSCALL_BIT =? 0). cbn [negb].
    change (syscall_tables !! SYSCALL_X86_64)
      with (Some (process_table list_x86_64)).
    munfold.
    destruct (4 <=? verbosity env); msimpl; [reflexivity |].
    rewrite app_nil_r. destruct w; reflexivity.
Qed.

Lemma when_log_events (c : bool) lvl task msg w :
  exists w1,
    when c (log lvl task msg) w = (Done tt, w1)
    /\ processes w1 = processes w
    /\ events (trace w1) = events (trace w).
Proof.
  destruct c; cbn [when]; [| exists w; auto].
  eexists. split; [reflexivity |]. cbn [processes trace].
  rewrite events_app. cbn. rewrite app_nil_r. auto.
Qed.

Lemma open_on_x86_64 env depth pi w q path flags rest :
  processes w !! pi = Some q ->
  mode q = MODE_X86_64 ->
  in_syscall q = true ->
  events (trace (snd (syscall_handle env depth pi
                        (at_exit_of 2 (path :: flags :: rest) pi q w))))
  = events (trace w) ++ open_events env q path flags.
Proof.
  intros Hq Hm Hin. rewrite handle_events.
  set (qo := set_current_syscall 2 (set_params (path :: flags :: rest) q)).
  assert (Hqo : processes (at_exit_of 2 (path :: flags :: rest) pi q w) !! pi
                = Some qo)
    by (cbn [at_exit_of processes]; eapply lookup_store; eauto).
  destruct (dispatch_on_x86_64 env depth pi _ qo 2 Hqo Hm eq_refl Hin
              (or_introl eq_refl)) as (logged & Hl & ->).
  rewrite (bind_done _ _ _ _ _ (read_entry_open _)).
  cbn [Tbl.name Tbl.proc_exit Tbl.udata].
  match goal with |- context [when ?c (log ?l ?t ?m) ;; _] =>
    match goal with |- context [bind _ _ ?W] =>
      destruct (when_log_events c l t m W) as (w1 & E1 & P1 & T1)
    end end.
  rewrite (bind_done _ _ _ _ _ E1).
  assert (Hq1 : processes w1 !! pi = Some qo) by (rewrite P1; exact Hqo).
  destruct (fileopening_open_events env (Some "open") pi w1 qo path flags
              Hq1 eq_refl eq_refl) as (r & w2 & E2 & _ & T2).
  assert (Hcall : call env depth fn_fileopening (Some "open") pi
                       SYSCALL_OPENING_OPEN w1 = (r, w2))
    by (destruct depth; exact E2).
  rewrite Hcall. cbn [snd]. rewrite T2, T1. cbn [trace at_exit_of].
  rewrite events_app, Hl, app_nil_r. reflexivity.
Qed.

Lemma openat_on_x86_64 env depth pi w q dirfd path flags a3 a4 a5 :
  processes w !! pi = Some q ->
  mode q = MODE_X86_64 ->
  in_syscall q = true ->
  Reg.i dirfd = AT_FDCWD ->
  events (trace (snd (syscall_handle env (S depth) pi
                        (at_exit_of 257 [dirfd; path; flags; a3; a4; a5]
                                    pi q w))))
  = events (trace w) ++ open_events env q path flags.
Proof.
  intros Hq Hm Hin Hfd. rewrite handle_events.
  set (args := [dirfd; path; flags; a3; a4; a5]).
  set (qa := set_current_syscall 257 (set_params args q)).
  assert (Hqa : processes (at_exit_of 257 args pi q w) !! pi = Some qa)
    by (cbn [at_exit_of processes]; eapply lookup_store; eauto).
  destruct (dispatch_on_x86_64 env (S depth) pi _ qa 257 Hqa Hm eq_refl Hin
              (or_intror eq_refl)) as (logged & Hl & ->).
  rewrite (bind_done _ _ _ _ _ (read_entry_openat _)).
  cbn [Tbl.name Tbl.proc_exit Tbl.udata].
  match goal with |- context [when ?c (log ?l ?t ?m) ;; _] =>
    match goal with |- context [bind _ _ ?W] =>
      destruct (when_log_events c l t m W) as (w1 & E1 & P1 & T1)
    end end.
  rewrite (bind_done _ _ _ _ _ E1).
  assert (Hq1 : processes w1 !! pi = Some qa) by (rewrite P1; exact Hqa).
  cbn [call]. unfold syscall_xxx_at.
  rewrite (bind_done _ _ _ _ _ (load_ok _ _ _ Hq1)).
  change (param qa 0) with (@ret register_type dirfd). rewrite bind_ret.
  apply Z.eqb_eq in Hfd. rewrite Hfd.
  assert (Hty : syscall_type_of qa = SYSCALL_X86_64)
    by (unfold syscall_type_of; cbn [mode qa set_current_syscall set_params];
        rewrite Hm; reflexivity).
  rewrite Hty.
  change (syscall_tables !! SYSCALL_X86_64)
    with (Some (process_table list_x86_64)).
  cbn [in_bounds]. rewrite bind_ret.
  zeval (2 <? Z.of_nat (Tbl.length (process_table list_x86_64))).
  zeval (Tbl.entries (process_table list_x86_64) !! Z.to_nat 2).
  cbv iota beta.
  change (shift_args (params qa))
    with (Some [path; flags; a3; a4; a5; a5]).
  cbn [in_bounds]. rewrite bind_ret.
  rewrite (bind_done _ _ _ _ _ (store_ok _ _ _ _ Hq1)).
  set (q2 := set_params [path; flags; a3; a4; a5; a5] qa).
  set (w2 := {| processes := _; trace := trace w1 |}).
  assert (Hq2 : processes w2 !! pi = Some q2)
    by (subst w2; cbn [processes]; eapply lookup_store; eauto).
  destruct (fileopening_open_events env (Some "openat") pi w2 q2 path flags
              Hq2 eq_refl eq_refl) as (r & w3 & E3 & P3 & T3).
  assert (Hcall : call env depth fn_fileopening (Some "openat") pi 1 w2
                  = (r, w3))
    by (destruct depth; exact E3).
  unfold bind at 1. rewrite Hcall.
  assert (Hgoal : events (trace w3)
                  = events (trace w) ++ open_events env q path flags).
  { rewrite T3. subst w2. cbn [trace]. rewrite T1. cbn [trace at_exit_of].
    rewrite events_app, Hl, app_nil_r. reflexivity. }
  destruct r as [r |]; [| exact Hgoal].
  assert (Hq3 : processes w3 !! pi = Some q2) by (rewrite P3; exact Hq2).
  rewrite (bind_done _ _ _ _ _ (load_ok _ _ _ Hq3)).
  change (unshift_args (params q2))
    with (Some [path; path; flags; a3; a4; a5]).
  cbn [in_bounds]. rewrite bind_ret.
  rewrite (bind_done _ _ _ _ _ (store_ok _ _ _ _ Hq3)).
  exact Hgoal.
Qed.

(** C6. For every X86_64 task, path and flags: the exit of openat (257)
    with the AT_FDCWD sentinel as directory-fd and the exit of open (2) with
    the same path and flags emit the same add_file_open event: the events of
    both dispatches are the ones of [open_events]. *)
Theorem openat_cwd_same_as_open env depth pi w q dirfd path flags a3 a4 a5
    rest :
  processes w !! pi = Some q ->
  mode q = MODE_X86_64 ->
  in_syscall q = true ->
  Reg.i dirfd = AT_FDCWD ->
  events (trace (snd (syscall_handle env (S depth) pi
                        (at_exit_of 257 [dirfd; path; flags; a3; a4; a5]
                                    pi q w))))
  = events (trace (snd (syscall_handle env (S depth) pi
                          (at_exit_of 2 (path :: flags :: rest) pi q w))))
  /\ events (trace (snd (syscall_handle env (S depth) pi
                           (at_exit_of 2 (path :: flags :: rest) pi q w))))
     = events (trace w) ++ open_events env q path flags.
Proof.
  intros Hq Hm Hin Hfd.
  rewrite (openat_on_x86_64 env depth pi w q dirfd path flags a3 a4 a5
             Hq Hm Hin Hfd).
  rewrite (open_on_x86_64 env (S depth) pi w q path flags rest Hq Hm Hin).
  auto.
Qed.

Lemma openat_cwd_same_as_open_witness :
  let q := task100 0 3 [] in
  let run w := events (trace (snd (syscall_handle (demo_env 0 0) 1 0 w))) in
  run (at_exit_of 257 [reg AT_FDCWD; reg 4; reg 0; reg 0; reg 0; reg 0]
                  0 q (world_of [q]))
  = run (at_exit_of 2 [reg 4; reg 0] 0 q (world_of [q]))
  /\ run (at_exit_of 2 [reg 4; reg 0] 0 q (world_of [q]))
     = [Db_add_file_open 7 "/home/u/data.txt" FILE_READ false].
Proof.
  intros q run.
  exact (openat_cwd_same_as_open (demo_env 0 0) 0 0%nat (world_of [q]) q
           (reg AT_FDCWD) (reg 4) (reg 0) (reg 0) (reg 0) (reg 0) []
           eq_refl eq_refl eq_refl eq_refl).
Defined.

(** ** What a run leaves in the trace *)

Section Quiet.

Lemma quiet_ret {A} (a : A) : quiet (ret a).
Proof. intros w. reflexivity. Qed.

Lemma quiet_crash {A} fl : quiet (@crash A fl).
Proof. intros w. reflexivity. Qed.

Lemma quiet_bind {A B} (m : M A) (k : A -> M B) :
  quiet m -> (forall a, quiet (k a)) -> quiet (bind m k).
Proof.
  intros Hm Hk w. specialize (Hm w). unfold bind.
  destruct (m w) as [[a | fl] w1]; cbn [snd] in *; [| exact Hm].
  rewrite Hk. exact Hm.
Qed.

Lemma quiet_load j : quiet (load j).
Proof. intros w. unfold load. destruct (processes w !! j); reflexivity. Qed.

Lemma quiet_store j g : quiet (store j g).
Proof. intros w. unfold store. destruct (processes w !! j); reflexivity. Qed.

Lemma quiet_get_processes : quiet get_processes.
Proof. intros w. reflexivity. Qed.

Lemma quiet_get_empty : quiet trace_get_empty_process.
Proof.
  intros w. unfold trace_get_empty_process.
  destruct (find_index _ _); reflexivity.
Qed.

Lemma quiet_log lvl task msg : quiet (log lvl task msg).
Proof.
  intros w. unfold log, emit. cbn [snd trace]. rewrite events_app. cbn.
  apply app_nil_r.
Qed.

Lemma quiet_ptrace task : quiet (emit (Ptrace_syscall task)).
Proof.
  intros w. unfold emit. cbn [snd trace]. rewrite events_app. cbn.
  apply app_nil_r.
Qed.

End Quiet.

Ltac quiet_tac :=
  repeat first
    [ assumption
    | apply quiet_ret | apply quiet_crash | apply quiet_load
    | apply quiet_store | apply quiet_get_processes | apply quiet_get_empty
    | apply quiet_log | apply quiet_ptrace
    | apply quiet_bind; [| intros ?]
    | match goal with
      | |- quiet (if ?c then _ else _) => destruct c
      | |- quiet (match ?x with _ => _ end) => destruct x
      end ].

Ltac unfold_small :=
  unfold abs_path_arg, when, live, nonnull, in_bounds, param.

Lemma quiet_log_each task args : quiet (log_each task args).
Proof. induction args; cbn [log_each]; quiet_tac. Qed.

(** The entry handler of execve reads the tracee and fills the scratch. *)
Lemma quiet_execve_in env name pi udata :
  quiet (syscall_execve_in env name pi udata).
Proof.
  unfold syscall_execve_in. unfold_small. quiet_tac. apply quiet_log_each.
Qed.

Lemma quiet_transition_loop env task group nr target ps entry :
  quiet (transition_loop env task group nr target ps entry).
Proof.
  revert entry. induction ps as [| x ps IH]; intros entry;
    cbn [transition_loop]; unfold_small; quiet_tac; apply IH.
Qed.

Lemma quiet_read_entry ptr : quiet (read_entry ptr).
Proof. destruct ptr. unfold read_entry. unfold_small. quiet_tac. Qed.

Lemma rows_entry_is_execve :
  forallb (fun tbl => forallb entry_is_execve (Tbl.entries tbl))
          syscall_tables = true.
Proof. vm_compute. reflexivity. Qed.

Lemma row_entry_handler tbl e h :
  In tbl syscall_tables -> In e (Tbl.entries tbl) ->
  Tbl.proc_entry e = Some h -> h = fn_execve_in.
Proof.
  intros Ht He Hh. pose proof rows_entry_is_execve as Hall.
  rewrite forallb_forall in Hall. specialize (Hall tbl Ht).
  rewrite forallb_forall in Hall. specialize (Hall e He).
  unfold entry_is_execve in Hall. rewrite Hh in Hall.
  destruct h; congruence.
Qed.

Lemma quiet_bind_read_entry {B} ptr (k : Tbl.syscall_table_entry -> M B) :
  (forall tbl e, In tbl syscall_tables -> In e (Tbl.entries tbl) ->
                 quiet (k e)) ->
  quiet (bind (read_entry ptr) k).
Proof.
  intros Hk w. pose proof (quiet_read_entry ptr w) as Hr. unfold bind.
  destruct (read_entry ptr w) as [[e | fl] w1] eqn:Er; cbn [snd] in *;
    [| exact Hr].
  destruct (read_entry_in _ _ _ _ Er) as (tbl & Ht & He).
  rewrite (Hk tbl e Ht He). exact Hr.
Qed.

(** X1. On the entry edge of a syscall (the task's [in_syscall] is false)
    whose number is below the length of the task's table, syscall_handle
    calls neither the database nor the /proc scraper, whatever the
    outcome: the only entry handler of the tables is the one of execve,
    which only fills the scratch. *)
Theorem entry_edge_emits_no_event env depth pi w q tbl :
  processes w !! pi = Some q ->
  in_syscall q = false ->
  syscall_tables !! syscall_type_of q = Some tbl ->
  Z.land (current_syscall q) (Z.lnot __X32_SYSCALL_BIT)
  < Z.of_nat (Tbl.length tbl) ->
  events (trace (snd (syscall_handle env depth pi w))) = events (trace w).
Proof.
  intros Hq Hin _ _. rewrite handle_events. unfold syscall_dispatch.
  unfold bind at 1, load at 1. rewrite Hq.
  rewrite Hin. rewrite !andb_false_r. cbv beta iota.
  match goal with |- events (trace (snd (?m w))) = _ =>
    enough (Hm : quiet m) by apply Hm
  end.
  unfold_small.
  repeat first
    [ apply quiet_bind_read_entry; intros tbl' row Ht He
    | apply quiet_log | apply quiet_ret | apply quiet_crash
    | apply quiet_bind; [| intros ?]
    | match goal with
      | |- quiet (if ?c then _ else _) => destruct c
      | |- quiet (match Tbl.name _ with _ => _ end) =>
          destruct (Tbl.name row)
      | |- quiet (match syscall_tables !! _ with _ => _ end) =>
          destruct (syscall_tables !! syscall_type_of q)
      | |- quiet (match ?x with Some _ => _ | None => _ end) =>
          is_var x; destruct x
      end ].
  all: destruct (Tbl.proc_entry row) as [h |] eqn:Hh; try apply quiet_ret.
  all: rewrite (row_entry_handler _ _ _ Ht He Hh); destruct depth;
    apply quiet_execve_in.
Qed.

Lemma entry_edge_emits_no_event_witness :
  let q := set_in_syscall false
             (task100 59 0 [reg 2; reg 9; reg 0; reg 0; reg 0; reg 0]) in
  let tbl := process_table list_x86_64 in
  in_syscall q = false
  /\ syscall_tables !! syscall_type_of q = Some tbl
  /\ Z.land (current_syscall q) (Z.lnot __X32_SYSCALL_BIT)
     < Z.of_nat (Tbl.length tbl)
  /\ events (trace (snd (syscall_handle (demo_env 3 0) 1 0 (world_of [q]))))
     = [].
Proof.
  intros q tbl.
  assert (Hlt : Z.land (current_syscall q) (Z.lnot __X32_SYSCALL_BIT)
                < Z.of_nat (Tbl.length tbl)) by reflexivity.
  split; [reflexivity |]. split; [reflexivity |]. split; [exact Hlt |].
  exact (entry_edge_emits_no_event (demo_env 3 0) 1 0%nat (world_of [q]) q
           tbl eq_refl eq_refl eq_refl Hlt).
Defined.

Lemma lor_lt_pow2 a b n :
  0 <= n -> 0 <= a < 2 ^ n -> 0 <= b < 2 ^ n -> Z.lor a b < 2 ^ n.
Proof.
  intros Hn Ha Hb.
  assert (H0 : 0 <= Z.lor a b) by (apply Z.lor_nonneg; lia).
  destruct (Z.eq_dec (Z.lor a b) 0) as [E | E]; [rewrite E; lia |].
  apply Z.log2_lt_pow2; [lia |].
  rewrite Z.log2_lor by lia.
  destruct (Z.eq_dec a 0) as [-> | Ea], (Z.eq_dec b 0) as [-> | Eb].
  - now rewrite Z.lor_0_l in E.
  - rewrite Z.max_r by (cbn; apply Z.log2_nonneg).
    apply Z.log2_lt_pow2; lia.
  - rewrite Z.max_l by (cbn; apply Z.log2_nonneg).
    apply Z.log2_lt_pow2; lia.
  - apply Z.max_lub_lt; apply Z.log2_lt_pow2; lia.
Qed.

(** A negative [int] stays a negative [int] when the x32 bit is cleared. *)
Lemma strip_x32_negative cs :
  - 2 ^ 31 <= cs < 0 ->
  - 2 ^ 31 <= Z.land cs (Z.lnot __X32_SYSCALL_BIT) < 0.
Proof.
  intros H.
  assert (E : Z.land cs (Z.lnot __X32_SYSCALL_BIT)
              = Z.lnot (Z.lor (Z.lnot cs) __X32_SYSCALL_BIT)).
  { apply Z.bits_inj'. intros k Hk.
    rewrite Z.land_spec, !Z.lnot_spec, Z.lor_spec, Z.lnot_spec by lia.
    now rewrite negb_orb, negb_involutive. }
  rewrite E.
  assert (Hl : 0 <= Z.lor (Z.lnot cs) __X32_SYSCALL_BIT < 2 ^ 31).
  { split.
    - apply Z.lor_nonneg. unfold Z.lnot, __X32_SYSCALL_BIT. lia.
    - apply lor_lt_pow2; unfold Z.lnot, __X32_SYSCALL_BIT; lia. }
  set (x := Z.lor (Z.lnot cs) __X32_SYSCALL_BIT) in *.
  unfold Z.lnot, Z.pred. lia.
Qed.

Lemma tables_are_short :
  forallb table_is_short syscall_tables = true.
Proof. vm_compute. reflexivity. Qed.

(** X2. A task whose syscall number is negative (as an [int]) is logged as
    INVALID SYSCALL and no table entry is read nor any handler called: the
    task is only flipped and resumed, and syscall_handle answers 0. *)
Theorem negative_syscall_is_skipped env depth pi w q :
  processes w !! pi = Some q ->
  - 2 ^ 31 <= current_syscall q < 0 ->
  let syscall := Z.land (current_syscall q) (Z.lnot __X32_SYSCALL_BIT) in
  syscall_handle env depth pi w
  = (Done 0,
     {| processes := <[pi := flipped q]> (processes w);
        trace :=
          trace w
          ++ (if 4 <=? verbosity env
              then [Log DEBUG (tid q) (Msg_syscall syscall (syscall_type_of q))]
              else [])
          ++ [Log ERROR (tid q) (Msg_invalid_syscall syscall);
              Ptrace_syscall (tid q)] |}).
Proof.
  intros Hq Hcs syscall.
  pose proof (strip_x32_negative _ Hcs) as Hs. fold syscall in Hs.
  assert (Htbl : exists tbl, syscall_tables !! syscall_type_of q = Some tbl).
  { unfold syscall_type_of. destruct (mode q); [eexists; reflexivity |].
    destruct (negb _); eexists; reflexivity. }
  destruct Htbl as (tbl & Htbl).
  assert (Hshort : Z.of_nat (Tbl.length tbl) < 2 ^ 31).
  { pose proof tables_are_short as Hall. rewrite forallb_forall in Hall.
    apply Z.ltb_lt. apply Hall. apply list_elem_of_In.
    eapply list_elem_of_lookup_2; eauto. }
  assert (H59 : (syscall =? 59) = false) by (apply Z.eqb_neq; lia).
  assert (H11 : (syscall =? 11) = false) by (apply Z.eqb_neq; lia).
  assert (Hneg : (syscall <? 0) = true) by (apply Z.ltb_lt; lia).
  assert (Hpos : (0 <=? syscall) = false) by (apply Z.leb_gt; lia).
  assert (Hsz : (to_size_t syscall <? Z.of_nat (Tbl.length tbl)) = false).
  { apply Z.ltb_ge. unfold to_size_t, wrap.
    rewrite <- (Z.mod_add syscall 1 (2 ^ 64)) by lia.
    rewrite Z.mod_small; lia. }
  unfold syscall_handle, syscall_dispatch. munfold. repeat mlookup.
  fold syscall. rewrite Htbl. msimpl.
  rewrite H59, H11, Hneg, Hpos, Hsz. cbn [andb orb].
  unfold flipped.
  destruct (4 <=? verbosity env); msimpl; cbn [negb Z.eqb]; msimpl;
    repeat mlookup;
    destruct (in_syscall q); msimpl; repeat mlookup;
    rewrite ?list_insert_insert_eq, <- ?app_assoc; reflexivity.
Qed.

Lemma negative_syscall_is_skipped_witness :
  let q := task100 (-1) 0 [] in
  - 2 ^ 31 <= current_syscall q < 0
  /\ syscall_handle (demo_env 0 0) 1 0 (world_of [q])
     = (Done 0,
        {| processes := [flipped q];
           trace := [Log ERROR 100 (Msg_invalid_syscall (-1073741825));
                     Ptrace_syscall 100] |}).
Proof.
  intros q.
  assert (H : - 2 ^ 31 <= current_syscall q < 0) by (cbn; lia).
  split; [exact H |].
  exact (negative_syscall_is_skipped (demo_env 0 0) 1 0%nat (world_of [q]) q
           eq_refl H).
Defined.

(** ** Building a table *)

Lemma until_sentinel_app rows s rest :
  Forall (fun pos => has_handler pos = true) rows ->
  has_handler s = false ->
  until_sentinel (rows ++ s :: rest) = rows.
Proof.
  intros Hrows Hs. induction Hrows as [| pos rows Hpos _ IH]; cbn.
  - now rewrite Hs.
  - now rewrite Hpos, IH.
Qed.

Lemma next_row_fits pos : row_fits pos -> next_row pos = S (Raw.n pos).
Proof.
  unfold row_fits, next_row, wrap. intros H.
  rewrite Z.mod_small by lia. lia.
Qed.

Lemma longer_fold_ge rows len :
  (len <= List.fold_left longer rows len)%nat.
Proof.
  revert len. induction rows as [| pos rows IH]; intros len; cbn; [lia |].
  etransitivity; [| apply IH]. unfold longer.
  destruct (Nat.ltb_spec len (next_row pos)); lia.
Qed.

Lemma longer_fold_covers rows len pos :
  Forall row_fits rows ->
  In pos rows -> (Raw.n pos < List.fold_left longer rows len)%nat.
Proof.
  intros Hfit. revert len.
  induction Hfit as [| r rows Hr _ IH]; intros len; cbn; [easy |].
  intros [-> | Hin]; [| now apply IH].
  pose proof (longer_fold_ge rows (longer len pos)) as H.
  assert (Raw.n pos < longer len pos)%nat; [| lia].
  unfold longer. rewrite (next_row_fits pos Hr).
  destruct (Nat.ltb_spec len (S (Raw.n pos))); lia.
Qed.

Lemma longer_fold_tight rows len :
  Forall row_fits rows ->
  List.fold_left longer rows len = len
  \/ exists pos, In pos rows
                 /\ List.fold_left longer rows len = S (Raw.n pos).
Proof.
  intros Hfit. revert len.
  induction Hfit as [| r rows Hr _ IH]; intros len; cbn; [auto |].
  destruct (IH (longer len r)) as [E | (pos & Hin & E)].
  - rewrite E. unfold longer. rewrite (next_row_fits r Hr).
    destruct (Nat.ltb_spec len (S (Raw.n r))); [right; eauto | auto].
  - right. eauto.
Qed.

Lemma copy_fold_length rows es :
  List.length (List.fold_left copy_row rows es) = List.length es.
Proof.
  revert es. induction rows as [| r rows IH]; intros es; cbn; [reflexivity |].
  rewrite IH. apply length_insert.
Qed.

Lemma find_app {A} (f : A -> bool) l1 l2 :
  List.find f (l1 ++ l2)
  = match List.find f l1 with Some x => Some x | None => List.find f l2 end.
Proof.
  induction l1 as [| a l1 IH]; cbn; [reflexivity |].
  destruct (f a); [reflexivity | exact IH].
Qed.

Lemma copy_fold_lookup rows es k :
  Forall (fun pos => (Raw.n pos < List.length es)%nat) rows ->
  List.fold_left copy_row rows es !! k
  = match List.find (fun pos => Nat.eqb (Raw.n pos) k) (rev rows) with
    | Some pos => Some (entry_of pos)
    | None => es !! k
    end.
Proof.
  revert es. induction rows as [| r rows IH]; intros es Hall;
    cbn [List.fold_left rev]; [reflexivity |].
  inversion Hall as [| ? ? Hr Hrows]; subst.
  rewrite IH by (unfold copy_row; rewrite length_insert; exact Hrows).
  rewrite find_app. destruct (List.find _ (rev rows)); [reflexivity |].
  cbn [List.find]. unfold copy_row.
  destruct (Nat.eqb_spec (Raw.n r) k) as [<- | Hne].
  - now apply list_lookup_insert_eq.
  - now apply list_lookup_insert_ne.
Qed.

Lemma process_table_unfold orig :
  process_table orig
  = {| Tbl.length := List.fold_left longer (until_sentinel orig) O;
       Tbl.entries :=
         List.fold_left copy_row (until_sentinel orig)
           (replicate (List.fold_left longer (until_sentinel orig) O)
                      null_entry) |}.
Proof. reflexivity. Qed.

(** X3. process_table on rows numbered below UINT_MAX, followed by a
    sentinel (a row without handlers) and anything after it: the array it
    allocates has exactly [length] entries, every row is copied inside the
    array, and the length is 0 for no rows and one more than the number of
    some row otherwise. *)
Theorem process_table_bounds rows s rest :
  Forall (fun pos => has_handler pos = true) rows ->
  Forall row_fits rows ->
  has_handler s = false ->
  let tbl := process_table (rows ++ s :: rest) in
  List.length (Tbl.entries tbl) = Tbl.length tbl
  /\ Forall (fun pos => (Raw.n pos < Tbl.length tbl)%nat) rows
  /\ (rows = [] -> Tbl.length tbl = O)
  /\ (rows <> [] ->
      exists pos, In pos rows /\ Tbl.length tbl = S (Raw.n pos)).
Proof.
  intros Hrows Hfit Hs tbl. subst tbl. rewrite process_table_unfold.
  rewrite (until_sentinel_app rows s rest Hrows Hs).
  cbn [Tbl.length Tbl.entries].
  split; [| split; [| split]].
  - rewrite copy_fold_length. apply length_replicate.
  - apply Forall_forall. intros pos Hin. apply longer_fold_covers;
      [assumption | now apply list_elem_of_In].
  - intros ->. reflexivity.
  - intros Hne.
    destruct (longer_fold_tight rows O Hfit) as [E | H]; [| exact H].
    destruct rows as [| r rows']; [congruence |].
    pose proof (longer_fold_covers (r :: rows') O r Hfit (or_introl eq_refl)).
    lia.
Qed.

Lemma process_table_bounds_witness :
  let rows := [exit_only 5 "open" fn_fileopening SYSCALL_OPENING_OPEN;
               exit_only 2 "stat" fn_filestat 0] in
  let rest := [exit_only 9 "mkdir" fn_mkdir 0] in
  Forall (fun pos => has_handler pos = true) rows
  /\ Forall row_fits rows
  /\ has_handler sentinel = false
  /\ (let tbl := process_table (rows ++ sentinel :: rest) in
      List.length (Tbl.entries tbl) = Tbl.length tbl
      /\ Forall (fun pos => (Raw.n pos < Tbl.length tbl)%nat) rows
      /\ (rows = [] -> Tbl.length tbl = O)
      /\ (rows <> [] ->
          exists pos, In pos rows /\ Tbl.length tbl = S (Raw.n pos))).
Proof.
  intros rows rest.
  assert (H : Forall (fun pos => has_handler pos = true) rows)
    by (repeat constructor).
  assert (Hfit : Forall row_fits rows) by (repeat constructor).
  split; [exact H |]. split; [exact Hfit |]. split; [reflexivity |].
  exact (process_table_bounds rows sentinel rest H Hfit eq_refl).
Defined.

(** X4. What process_table, on rows numbered below UINT_MAX, leaves at an
    index of the array: the copy of the last row that names the index, and
    an entry whose name and handlers are null when no row names it (its
    [udata] is never written). *)
Theorem process_table_lookup rows s rest k :
  Forall (fun pos => has_handler pos = true) rows ->
  Forall row_fits rows ->
  has_handler s = false ->
  let tbl := process_table (rows ++ s :: rest) in
  (k < Tbl.length tbl)%nat ->
  exists e,
    Tbl.entries tbl !! k = Some e
    /\ match List.find (fun pos => Nat.eqb (Raw.n pos) k) (rev rows) with
       | Some pos => e = entry_of pos
       | None =>
           Tbl.name e = None /\ Tbl.proc_entry e = None
           /\ Tbl.proc_exit e = None
       end.
Proof.
  intros Hrows Hfit Hs tbl Hk. subst tbl. rewrite process_table_unfold in *.
  rewrite (until_sentinel_app rows s rest Hrows Hs) in *.
  cbn [Tbl.length Tbl.entries] in *.
  rewrite copy_fold_lookup.
  - destruct (List.find _ (rev rows)) as [pos |]; [eauto |].
    exists null_entry. split; [now apply lookup_replicate_2 | auto].
  - rewrite length_replicate. apply Forall_forall. intros pos Hin.
    apply longer_fold_covers; [assumption | now apply list_elem_of_In].
Qed.

Lemma process_table_lookup_witness :
  let rows := [exit_only 5 "open" fn_fileopening SYSCALL_OPENING_OPEN;
               exit_only 2 "stat" fn_filestat 0;
               exit_only 5 "creat" fn_fileopening SYSCALL_OPENING_CREAT] in
  let rest := [exit_only 3 "mkdir" fn_mkdir 0] in
  let tbl := process_table (rows ++ sentinel :: rest) in
  Forall (fun pos => has_handler pos = true) rows
  /\ Forall row_fits rows
  /\ has_handler sentinel = false
  /\ (5 < Tbl.length tbl)%nat
  /\ (exists e,
        Tbl.entries tbl !! 5%nat = Some e
        /\ e = Tbl.mk_entry (Some "creat") None (Some fn_fileopening)
                            SYSCALL_OPENING_CREAT)
  /\ (exists e,
        Tbl.entries tbl !! 3%nat = Some e
        /\ Tbl.name e = None /\ Tbl.proc_entry e = None
        /\ Tbl.proc_exit e = None).
Proof.
  intros rows rest tbl.
  assert (H : Forall (fun pos => has_handler pos = true) rows)
    by (repeat constructor).
  assert (Hfit : Forall row_fits rows) by (repeat constructor).
  assert (H5 : (5 < Tbl.length tbl)%nat) by (vm_compute; lia).
  assert (H3 : (3 < Tbl.length tbl)%nat) by (vm_compute; lia).
  split; [exact H |]. split; [exact Hfit |]. split; [reflexivity |].
  split; [exact H5 |]. split.
  - exact (process_table_lookup rows sentinel rest 5 H Hfit eq_refl H5).
  - exact (process_table_lookup rows sentinel rest 3 H Hfit eq_refl H3).
Defined.

(** ** The execve workaround *)

Lemma table_of_type q :
  exists tbl, syscall_tables !! syscall_type_of q = Some tbl.
Proof.
  unfold syscall_type_of. destruct (mode q); [eexists; reflexivity |].
  destruct (negb _); eexists; reflexivity.
Qed.

Lemma transition_loop_spec env task group nr target ps entry w :
  transition_loop env task group nr target ps entry w
  = (Done (if existsb (is_execve_caller group nr) ps
           then Some target else entry),
     {| processes := processes w;
        trace := trace w ++ transition_logs env task group nr target ps |}).
Proof.
  unfold transition_logs.
  revert entry w. induction ps as [| x ps IH]; intros entry w.
  - cbn [transition_loop existsb List.filter List.map]. unfold ret.
    destruct w, (3 <=? verbosity env); cbn; now rewrite app_nil_r.
  - cbn [transition_loop existsb List.filter].
    destruct (is_execve_caller group nr x); cbn [orb].
    + munfold. destruct (3 <=? verbosity env); msimpl.
      * rewrite IH. msimpl.
        destruct (existsb _ ps); cbn [List.map]; now rewrite <- app_assoc.
      * rewrite IH. msimpl. now destruct (existsb _ ps).
    + apply IH.
Qed.

(** X5. The exit edge of syscall 59 or 11 (the execve numbers) when no task
    of the registry is an execve caller of the group: no table entry is
    taken and no handler is called; the task is flipped and resumed. *)
Theorem execve_number_without_caller env depth pi w q nr :
  processes w !! pi = Some q ->
  in_syscall q = true ->
  nr = 59 \/ nr = 11 ->
  Z.land (current_syscall q) (Z.lnot __X32_SYSCALL_BIT) = nr ->
  existsb (is_execve_caller (tgid q) nr) (processes w) = false ->
  syscall_handle env depth pi w
  = (Done 0,
     {| processes :=
          <[pi := set_syscall_info None
                    (set_current_syscall (-1) (set_in_syscall false q))]>
            (processes w);
        trace :=
          trace w
          ++ (if 4 <=? verbosity env
              then [Log DEBUG (tid q) (Msg_syscall nr (syscall_type_of q))]
              else [])
          ++ [Ptrace_syscall (tid q)] |}).
Proof.
  intros Hq Hin Hnr Hs Hnone.
  destruct (table_of_type q) as (tbl & Htbl).
  assert (Hfilter : List.filter (is_execve_caller (tgid q) nr) (processes w)
                    = []).
  { clear Hq. induction (processes w) as [| x ps IH]; [reflexivity |].
    cbn [existsb List.filter] in Hnone |- *.
    destruct (is_execve_caller (tgid q) nr x);
      [discriminate | now apply IH]. }
  unfold transition_logs in *.
  unfold syscall_handle, syscall_dispatch. munfold. repeat mlookup.
  rewrite Hs, Hin, Htbl. msimpl.
  destruct Hnr as [-> | ->]; cbn [Z.ltb Z.leb Z.eqb Z.compare Pos.compare Pos.compare_cont Pos.eqb andb orb];
    destruct (4 <=? verbosity env); msimpl;
    rewrite transition_loop_spec; msimpl; rewrite Hnone; msimpl;
    cbn [negb Z.eqb]; msimpl; repeat mlookup; rewrite Hin; msimpl;
    repeat mlookup; unfold transition_logs; rewrite Hfilter;
    destruct (3 <=? verbosity env); cbn [List.map];
    rewrite ?list_insert_insert_eq, ?app_nil_r, <- ?app_assoc; reflexivity.
Qed.

Lemma execve_number_without_caller_witness :
  let q := task100 59 0 [] in
  in_syscall q = true
  /\ Z.land (current_syscall q) (Z.lnot __X32_SYSCALL_BIT) = 59
  /\ existsb (is_execve_caller (tgid q) 59) [q] = false
  /\ syscall_handle (demo_env 0 0) 1 0 (world_of [q])
     = (Done 0,
        {| processes :=
             [set_syscall_info None
                (set_current_syscall (-1) (set_in_syscall false q))];
           trace := [Ptrace_syscall 100] |}).
Proof.
  intros q. split; [reflexivity |]. split; [reflexivity |].
  split; [reflexivity |].
  exact (execve_number_without_caller (demo_env 0 0) 1 0%nat (world_of [q]) q
           59 eq_refl eq_refl (or_introl eq_refl) eq_refl eq_refl).
Defined.

Lemma transition_logs_events env task group nr target ps :
  events (transition_logs env task group nr target ps) = [].
Proof.
  unfold transition_logs. destruct (3 <=? verbosity env); [| reflexivity].
  induction (List.filter _ ps); [reflexivity | assumption].
Qed.

Lemma read_entry_execve_64 w :
  read_entry (SYSCALL_X86_64, 59) w
  = (Done (Tbl.mk_entry (Some "execve") (Some fn_execve_in)
                        (Some fn_execve_out) 59), w).
Proof. reflexivity. Qed.

Lemma read_entry_execve_32 w :
  read_entry (SYSCALL_I386, 11) w
  = (Done (Tbl.mk_entry (Some "execve") (Some fn_execve_in)
                        (Some fn_execve_out) 11), w).
Proof. reflexivity. Qed.

Lemma call_execve_out env depth name pi udata :
  call env depth fn_execve_out name pi udata
  = syscall_execve_out env name pi udata.
Proof. now destruct depth. Qed.

(** The run of syscall_handle on the exit edge of execve, on the task that
    entered it. *)
Lemma execve_exit_run env depth pi w q x cwd nr :
  processes w !! pi = Some q ->
  status q = PROCESS_ATTACHED ->
  in_syscall q = true ->
  nr = 59 \/ nr = 11 ->
  current_syscall q = nr ->
  syscall_info q = Some x ->
  wd q = Some cwd ->
  (forall t ev, call_status env t ev = 0) ->
  syscall_handle env depth pi w
  = (Done 0,
     {| processes :=
          <[pi := set_syscall_info None
                    (set_current_syscall (-1) (set_in_syscall false q))]>
            (processes w);
        trace :=
          trace w
          ++ (if 4 <=? verbosity env
              then [Log DEBUG (tid q) (Msg_syscall nr (syscall_type_of q))]
              else [])
          ++ transition_logs env (tid q) (tgid q) nr
               (if nr =? 59 then SYSCALL_X86_64 else SYSCALL_I386, nr)
               (processes w)
          ++ (if 3 <=? verbosity env
              then [Log DEBUG (tid q) (Msg_entry_name "execve")] else [])
          ++ (if 0 <=? Reg.i (retvalue q)
              then [Db_add_exec (identifier q) (binary x) (argv x) (envp x)
                                cwd]
                   ++ (if 2 <=? verbosity env
                       then [Log INFO (tid q) (Msg_execd (binary x))] else [])
                   ++ [Trace_add_files_from_proc (identifier q) (tid q)
                                                 (binary x)]
              else [])
          ++ [Ptrace_syscall (tid q)] |}).
Proof.
  intros Hq Hst Hin Hnr Hcs Hinfo Hwd Hsink.
  destruct (table_of_type q) as (tbl & Htbl).
  assert (Hself : existsb (is_execve_caller (tgid q) nr) (processes w) = true).
  { apply existsb_exists. exists q. split.
    - apply list_elem_of_In. now apply list_elem_of_lookup_2 with pi.
    - unfold is_execve_caller. rewrite Hst, Hin, Hcs, Hinfo, !Z.eqb_refl.
      reflexivity. }
  unfold syscall_handle, syscall_dispatch. munfold. repeat mlookup.
  assert (Hs : Z.land nr (Z.lnot __X32_SYSCALL_BIT) = nr)
    by (destruct Hnr as [-> | ->]; reflexivity).
  rewrite Hcs, Hs, Hin, Htbl. msimpl.
  destruct Hnr as [-> | ->];
    cbn [Z.ltb Z.leb Z.eqb Z.compare Pos.compare Pos.compare_cont Pos.eqb
         andb orb].
  all: destruct (4 <=? verbosity env); msimpl.
  all: rewrite transition_loop_spec; msimpl; rewrite Hself; msimpl.
  all: rewrite ?read_entry_execve_64, ?read_entry_execve_32; msimpl.
  all: cbn [Tbl.name Tbl.proc_entry Tbl.proc_exit Tbl.udata].
  all: generalize (transition_logs env (tid q) (tgid q) 59
                     (SYSCALL_X86_64, 59) (processes w)),
         (transition_logs env (tid q) (tgid q) 11
                     (SYSCALL_I386, 11) (processes w)); intros lg59 lg11.
  all: destruct (3 <=? verbosity env); msimpl.
  all: rewrite call_execve_out.
  all: unfold syscall_execve_out, execve_out_finish; munfold.
  all: repeat mlookup;
    rewrite ?Hinfo, ?Hwd; msimpl; repeat mlookup; rewrite ?Hinfo, ?Hwd; msimpl.
  all: destruct (0 <=? Reg.i (retvalue q)); msimpl; rewrite ?Hsink;
    cbn [negb Z.eqb]; msimpl.
  all: destruct (2 <=? verbosity env); msimpl; repeat mlookup; rewrite ?Hsink;
    cbn [negb Z.eqb]; msimpl; repeat mlookup.
  all: cbn [negb Z.eqb]; msimpl; repeat mlookup;
    cbn [in_syscall set_syscall_info]; rewrite ?Hin; msimpl; repeat mlookup.
  all: rewrite ?list_insert_insert_eq.
  all: cbn [app]; rewrite ?app_nil_r, <- ?app_assoc; cbn [app]; reflexivity.
Qed.

(** X6. The exit edge of execve on the task that entered it (its scratch is
    still attached) with the number it entered under, 59 or 11, whatever
    mode the task is in by now: syscall_handle runs the execve exit handler,
    which on success reports the exec and the files of the new image, and
    the task is flipped with its scratch released. *)
Theorem execve_exit_after_mode_change env depth pi w q x cwd nr :
  processes w !! pi = Some q ->
  status q = PROCESS_ATTACHED ->
  in_syscall q = true ->
  nr = 59 \/ nr = 11 ->
  current_syscall q = nr ->
  syscall_info q = Some x ->
  wd q = Some cwd ->
  (forall t ev, call_status env t ev = 0) ->
  let out := syscall_handle env depth pi w in
  fst out = Done 0
  /\ processes (snd out)
     = <[pi := set_syscall_info None
                 (set_current_syscall (-1) (set_in_syscall false q))]>
         (processes w)
  /\ events (trace (snd out))
     = events (trace w)
       ++ (if 0 <=? Reg.i (retvalue q)
           then [Db_add_exec (identifier q) (binary x) (argv x) (envp x) cwd;
                 Trace_add_files_from_proc (identifier q) (tid q) (binary x)]
           else []).
Proof.
  intros Hq Hst Hin Hnr Hcs Hinfo Hwd Hsink out. subst out.
  rewrite (execve_exit_run env depth pi w q x cwd nr) by assumption.
  cbn [fst snd processes trace].
  split; [reflexivity |]. split; [reflexivity |].
  rewrite !events_app, transition_logs_events.
  destruct (4 <=? verbosity env), (3 <=? verbosity env),
    (0 <=? Reg.i (retvalue q)), (2 <=? verbosity env);
    cbn; rewrite ?app_nil_r; reflexivity.
Qed.

Lemma execve_exit_after_mode_change_witness :
  let q := {| identifier := 8; mode := MODE_I386; tid := 101; tgid := 100;
              status := PROCESS_ATTACHED; in_syscall := true;
              current_syscall := 59; retvalue := reg 0; params := [];
              syscall_info :=
                Some {| binary := "/bin/ls"; argv := ["ls"]; envp := [] |};
              wd := Some "/home/u" |} in
  let out := syscall_handle (demo_env 0 0) 1 0 (world_of [q]) in
  (forall t ev, call_status (demo_env 0 0) t ev = 0)
  /\ fst out = Done 0
  /\ processes (snd out)
     = [set_syscall_info None
          (set_current_syscall (-1) (set_in_syscall false q))]
  /\ events (trace (snd out))
     = [Db_add_exec 8 "/bin/ls" ["ls"] [] "/home/u";
        Trace_add_files_from_proc 8 101 "/bin/ls"].
Proof.
  intros q out.
  assert (H : forall t ev, call_status (demo_env 0 0) t ev = 0)
    by reflexivity.
  split; [exact H |].
  exact (execve_exit_after_mode_change (demo_env 0 0) 1 0%nat (world_of [q]) q
           _ _ 59 eq_refl eq_refl eq_refl (or_introl eq_refl) eq_refl eq_refl
           eq_refl H).
Defined.

(** ** Failed syscalls *)

Section Calm.

Variables (P : Process -> Prop) (pi : nat).

Lemma calm_ret {A} (a : A) : calm P pi (ret a).
Proof. intros w H. split; [reflexivity | exact H]. Qed.

Lemma calm_crash {A} fl : calm P pi (@crash A fl).
Proof. intros w H. split; [reflexivity | exact H]. Qed.

Lemma calm_bind {A B} (m : M A) (k : A -> M B) :
  calm P pi m -> (forall a, calm P pi (k a)) -> calm P pi (bind m k).
Proof.
  intros Hm Hk w H. destruct (Hm w H) as [E I]. unfold bind.
  destruct (m w) as [[a | fl] w1]; cbn [snd] in *; [| auto].
  destruct (Hk a w1 I) as [E' I']. split; [congruence | exact I'].
Qed.

(** Reading task [pi] gives a task that satisfies [P]. *)
Lemma calm_load {B} (k : Process -> M B) :
  (forall q, P q -> calm P pi (k q)) -> calm P pi (bind (load pi) k).
Proof.
  intros Hk w H. unfold bind, load.
  pose proof H as H'.
  destruct (processes w !! pi) as [q |] eqn:Hq in H' |- *.
  - exact (Hk q (H q Hq) w H).
  - split; [reflexivity | exact H].
Qed.

Lemma calm_load_any j : calm P pi (load j).
Proof.
  intros w H. unfold load. destruct (processes w !! j); auto.
Qed.

Lemma calm_store j g :
  (forall q, P q -> P (g q)) -> calm P pi (store j g).
Proof.
  intros Hg w H. unfold store.
  destruct (processes w !! j) as [x |] eqn:Hx; [| auto].
  split; [reflexivity |]. cbn [snd processes]. intros q Hq.
  destruct (Nat.eq_dec j pi) as [-> | Hne].
  - rewrite list_lookup_insert_eq in Hq by (eapply lookup_lt_Some; eauto).
    injection Hq as <-. auto.
  - rewrite list_lookup_insert_ne in Hq by assumption. auto.
Qed.

Lemma calm_get_processes : calm P pi get_processes.
Proof. intros w H. auto. Qed.

Lemma calm_log lvl task msg : calm P pi (log lvl task msg).
Proof.
  intros w H. unfold log, emit. cbn [snd trace processes].
  rewrite events_app. cbn. rewrite app_nil_r. auto.
Qed.

Lemma calm_log_each task args : calm P pi (log_each task args).
Proof.
  induction args; cbn [log_each]; [apply calm_ret |].
  apply calm_bind; [apply calm_log | auto].
Qed.

Lemma calm_transition_loop env task group nr target ps entry :
  calm P pi (transition_loop env task group nr target ps entry).
Proof.
  intros w H. rewrite transition_loop_spec. cbn [snd trace processes].
  rewrite events_app, transition_logs_events, app_nil_r. auto.
Qed.

End Calm.

Ltac calm_step :=
  first
    [ assumption
    | apply calm_ret | apply calm_crash | apply calm_load_any
    | apply calm_store; intros ? HP; exact HP
    | apply calm_get_processes
    | apply calm_log | apply calm_log_each | apply calm_transition_loop
    | apply calm_bind; [| intros ?]
    | match goal with
      | |- calm _ _ (if ?c then _ else _) => destruct c
      | |- calm _ _ (match ?x with _ => _ end) => destruct x
      end ].
Ltac calm_tac := repeat calm_step.

Ltac calm_failed :=
  apply calm_load; intros ? [Hneg Htype];
  repeat match goal with
         | Hn : Reg.i (retvalue ?q) < 0 |- context [0 <=? Reg.i (retvalue ?q)] =>
             replace (0 <=? Reg.i (retvalue q)) with false
               by (symmetry; apply Z.leb_gt; exact Hn)
         | Hn : Reg.i (retvalue ?q) < 0 |- context [0 <? Reg.i (retvalue ?q)] =>
             replace (0 <? Reg.i (retvalue q)) with false
               by (symmetry; apply Z.ltb_ge; lia)
         end;
  rewrite ?andb_false_r.

Lemma calm_leaf env t pi depth h name udata :
  h <> fn_execve_out -> h <> fn_xxx_at ->
  calm (failed_in t) pi (call env depth h name pi udata).
Proof.
  intros Hout Hat.
  destruct h; try congruence; destruct depth; cbn [call];
    unfold syscall_unhandled_path1, syscall_unhandled_other,
      syscall_fileopening, syscall_filestat, syscall_readlink, syscall_mkdir,
      syscall_symlink, syscall_chdir, syscall_execve_in, syscall_forking,
      syscall_socketcall, syscall_accept, syscall_connect, handle_accept,
      handle_connect, syscall_unhandled_other;
    calm_failed; unfold_small; calm_tac.
Qed.

Lemma calm_bind_ret P pi {A B} (a : A) (k : A -> M B) :
  calm P pi (k a) -> calm P pi (bind (ret a) k).
Proof. intros H w. exact (H w). Qed.

Lemma calm_bind_read_entry P pi {B} t n (k : Tbl.syscall_table_entry -> M B) :
  (forall tbl e,
     syscall_tables !! t = Some tbl ->
     Tbl.entries tbl !! Z.to_nat n = Some e ->
     calm P pi (k e)) ->
  calm P pi (bind (read_entry (t, n)) k).
Proof.
  intros Hk w H. unfold read_entry, bind, in_bounds, ret, crash.
  destruct (syscall_tables !! t) as [tbl |] eqn:Ht;
    [| split; [reflexivity | exact H]].
  destruct (_ && _); [| split; [reflexivity | exact H]].
  destruct (Tbl.entries tbl !! Z.to_nat n) as [e |] eqn:He;
    [| split; [reflexivity | exact H]].
  exact (Hk tbl e eq_refl He w H).
Qed.

Lemma rows_from_lookup ok n es k e :
  rows_from ok n es = true -> es !! k = Some e -> ok (n + k)%nat e = true.
Proof.
  revert n k. induction es as [| x es IH]; intros n k Hall Hk; [easy |].
  cbn [rows_from] in Hall. apply andb_prop in Hall as [Hx Hrest].
  destruct k as [| k]; cbn in Hk.
  - injection Hk as <-. now rewrite Nat.add_0_r.
  - rewrite Nat.add_succ_r. apply (IH (S n) k); assumption.
Qed.

Lemma execve_out_rows :
  forallb (fun tbl => rows_from execve_out_row 0 (Tbl.entries tbl))
          syscall_tables = true.
Proof. vm_compute. reflexivity. Qed.

Lemma execve_out_row_number t tbl n e :
  syscall_tables !! t = Some tbl ->
  Tbl.entries tbl !! n = Some e ->
  Tbl.proc_exit e = Some fn_execve_out ->
  n = 11%nat \/ n = 59%nat \/ n = 520%nat.
Proof.
  intros Ht He Hout. pose proof execve_out_rows as Hall.
  rewrite forallb_forall in Hall.
  assert (Hin : In tbl syscall_tables)
    by (apply list_elem_of_In; eapply list_elem_of_lookup_2; eauto).
  pose proof (rows_from_lookup _ _ _ _ _ (Hall _ Hin) He) as Hrow.
  unfold execve_out_row in Hrow. rewrite Hout in Hrow. cbn [Nat.add] in Hrow.
  destruct (Nat.eqb_spec n 11), (Nat.eqb_spec n 59), (Nat.eqb_spec n 520);
    auto; discriminate.
Qed.

Lemma calm_row env t tbl n e pi depth h :
  syscall_tables !! t = Some tbl ->
  Tbl.entries tbl !! n = Some e ->
  Tbl.proc_exit e = Some h ->
  h <> fn_execve_out ->
  calm (failed_in t) pi (call env depth h (Tbl.name e) pi (Tbl.udata e)).
Proof.
  intros Ht He Hh Hout.
  assert (Hdec : h = fn_xxx_at \/ h <> fn_xxx_at)
    by (destruct h; auto; right; discriminate).
  destruct Hdec as [-> | Hne]; [| now apply calm_leaf].
  destruct (at_row_target _ _ _ _ Ht He Hh)
    as (Hlt & nm & pe & h' & u & Hrow & Hpath).
  destruct depth as [| d]; cbn [call]; [apply calm_crash |].
  unfold syscall_xxx_at. apply calm_load. intros q [Hneg Htype].
  rewrite Htype, Ht.
  assert (Hinner : forall name, calm (failed_in t) pi (call env d h' name pi u))
    by (intros name; apply calm_leaf; intros ->; discriminate).
  assert (Hother : forall name,
            calm (failed_in t) pi (syscall_unhandled_other env name pi 0))
    by (intros name;
        apply (calm_leaf env t pi 0 fn_unhandled_other name 0); discriminate).
  apply calm_bind; [unfold param; calm_tac | intros r0].
  destruct (Reg.i r0 =? AT_FDCWD); [| apply Hother].
  cbn [in_bounds]. apply calm_bind_ret. cbv zeta. rewrite Hlt, Hrow.
  unfold_small. calm_tac. apply Hinner.
Qed.

(** X7. The exit edge of a syscall that failed (negative return value),
    whose number is below the length of the task's table and is not the
    number of an execve (11, 59, 520): whatever row of the table it
    reaches, syscall_handle reports nothing to the database. *)
Theorem failed_syscall_reports_nothing env depth pi w q tbl :
  processes w !! pi = Some q ->
  in_syscall q = true ->
  Reg.i (retvalue q) < 0 ->
  let syscall := Z.land (current_syscall q) (Z.lnot __X32_SYSCALL_BIT) in
  syscall_tables !! syscall_type_of q = Some tbl ->
  syscall < Z.of_nat (Tbl.length tbl) ->
  syscall <> 11 -> syscall <> 59 -> syscall <> 520 ->
  events (trace (snd (syscall_handle env depth pi w))) = events (trace w).
Proof.
  intros Hq Hin Hneg syscall Htbl _ H11 H59 H520.
  rewrite handle_events. unfold syscall_dispatch.
  unfold bind at 1, load at 1. rewrite Hq. fold syscall.
  match goal with
  | |- events (trace (snd (?m w))) = _ =>
      enough (Hm : calm (failed_in (syscall_type_of q)) pi m)
  end.
  { apply Hm. intros q0 E. rewrite Hq in E. injection E as <-. now split. }
  rewrite Hin, Htbl, !andb_true_r.
  apply Z.eqb_neq in H11, H59. rewrite H11, H59.
  cbn [in_bounds andb].
  apply calm_bind; [unfold when; calm_tac | intros _].
  apply calm_bind_ret.
  apply calm_bind; [unfold when; calm_tac | intros _].
  destruct ((0 <=? syscall) || _) eqn:Hrange; apply calm_bind_ret;
    [| apply calm_ret].
  apply calm_bind_read_entry. intros tbl' row Ht He.
  rewrite Htbl in Ht. injection Ht as <-.
  apply calm_bind; [unfold when; calm_tac | intros _].
  destruct (Tbl.proc_entry row) as [h0 |],
    (Tbl.proc_exit row) as [h |] eqn:Hh;
    try apply calm_ret.
  all: eapply calm_row; eauto.
  all: intros ->.
  all: destruct (execve_out_row_number _ _ _ _ Htbl He Hh) as [E | [E | E]].
  all: apply Z.eqb_neq in H11, H59; lia.
Qed.

Lemma failed_syscall_reports_nothing_witness :
  let q := task100 2 (-2) [reg 4; reg 0] in
  let tbl := process_table list_x86_64 in
  Reg.i (retvalue q) < 0
  /\ syscall_tables !! syscall_type_of q = Some tbl
  /\ Z.land (current_syscall q) (Z.lnot __X32_SYSCALL_BIT)
     < Z.of_nat (Tbl.length tbl)
  /\ events (trace (snd (syscall_handle (demo_env 3 0) 1 0 (world_of [q]))))
     = [].
Proof.
  intros q tbl.
  assert (H : Reg.i (retvalue q) < 0) by (cbn; lia).
  assert (Hlt : Z.land (current_syscall q) (Z.lnot __X32_SYSCALL_BIT)
                < Z.of_nat (Tbl.length tbl)) by reflexivity.
  split; [exact H |]. split; [reflexivity |]. split; [exact Hlt |].
  exact (failed_syscall_reports_nothing (demo_env 3 0) 1 0%nat (world_of [q])
           q tbl eq_refl eq_refl H eq_refl Hlt ltac:(discriminate)
           ltac:(discriminate) ltac:(discriminate)).
Defined.

(** ** What the handlers leave alone *)

Section Steady.

Variable R : World -> World -> Prop.
Hypothesis R_refl : forall w, R w w.
Hypothesis R_trans : forall w1 w2 w3, R w1 w2 -> R w2 w3 -> R w1 w3.

Lemma steady_ret {A} (a : A) : steady R (ret a).
Proof. intros w. apply R_refl. Qed.

Lemma steady_crash {A} fl : steady R (@crash A fl).
Proof. intros w. apply R_refl. Qed.

Lemma steady_bind {A B} (m : M A) (k : A -> M B) :
  steady R m -> (forall a, steady R (k a)) -> steady R (bind m k).
Proof.
  intros Hm Hk w. specialize (Hm w). unfold bind.
  destruct (m w) as [[a | fl] w1]; cbn [snd] in *; [| exact Hm].
  eapply R_trans; [exact Hm | apply Hk].
Qed.

Lemma steady_load j : steady R (load j).
Proof. intros w. unfold load. destruct (processes w !! j); apply R_refl. Qed.

Lemma steady_get_processes : steady R get_processes.
Proof. intros w. apply R_refl. Qed.

End Steady.

Lemma same_registry_refl w : same_registry w w.
Proof. reflexivity. Qed.

Lemma same_registry_trans w1 w2 w3 :
  same_registry w1 w2 -> same_registry w2 w3 -> same_registry w1 w3.
Proof. unfold same_registry. congruence. Qed.

Lemma only_logged_refl w : only_logged w w.
Proof. split; reflexivity. Qed.

Lemma only_logged_trans w1 w2 w3 :
  only_logged w1 w2 -> only_logged w2 w3 -> only_logged w1 w3.
Proof. unfold only_logged. intros [] []. split; congruence. Qed.

Lemma same_registry_emit e : steady same_registry (emit e).
Proof. intros w. reflexivity. Qed.

Lemma same_registry_sink env e : steady same_registry (sink env e).
Proof. intros w. reflexivity. Qed.

Lemma only_logged_log lvl task msg : steady only_logged (log lvl task msg).
Proof.
  intros w. split; [reflexivity |]. unfold log, emit. cbn [snd trace].
  rewrite actions_app. cbn. apply app_nil_r.
Qed.

Ltac steady_tac :=
  repeat first
    [ assumption
    | apply (steady_ret _ same_registry_refl)
    | apply (steady_ret _ only_logged_refl)
    | apply (steady_crash _ same_registry_refl)
    | apply (steady_crash _ only_logged_refl)
    | apply (steady_load _ same_registry_refl)
    | apply (steady_load _ only_logged_refl)
    | apply (steady_get_processes _ same_registry_refl)
    | apply (steady_get_processes _ only_logged_refl)
    | apply same_registry_emit | apply same_registry_sink
    | apply only_logged_log
    | apply (steady_bind _ same_registry_trans); [| intros ?]
    | apply (steady_bind _ only_logged_trans); [| intros ?]
    | match goal with
      | |- steady _ (if ?c then _ else _) => destruct c
      | |- steady _ (match ?x with _ => _ end) => destruct x
      end ].

(** The handlers of the *at rows only report: they assign to no task. *)
Lemma path_handlers_same_registry env depth h name pi udata :
  is_path_handler h = true ->
  steady same_registry (call env depth h name pi udata).
Proof.
  intros Hh. destruct h; try discriminate Hh; destruct depth; cbn [call];
    unfold syscall_fileopening, syscall_filestat, syscall_readlink,
      syscall_mkdir, db_add_file_open, log;
    unfold_small; steady_tac.
Qed.

Lemma bind_crash {A B} (m : M A) (k : A -> M B) w fl w' :
  m w = (Crash fl, w') -> bind m k w = (Crash fl, w').
Proof. intros E. unfold bind. now rewrite E. Qed.

(** X8. An *at row of the task's table, called with AT_FDCWD as the
    directory descriptor on a task with its six register arguments: the
    wrapper answers what the handler of the row it names answers on the
    arguments shifted down by one (the last one doubled), leaves the same
    trace, and, when that handler returns, the registry as it was. *)
Theorem at_fdcwd_runs_inner env depth name pi w q a0 a1 a2 a3 a4 a5 tbl n e :
  processes w !! pi = Some q ->
  params q = [a0; a1; a2; a3; a4; a5] ->
  Reg.i a0 = AT_FDCWD ->
  syscall_tables !! syscall_type_of q = Some tbl ->
  Tbl.entries tbl !! n = Some e ->
  Tbl.proc_exit e = Some fn_xxx_at ->
  exists row h,
    Tbl.entries tbl !! Z.to_nat (Tbl.udata e) = Some row
    /\ Tbl.proc_exit row = Some h
    /\ let w_in :=
         {| processes :=
              <[pi := set_params [a1; a2; a3; a4; a5; a5] q]> (processes w);
            trace := trace w |} in
       let inner := call env depth h name pi (Tbl.udata row) w_in in
       let out := syscall_xxx_at env (call env depth) name pi (Tbl.udata e) w in
       fst out = fst inner
       /\ trace (snd out) = trace (snd inner)
       /\ (forall r, fst inner = Done r -> processes (snd out) = processes w).
Proof.
  intros Hq Hp Hfd Ht He Hat.
  destruct (at_row_target _ _ _ _ Ht He Hat)
    as (Hlt & nm & pe & h & u & Hrow & Hh).
  exists (Tbl.mk_entry (Some nm) pe (Some h) u), h.
  split; [exact Hrow |]. split; [reflexivity |].
  intros w_in inner out. subst out inner. cbn [Tbl.udata].
  assert (Hs : shift_args [a0; a1; a2; a3; a4; a5]
               = Some [a1; a2; a3; a4; a5; a5]) by reflexivity.
  assert (Hu : unshift_args [a1; a2; a3; a4; a5; a5]
               = Some [a1; a1; a2; a3; a4; a5]) by reflexivity.
  unfold syscall_xxx_at.
  erewrite bind_done by (apply load_ok; eassumption).
  unfold param. rewrite Hp. cbn [lookup list_lookup]. rewrite bind_ret.
  rewrite Hfd, Z.eqb_refl, Ht. cbn [in_bounds]. rewrite bind_ret.
  rewrite Hlt, Hrow, Hs. cbn [in_bounds]. rewrite bind_ret.
  erewrite bind_done by (apply store_ok; eassumption).
  fold w_in.
  pose proof (path_handlers_same_registry env depth h name pi u Hh w_in)
    as Hsame. unfold same_registry in Hsame.
  destruct (call env depth h name pi u w_in) as [[r | fl] w1] eqn:E;
    cbn [fst snd] in *.
  - erewrite bind_done by exact E.
    assert (L : processes w1 !! pi
                = Some (set_params [a1; a2; a3; a4; a5; a5] q)).
    { rewrite Hsame. subst w_in. cbn [processes].
      apply list_lookup_insert_eq. eapply lookup_lt_Some; eauto. }
    erewrite bind_done by (apply load_ok; exact L).
    cbn [params set_params]. rewrite Hu. cbn [in_bounds]. rewrite bind_ret.
    erewrite bind_done by (apply store_ok; exact L).
    unfold ret. cbn [fst snd trace processes].
    split; [reflexivity |]. split; [reflexivity |]. intros _ _.
    rewrite Hsame. subst w_in. cbn [processes].
    rewrite list_insert_insert_eq.
    apply list_insert_id. rewrite Hq. f_equal.
    cbn [insert list_insert]. rewrite <- Hp. destruct q; reflexivity.
  - erewrite bind_crash by exact E.
    split; [reflexivity |]. split; [reflexivity |]. intros r [=].
Qed.

Lemma at_fdcwd_runs_inner_witness :
  let q := task100 257 3
             [reg AT_FDCWD; reg 4; reg 0; reg 0; reg 0; reg 0] in
  let w := world_of [q] in
  let tbl := process_table list_x86_64 in
  let e := Tbl.mk_entry (Some "openat") None (Some fn_xxx_at) 2 in
  Reg.i (reg AT_FDCWD) = AT_FDCWD
  /\ syscall_tables !! syscall_type_of q = Some tbl
  /\ Tbl.entries tbl !! 257%nat = Some e
  /\ exists row h,
       Tbl.entries tbl !! Z.to_nat (Tbl.udata e) = Some row
       /\ Tbl.proc_exit row = Some h
       /\ let w_in :=
            {| processes :=
                 <[0%nat := set_params
                              [reg 4; reg 0; reg 0; reg 0; reg 0; reg 0] q]>
                   (processes w);
               trace := trace w |} in
          let inner := call (demo_env 0 0) 0 h (Some "openat") 0
                            (Tbl.udata row) w_in in
          let out := syscall_xxx_at (demo_env 0 0) (call (demo_env 0 0) 0)
                                    (Some "openat") 0 (Tbl.udata e) w in
          fst out = fst inner
          /\ trace (snd out) = trace (snd inner)
          /\ (forall r, fst inner = Done r ->
              processes (snd out) = processes w).
Proof.
  intros q w tbl e.
  split; [reflexivity |]. split; [reflexivity |]. split; [reflexivity |].
  exact (at_fdcwd_runs_inner (demo_env 0 0) 0 (Some "openat") 0%nat w q
           (reg AT_FDCWD) (reg 4) (reg 0) (reg 0) (reg 0) (reg 0) tbl 257 e
           eq_refl eq_refl eq_refl eq_refl eq_refl eq_refl).
Defined.

(** ** Calls relative to a directory descriptor *)

(** X9. A call relative to a directory descriptor other than AT_FDCWD (an
    *at row, or symlinkat) is not recorded: the handler answers 0, assigns
    to no task and adds at most the warning of an unhandled syscall. *)
Theorem descriptor_relative_not_recorded env depth h name pi udata w q k d :
  processes w !! pi = Some q ->
  dirfd_position h udata = Some k ->
  params q !! k = Some d ->
  Reg.i d <> AT_FDCWD ->
  call env (S depth) h name pi udata w
  = (Done 0,
     {| processes := processes w;
        trace := trace w ++ unhandled_warning env name q |}).
Proof.
  intros Hq Hpos Hk Hfd. apply Z.eqb_neq in Hfd.
  assert (Hlog : syscall_unhandled_other env name pi 0 w
                 = (Done 0,
                    {| processes := processes w;
                       trace := trace w ++ unhandled_warning env name q |})).
  { unfold syscall_unhandled_other, unhandled_warning. munfold. mlookup.
    destruct name as [nm |]; [destruct (_ && _) |]; msimpl;
      rewrite ?app_nil_r; destruct w; reflexivity. }
  destruct h; try discriminate Hpos; cbn [call dirfd_position] in *.
  - destruct (negb (udata =? 0)) eqn:Hat; [| discriminate Hpos].
    injection Hpos as <-. unfold syscall_symlink.
    erewrite bind_done by (apply load_ok; eassumption).
    rewrite Hat. rewrite (param_ok _ _ _ Hk), bind_ret, Hfd. exact Hlog.
  - injection Hpos as <-. unfold syscall_xxx_at.
    erewrite bind_done by (apply load_ok; eassumption).
    rewrite (param_ok _ _ _ Hk), bind_ret, Hfd. exact Hlog.
Qed.

Lemma descriptor_relative_not_recorded_witness :
  let q := task100 257 4 [reg 5; reg 4; reg 0; reg 0; reg 0; reg 0] in
  Reg.i (reg 5) <> AT_FDCWD
  /\ call (demo_env 1 0) 1 fn_xxx_at (Some "openat") 0 2 (world_of [q])
     = (Done 0,
        {| processes := [q];
           trace := [Log WARNING 100 (Msg_unhandled_other "openat")] |}).
Proof.
  intros q.
  assert (H : Reg.i (reg 5) <> AT_FDCWD) by discriminate.
  split; [exact H |].
  exact (descriptor_relative_not_recorded (demo_env 1 0) 0 fn_xxx_at
           (Some "openat") 0%nat 2 (world_of [q]) q 0%nat (reg 5)
           eq_refl eq_refl eq_refl H).
Defined.

(** ** symlink and symlinkat *)

(** X10. A successful symlink, or symlinkat relative to AT_FDCWD, on a task
    with a live working directory: the path reported is the one of the link
    (the second argument of symlink, the third of symlinkat), as a write of
    a directory entry; the handler answers -1 when the database refuses. *)
Theorem symlink_reports_link env name pi is_symlinkat w q link cwd :
  processes w !! pi = Some q ->
  wd q = Some cwd ->
  params q !! (if is_symlinkat =? 0 then 1%nat else 2%nat) = Some link ->
  (is_symlinkat <> 0 ->
   exists d, params q !! 1%nat = Some d /\ Reg.i d = AT_FDCWD) ->
  0 <= Reg.i (retvalue q) ->
  let event :=
    Db_add_file_open (identifier q)
      (resolve_path cwd (tracee_strdup env (tid q) (Reg.p link)))
      FILE_WRITE true in
  syscall_symlink env name pi is_symlinkat w
  = (Done (if call_status env (trace w) event =? 0 then 0 else -1),
     {| processes := processes w; trace := trace w ++ [event] |}).
Proof.
  intros Hq Hwd Hlink Hfd Hret event. subst event.
  apply Z.leb_le in Hret.
  unfold syscall_symlink.
  erewrite bind_done by (apply load_ok; eassumption).
  destruct (is_symlinkat =? 0) eqn:Hat; cbn [negb andb].
  - rewrite bind_ret.
    erewrite bind_done by (apply abs_path_arg_ok; eassumption).
    rewrite Hret. munfold.
    destruct (call_status env _ _ =? 0); reflexivity.
  - destruct Hfd as (d & Hd & Hcwd); [now apply Z.eqb_neq |].
    rewrite (param_ok _ _ _ Hd), bind_ret, Hcwd, Z.eqb_refl. cbn [negb].
    erewrite bind_done by (apply abs_path_arg_ok; eassumption).
    rewrite Hret. munfold.
    destruct (call_status env _ _ =? 0); reflexivity.
Qed.

Lemma symlink_reports_link_witness :
  let q := task100 266 0 [reg 2; reg AT_FDCWD; reg 4; reg 0; reg 0; reg 0] in
  0 <= Reg.i (retvalue q)
  /\ syscall_symlink (demo_env 0 0) (Some "symlinkat") 0 1 (world_of [q])
     = (Done 0,
        {| processes := [q];
           trace := [Db_add_file_open 7 "/home/u/data.txt" FILE_WRITE true] |}).
Proof.
  intros q.
  assert (H : 0 <= Reg.i (retvalue q)) by (cbn; lia).
  split; [exact H |].
  exact (symlink_reports_link (demo_env 0 0) (Some "symlinkat") 0%nat 1
           (world_of [q]) q (reg 4) "/home/u" eq_refl eq_refl eq_refl
           (fun _ => ex_intro _ (reg AT_FDCWD) (conj eq_refl eq_refl)) H).
Defined.

(** ** Unhandled syscalls and network connections *)

Lemma answers_zero_ret : answers_zero (ret 0).
Proof. intros w r w' [= <- _]. reflexivity. Qed.

Lemma answers_zero_crash fl : answers_zero (crash fl).
Proof. intros w r w' [=]. Qed.

Lemma answers_zero_bind {A} (m : M A) (k : A -> M Z) :
  (forall a, answers_zero (k a)) -> answers_zero (bind m k).
Proof.
  intros Hk w r w' E. apply bind_inv in E as (a & w1 & _ & E).
  exact (Hk a _ _ _ E).
Qed.

Ltac answers_zero_tac :=
  repeat first
    [ apply answers_zero_ret | apply answers_zero_crash
    | apply answers_zero_bind; intros ?
    | match goal with
      | |- answers_zero (if ?c then _ else _) => destruct c
      | |- answers_zero (match ?x with _ => _ end) => destruct x
      end ].

(** X11. The handlers of unhandled syscalls and of socketcall, accept and
    connect only write to the log: they assign to no task, make no call to
    the database, the /proc scraper or ptrace, and answer 0 whenever they
    return. *)
Theorem logging_handlers_only_log env depth h name pi udata w :
  is_logging_handler h = true ->
  let out := call env depth h name pi udata w in
  processes (snd out) = processes w
  /\ actions (trace (snd out)) = actions (trace w)
  /\ (forall r, fst out = Done r -> r = 0).
Proof.
  intros Hh out.
  assert (Hs : steady only_logged (call env depth h name pi udata)).
  { destruct h; try discriminate Hh; destruct depth; cbn [call];
      unfold syscall_unhandled_path1, syscall_unhandled_other,
        syscall_socketcall, syscall_accept, syscall_connect, handle_accept,
        handle_connect;
      unfold_small; steady_tac. }
  assert (Hz : answers_zero (call env depth h name pi udata)).
  { destruct h; try discriminate Hh; destruct depth; cbn [call];
      unfold syscall_unhandled_path1, syscall_unhandled_other,
        syscall_socketcall, syscall_accept, syscall_connect, handle_accept,
        handle_connect;
      answers_zero_tac. }
  destruct (Hs w) as [Hp Ha]. fold out in Hp, Ha.
  split; [exact Hp |]. split; [exact Ha |].
  intros r Hr. apply (Hz w r (snd out)). subst out.
  destruct (call env depth h name pi udata w) as [res w1]. cbn in *.
  now rewrite Hr.
Qed.

Lemma logging_handlers_only_log_witness :
  let q := task100 42 0 [reg 3; reg 9; reg 16; reg 0; reg 0; reg 0] in
  let out := call (demo_env 1 0) 0 fn_connect (Some "connect") 0 0
                  (world_of [q]) in
  processes (snd out) = [q]
  /\ actions (trace (snd out)) = []
  /\ (forall r, fst out = Done r -> r = 0).
Proof.
  intros q out.
  exact (logging_handlers_only_log (demo_env 1 0) 0 fn_connect
           (Some "connect") 0%nat 0 (world_of [q]) eq_refl).
Defined.

(** ** The nesting of calls through the tables *)






















(** ** execve, from entry to exit *)

Lemma log_each_spec task args w :
  log_each task args w
  = (Done tt,
     {| processes := processes w;
        trace := trace w
                 ++ List.map (fun a => Log DEBUG task (Msg_execve_arg a))
                             args |}).
Proof.
  revert w. induction args as [| a args IH]; intros w; cbn [log_each List.map].
  - destruct w; cbn. now rewrite app_nil_r.
  - munfold. rewrite IH. msimpl. now rewrite <- app_assoc.
Qed.

Lemma map_log_events {A} (f : A -> Message) lvl task (l : list A) :
  events (List.map (fun a => Log lvl task (f a)) l) = [].
Proof. induction l; [reflexivity | assumption]. Qed.

(** The run of syscall_handle on the entry edge of execve. *)
Lemma execve_entry_run env depth pi w q path r1 r2 cwd :
  processes w !! pi = Some q ->
  in_syscall q = false ->
  mode q = MODE_X86_64 /\ current_syscall q = 59
  \/ mode q = MODE_I386 /\ current_syscall q = 11 ->
  params q !! 0%nat = Some path ->
  params q !! 1%nat = Some r1 ->
  params q !! 2%nat = Some r2 ->
  wd q = Some cwd ->
  exists lg,
    events lg = []
    /\ syscall_handle env depth pi w
       = (Done 0,
          {| processes :=
               <[pi := set_in_syscall true
                         (set_syscall_info
                            (Some (execve_scratch env q cwd path r1 r2)) q)]>
                 (processes w);
             trace := trace w ++ lg ++ [Ptrace_syscall (tid q)] |}).
Proof.
  intros Hq Hin Hnr H0 H1 H2 Hwd.
  assert (Hpath : forall w0, abs_path_arg env q 0 w0
            = (Done (resolve_path cwd (tracee_strdup env (tid q) (Reg.p path))),
               w0))
    by (intros w0; now apply abs_path_arg_ok).
  exists ((if 4 <=? verbosity env
           then [Log DEBUG (tid q)
                     (Msg_syscall (current_syscall q) (syscall_type_of q))]
           else [])
          ++ (if 3 <=? verbosity env
              then [Log DEBUG (tid q) (Msg_entry_name "execve")] else [])
          ++ (if 3 <=? verbosity env
              then [Log DEBUG (tid q)
                        (Msg_execve_called
                           (binary (execve_scratch env q cwd path r1 r2)))]
                   ++ List.map (fun a => Log DEBUG (tid q) (Msg_execve_arg a))
                        (argv (execve_scratch env q cwd path r1 r2))
                   ++ [Log DEBUG (tid q)
                         (Msg_execve_envp
                            (List.length
                               (envp (execve_scratch env q cwd path r1 r2))))]
              else [])).
  split.
  { rewrite !events_app.
    destruct (4 <=? verbosity env), (3 <=? verbosity env);
      rewrite ?events_app, ?map_log_events; reflexivity. }
  assert (Hs : Z.land (current_syscall q) (Z.lnot __X32_SYSCALL_BIT)
               = current_syscall q)
    by (destruct Hnr as [[_ ->] | [_ ->]]; reflexivity).
  assert (Hcall : call env depth fn_execve_in
                  = syscall_execve_in env) by now destruct depth.
  unfold execve_scratch. cbn [binary argv envp].
  unfold syscall_handle, syscall_dispatch. munfold. repeat mlookup.
  rewrite Hs, Hin.
  destruct Hnr as [[Hm Hcs] | [Hm Hcs]];
    [assert (Htype : syscall_type_of q = SYSCALL_X86_64)
       by (unfold syscall_type_of; rewrite Hm, Hcs; reflexivity)
    |assert (Htype : syscall_type_of q = SYSCALL_I386)
       by (unfold syscall_type_of; rewrite Hm; reflexivity)];
    rewrite Htype, Hcs;
    cbn [negb Z.eqb Z.ltb Z.leb Z.compare
         Pos.compare Pos.compare_cont Pos.eqb andb orb];
    [change (syscall_tables !! SYSCALL_X86_64)
       with (Some (process_table list_x86_64))
    |change (syscall_tables !! SYSCALL_I386)
       with (Some (process_table list_i386))];
    msimpl.
  all: destruct (4 <=? verbosity env); msimpl.
  all: rewrite ?read_entry_execve_64, ?read_entry_execve_32; msimpl.
  all: cbn [Tbl.name Tbl.proc_entry Tbl.proc_exit Tbl.udata].
  all: rewrite Hcall; unfold syscall_execve_in; munfold.
  all: destruct (3 <=? verbosity env); msimpl; repeat mlookup;
    rewrite Hpath, ?H1, ?H2; msimpl; rewrite ?log_each_spec; msimpl;
    repeat mlookup; cbn [negb Z.eqb]; msimpl; repeat mlookup.
  all: cbn [in_syscall set_syscall_info binary argv envp]; rewrite Hin; msimpl;
    repeat mlookup.
  all: rewrite ?list_insert_insert_eq.
  all: cbn [app]; rewrite ?app_nil_r, <- ?app_assoc; cbn [app]; reflexivity.
Qed.

(** X13. execve from entry to exit: the entry edge stores what it reads from
    the tracee (the binary resolved against the working directory, argv,
    envp), and the exit edge, after the tracer has filled in the return
    value and the mode of the new image, reports exactly those strings, not
    what the tracee holds by then; the task ends outside any syscall with
    the scratch released. *)
Theorem execve_round_trip env env' depth depth' pi w q path r1 r2 cwd m' rv :
  processes w !! pi = Some q ->
  status q = PROCESS_ATTACHED ->
  in_syscall q = false ->
  mode q = MODE_X86_64 /\ current_syscall q = 59
  \/ mode q = MODE_I386 /\ current_syscall q = 11 ->
  params q !! 0%nat = Some path ->
  params q !! 1%nat = Some r1 ->
  params q !! 2%nat = Some r2 ->
  wd q = Some cwd ->
  0 <= Reg.i rv ->
  (forall t ev, call_status env' t ev = 0) ->
  let x := execve_scratch env q cwd path r1 r2 in
  let entered := syscall_handle env depth pi w in
  let stopped := snd (store pi (at_exit_stop m' rv) (snd entered)) in
  let out := syscall_handle env' depth' pi stopped in
  fst entered = Done 0
  /\ fst out = Done 0
  /\ events (trace (snd out))
     = events (trace w)
       ++ [Db_add_exec (identifier q) (binary x) (argv x) (envp x) cwd;
           Trace_add_files_from_proc (identifier q) (tid q) (binary x)]
  /\ processes (snd out)
     = <[pi := set_syscall_info None
                 (set_current_syscall (-1) (at_exit_stop m' rv q))]>
         (processes w).
Proof.
  intros Hq Hst Hin Hnr H0 H1 H2 Hwd Hrv Hsink x entered stopped out.
  destruct (execve_entry_run env depth pi w q path r1 r2 cwd
              Hq Hin Hnr H0 H1 H2 Hwd) as (lg & Hlg & E1).
  fold x in E1. subst out stopped entered. rewrite E1. cbn [fst snd].
  split; [reflexivity |].
  set (q1 := set_in_syscall true (set_syscall_info (Some x) q)) in *.
  assert (Hlen : (pi < List.length (processes w))%nat)
    by (eapply lookup_lt_Some; eauto).
  set (q2 := at_exit_stop m' rv q1).
  assert (Estop : snd (store pi (at_exit_stop m' rv)
                         {| processes := <[pi := q1]> (processes w);
                            trace := trace w ++ lg ++ [Ptrace_syscall (tid q)] |})
                  = {| processes := <[pi := q2]> (processes w);
                       trace := trace w ++ lg ++ [Ptrace_syscall (tid q)] |}).
  { unfold store. cbn [processes trace].
    rewrite list_lookup_insert_eq by assumption. cbn [snd].
    now rewrite list_insert_insert_eq. }
  rewrite Estop.
  assert (Hnr' : current_syscall q = 59 \/ current_syscall q = 11)
    by (destruct Hnr as [[_ ?] | [_ ?]]; auto).
  rewrite (execve_exit_run env' depth' pi _ q2 x cwd (current_syscall q));
    try assumption; try reflexivity.
  2: { cbn [processes]. now apply list_lookup_insert_eq. }
  cbn [fst snd processes trace].
  split; [reflexivity |]. split.
  - rewrite !events_app, transition_logs_events, Hlg.
    subst q2. cbn [retvalue at_exit_stop].
    apply Z.leb_le in Hrv. rewrite Hrv.
    destruct (4 <=? verbosity env'), (3 <=? verbosity env'),
      (2 <=? verbosity env'); cbn; rewrite ?app_nil_r; reflexivity.
  - rewrite list_insert_insert_eq. f_equal. subst q2 q1.
    destruct q. cbn in *. subst. reflexivity.
Qed.

Lemma execve_round_trip_witness :
  let q := set_in_syscall false
             (task100 59 0 [reg 2; reg 9; reg 0; reg 0; reg 0; reg 0]) in
  let entered := syscall_handle (demo_env 0 0) 1 0 (world_of [q]) in
  let stopped := snd (store 0 (at_exit_stop MODE_I386 (reg 0)) (snd entered)) in
  let other :=
    {| verbosity := 0;
       tracee_strdup := fun _ _ => "gone";
       tracee_strarraydup := fun _ _ _ => [];
       tracee_read := fun _ _ _ => [];
       tracee_getptr := fun _ _ _ => 0;
       tracee_getlong := fun _ _ _ => 0;
       path_is_dir := fun _ => false;
       trace_count_processes := fun _ => (0, 0);
       call_status := fun _ _ => 0;
       db_new_identifier := fun _ => 0 |} in
  let out := syscall_handle other 1 0 stopped in
  0 <= Reg.i (reg 0)
  /\ (forall t ev, call_status other t ev = 0)
  /\ fst out = Done 0
  /\ events (trace (snd out))
     = [Db_add_exec 7 "/bin/ls" ["ls"] [] "/home/u";
        Trace_add_files_from_proc 7 100 "/bin/ls"].
Proof.
  intros q entered stopped other out.
  assert (Hrv : 0 <= Reg.i (reg 0)) by (cbn; lia).
  assert (Hsink : forall t ev, call_status other t ev = 0) by reflexivity.
  split; [exact Hrv |]. split; [exact Hsink |].
  destruct (execve_round_trip (demo_env 0 0) other 1 1 0%nat (world_of [q]) q
              (reg 2) (reg 9) (reg 0) "/home/u" MODE_I386 (reg 0)
              eq_refl eq_refl eq_refl (or_introl (conj eq_refl eq_refl))
              eq_refl eq_refl eq_refl eq_refl Hrv Hsink)
    as (_ & Hout & Hev & _).
  split; [exact Hout | exact Hev].
Defined.

(** ** The working directory, from chdir to the next relative path *)

(** X14. After a successful chdir, a relative path opened by the task is
    resolved against the directory chdir recorded: the two events are the
    change of directory and the open of the path under the new directory.
    Between the two exits the tracer fills in the arguments and the return
    value of the open. *)
Theorem chdir_then_relative_open env name name' pi w q dir cwd args rv
    path flags :
  processes w !! pi = Some q ->
  params q !! 0%nat = Some dir ->
  wd q = Some cwd ->
  0 <= Reg.i (retvalue q) ->
  args !! 0%nat = Some path ->
  args !! 1%nat = Some flags ->
  0 <= Reg.i rv ->
  is_absolute (tracee_strdup env (tid q) (Reg.p path)) = false ->
  let new_wd := resolve_path cwd (tracee_strdup env (tid q) (Reg.p dir)) in
  let opened := abspath new_wd (tracee_strdup env (tid q) (Reg.p path)) in
  let w1 := snd (syscall_chdir env name pi 0 w) in
  let w2 :=
    snd (store pi (fun t => at_exit_stop (mode t) rv (set_params args t)) w1) in
  events (trace (snd (syscall_fileopening env name' pi SYSCALL_OPENING_OPEN
                                          w2)))
  = events (trace w)
    ++ [Db_add_file_open (identifier q) new_wd FILE_WDIR true;
        Db_add_file_open (identifier q) opened (flags2mode (Reg.u flags))
                         (path_is_dir env opened)].
Proof.
  intros Hq Hdir Hwd Hret H0 H1 Hrv Hrel new_wd opened w1 w2.
  apply Z.leb_le in Hret, Hrv.
  assert (Hlen : (pi < List.length (processes w))%nat)
    by (eapply lookup_lt_Some; eauto).
  assert (E1 : w1 = {| processes := <[pi := set_wd (Some new_wd) q]>
                                      (processes w);
                       trace := trace w
                                ++ [Db_add_file_open (identifier q) new_wd
                                                     FILE_WDIR true] |}).
  { subst w1. unfold syscall_chdir.
    erewrite bind_done by (apply load_ok; eassumption).
    erewrite bind_done by (apply abs_path_arg_ok; eassumption).
    fold new_wd. rewrite Hret, Hwd. munfold. mlookup.
    destruct (negb _); reflexivity. }
  set (q2 := at_exit_stop (mode q) rv (set_params args (set_wd (Some new_wd) q))).
  assert (E2 : w2 = {| processes := <[pi := q2]> (processes w);
                       trace := trace w1 |}).
  { subst w2. rewrite E1. unfold store. cbn [processes trace].
    rewrite list_lookup_insert_eq by assumption. cbn [snd].
    now rewrite list_insert_insert_eq. }
  assert (Hq2 : processes w2 !! pi = Some q2)
    by (rewrite E2; cbn [processes]; now apply list_lookup_insert_eq).
  destruct (fileopening_open_events env name' pi w2 q2 path flags Hq2 H0 H1)
    as (r & w3 & E3 & _ & Hev).
  rewrite E3. cbn [snd]. rewrite Hev, E2. cbn [trace]. rewrite E1.
  cbn [trace]. rewrite events_app. cbn [events List.filter is_event app].
  rewrite <- app_assoc. f_equal. cbn [app]. f_equal.
  unfold open_events. subst q2.
  cbn [tid wd identifier retvalue at_exit_stop set_params set_wd].
  rewrite Hrel, Hrv. reflexivity.
Qed.

Lemma chdir_then_relative_open_witness :
  let q := task100 80 0 [reg 3; reg 0; reg 0; reg 0; reg 0; reg 0] in
  let w1 := snd (syscall_chdir (demo_env 0 0) (Some "chdir") 0 0
                               (world_of [q])) in
  let w2 :=
    snd (store 0 (fun t => at_exit_stop (mode t) (reg 5)
                             (set_params [reg 4; reg 0] t)) w1) in
  0 <= Reg.i (reg 5)
  /\ is_absolute (tracee_strdup (demo_env 0 0) 100 (Reg.p (reg 4))) = false
  /\ events (trace (snd (syscall_fileopening (demo_env 0 0) (Some "open") 0
                                             SYSCALL_OPENING_OPEN w2)))
     = [Db_add_file_open 7 "/tmp" FILE_WDIR true;
        Db_add_file_open 7 "/tmp/data.txt" FILE_READ false].
Proof.
  intros q w1 w2.
  assert (Hrv : 0 <= Reg.i (reg 5)) by (cbn; lia).
  assert (Hq : 0 <= Reg.i (retvalue q)) by (cbn; lia).
  split; [exact Hrv |]. split; [reflexivity |].
  exact (chdir_then_relative_open (demo_env 0 0) (Some "chdir") (Some "open")
           0%nat (world_of [q]) q (reg 3) "/home/u" [reg 4; reg 0] (reg 5)
           (reg 4) (reg 0) eq_refl eq_refl eq_refl Hq eq_refl eq_refl Hrv
           eq_refl).
Defined.

(** ** print_sockaddr stays inside the buffer *)

Lemma byte_at_take (a : list Z) len n :
  (n < len)%nat -> byte_at (take len a) n = byte_at a n.
Proof. intros H. unfold byte_at. now rewrite lookup_take_lt. Qed.

Lemma le_uint_take (a : list Z) len n :
  (n <= len)%nat -> le_uint n (take len a) = le_uint n a.
Proof.
  revert a len. induction n as [| n IH]; intros a len H; [reflexivity |].
  cbn [le_uint]. destruct len as [| len]; [lia |].
  rewrite byte_at_take by lia. f_equal. f_equal.
  destruct a as [| x a]; [reflexivity |]. cbn [take tail].
  apply IH. lia.
Qed.

Lemma be_uint16_take (a : list Z) len off :
  (S off < len)%nat -> be_uint16 (take len a) off = be_uint16 a off.
Proof. intros H. unfold be_uint16. now rewrite !byte_at_take by lia. Qed.

Lemma field_take (a : list Z) len off size :
  (off + size <= len)%nat ->
  take size (drop off (take len a)) = take size (drop off a).
Proof.
  intros H. rewrite !take_drop_commute, take_take.
  f_equal. f_equal. lia.
Qed.

Lemma print_sockaddr_take address addrlen :
  sizeof_short <= addrlen ->
  print_sockaddr (take (Z.to_nat addrlen) address) addrlen
  = print_sockaddr address addrlen.
Proof.
  intros Hlen. unfold sizeof_short in Hlen. unfold print_sockaddr.
  rewrite le_uint_take by lia.
  destruct (_ =? AF_INET); cbn [andb].
  - destruct (Z.leb_spec sizeof_sockaddr_in addrlen) as [H | H].
    + unfold sizeof_sockaddr_in in H.
      rewrite field_take, be_uint16_take by lia. reflexivity.
    + destruct (Z.leb_spec sizeof_sockaddr_in6 addrlen) as [H6 | H6];
        [unfold sizeof_sockaddr_in, sizeof_sockaddr_in6 in *; lia |].
      now rewrite andb_false_r.
  - destruct (_ =? AF_INET6); cbn [andb]; [| reflexivity].
    destruct (Z.leb_spec sizeof_sockaddr_in6 addrlen) as [H | H];
      [| reflexivity].
    unfold sizeof_sockaddr_in6 in H.
    rewrite field_take, be_uint16_take by lia. reflexivity.
Qed.

(** X15. print_sockaddr reads only the [addrlen] bytes the caller copied
    from the tracee: on two buffers that agree on their first [addrlen]
    bytes (at least the two of the family) it prints the same endpoint. *)
Theorem print_sockaddr_reads_inside a b addrlen :
  sizeof_short <= addrlen ->
  take (Z.to_nat addrlen) a = take (Z.to_nat addrlen) b ->
  print_sockaddr a addrlen = print_sockaddr b addrlen.
Proof.
  intros Hlen Hsame.
  rewrite <- (print_sockaddr_take a addrlen Hlen).
  rewrite <- (print_sockaddr_take b addrlen Hlen).
  now rewrite Hsame.
Qed.

Lemma print_sockaddr_reads_inside_witness :
  let a := [2; 0; 0; 80; 127; 0; 0; 1; 0; 0; 0; 0; 0; 0; 0; 0; 9; 9] in
  let b := [2; 0; 0; 80; 127; 0; 0; 1; 0; 0; 0; 0; 0; 0; 0; 0] in
  sizeof_short <= 16
  /\ take (Z.to_nat 16) a = take (Z.to_nat 16) b
  /\ print_sockaddr a 16 = Inet4 [127; 0; 0; 1] 80
  /\ print_sockaddr a 16 = print_sockaddr b 16.
Proof.
  intros a b.
  assert (H : sizeof_short <= 16) by (unfold sizeof_short; lia).
  split; [exact H |]. split; [reflexivity |]. split; [reflexivity |].
  exact (print_sockaddr_reads_inside a b 16 H eq_refl).
Defined.

(** ** Syscalls without a handler *)

Lemma tables_below_2000 :
  forallb (fun tbl => Z.of_nat (List.length (Tbl.entries tbl)) <? 2000)
          syscall_tables = true.
Proof. vm_compute. reflexivity. Qed.

(** X16. A syscall whose number is inside the task's table, is not an
    execve number (59, 11), and whose row has no handler for the edge the
    task is on (an empty row, or a row with an exit handler only seen at
    entry): no handler is called, the task is flipped and resumed, and
    syscall_handle answers 0. *)
Theorem syscall_without_handler_is_resumed env depth pi w q tbl e :
  processes w !! pi = Some q ->
  let syscall := Z.land (current_syscall q) (Z.lnot __X32_SYSCALL_BIT) in
  syscall <> 59 -> syscall <> 11 ->
  0 <= syscall ->
  syscall_tables !! syscall_type_of q = Some tbl ->
  Tbl.entries tbl !! Z.to_nat syscall = Some e ->
  handler_for q e = None ->
  syscall_handle env depth pi w
  = (Done 0,
     {| processes := <[pi := flipped q]> (processes w);
        trace :=
          trace w
          ++ (if 4 <=? verbosity env
              then [Log DEBUG (tid q) (Msg_syscall syscall (syscall_type_of q))]
              else [])
          ++ match Tbl.name e with
             | Some nm => if 3 <=? verbosity env
                          then [Log DEBUG (tid q) (Msg_entry_name nm)] else []
             | None => []
             end
          ++ [Ptrace_syscall (tid q)] |}).
Proof.
  intros Hq syscall H59 H11 Hpos Htbl He Hnone.
  assert (Hlt : syscall < Z.of_nat (List.length (Tbl.entries tbl)))
    by (apply lookup_lt_Some in He; lia).
  assert (Hshort : Z.of_nat (List.length (Tbl.entries tbl)) < 2000).
  { pose proof tables_below_2000 as Hall. rewrite forallb_forall in Hall.
    apply Z.ltb_lt. apply Hall. apply list_elem_of_In.
    eapply list_elem_of_lookup_2; eauto. }
  assert (Hread : forall w0, read_entry (syscall_type_of q, syscall) w0
                             = (Done e, w0)).
  { intros w0. unfold read_entry. rewrite Htbl. cbn [in_bounds].
    rewrite bind_ret.
    replace (0 <=? syscall) with true by (symmetry; now apply Z.leb_le).
    replace (syscall <? Z.of_nat (List.length (Tbl.entries tbl))) with true
      by (symmetry; now apply Z.ltb_lt).
    cbn [andb]. now rewrite He. }
  apply Z.eqb_neq in H59, H11.
  assert (Hneg : (syscall <? 0) = false) by (apply Z.ltb_ge; lia).
  assert (Hbig : (2000 <=? syscall) = false) by (apply Z.leb_gt; lia).
  apply Z.leb_le in Hpos.
  unfold handler_for in Hnone. unfold flipped.
  unfold syscall_handle, syscall_dispatch. munfold. repeat mlookup.
  fold syscall. rewrite Htbl. msimpl.
  rewrite H59, H11, Hneg, Hbig, Hpos. cbn [andb orb].
  destruct (in_syscall q) eqn:Hin.
  all: destruct (4 <=? verbosity env); msimpl; rewrite Hread; msimpl.
  all: destruct (Tbl.name e) as [nm |];
    [destruct (3 <=? verbosity env) |]; msimpl.
  all: rewrite Hnone; try (destruct (Tbl.proc_entry e); msimpl).
  all: cbn [negb Z.eqb]; msimpl; repeat mlookup; rewrite Hin; msimpl;
    repeat mlookup.
  all: rewrite ?list_insert_insert_eq, ?app_nil_r, <- ?app_assoc;
    reflexivity.
Qed.

Lemma syscall_without_handler_is_resumed_witness :
  let q := task100 0 5 [] in
  0 <= Z.land (current_syscall q) (Z.lnot __X32_SYSCALL_BIT)
  /\ syscall_handle (demo_env 0 0) 1 0 (world_of [q])
     = (Done 0,
        {| processes := [flipped q]; trace := [Ptrace_syscall 100] |}).
Proof.
  intros q.
  assert (H : 0 <= Z.land (current_syscall q) (Z.lnot __X32_SYSCALL_BIT))
    by (vm_compute; congruence).
  split; [exact H |].
  exact (syscall_without_handler_is_resumed (demo_env 0 0) 1 0%nat
           (world_of [q]) q (process_table list_x86_64) null_entry
           eq_refl ltac:(discriminate) ltac:(discriminate) H eq_refl eq_refl
           eq_refl).
Defined.
